(** * fmriprepgr.reports: consolidation of per-subject fMRIPrep reports

    A shallow embedding of [src/fmriprepgr/reports.py]:
    - [parse_report], [_unique_retrieval]: extraction of one row per
      embedded figure from a parsed report, and the report-type column;
    - [_make_report_snippet]: the per-row HTML fragment and its state;
    - [make_report]: validation of the image-change options, creation of
      the group tree, grouping, pagination and writing of the documents.

    Python values are embedded as [value], dictionaries as association
    lists in insertion order, pandas tables as [DataFrame], exceptions as
    the [Raise] side of [res], and the file system as a finite map from
    resolved paths to entries that is threaded through [make_report]. *)

From Stdlib Require Import ZArith String Ascii List Lia Bool DecimalString
  DecimalZ DecimalPos.
From stdpp Require Import base gmap strings list sorting.

#[global] Set Warnings "-register-all,-clear-no-such-hyp".

(** ** Python values *)

(** Scalars that occur in rows and in the options: [VNaN] is [np.nan],
    the null of pandas ([isnull] is true of it and of [None]); [VInf] is
    the float that integer floor division by zero yields in pandas;
    [VFloat z] is the float of the integer [z], as pandas holds an
    integer in a float64 column ([1] becomes [1.0]); entity values and
    page numbers are small, and such a float prints with the
    fraction [.0]. *)
Inductive value :=
| VNone
| VNaN
| VInf
| VBool (b : bool)
| VInt (z : Z)
| VFloat (z : Z)
| VStr (s : string).

#[global] Instance value_eq_dec : EqDecision value.
Proof. solve_decision. Defined.

Definition isnull (v : value) : bool :=
  match v with
  | VNone | VNaN => true
  | _ => false
  end.

Definition notnull (v : value) : bool := negb (isnull v).

Definition str_of_Z (z : Z) : string := NilZero.string_of_int (Z.to_int z).

(** [str(v)], as an f-string interpolates it. *)
Definition str (v : value) : string :=
  match v with
  | VNone => "None"
  | VNaN => "nan"
  | VInf => "inf"
  | VBool true => "True"
  | VBool false => "False"
  | VInt z => str_of_Z z
  | VFloat z => str_of_Z z +:+ ".0"
  | VStr s => s
  end.

(** A [dict] with string keys: insertion order is kept, assignment to a
    key that is present replaces its value in place. *)
Abbreviation dict := (list (string * value)).

Fixpoint dict_get (k : string) (d : dict) : option value :=
  match d with
  | [] => None
  | (k', v) :: d' => if String.eqb k k' then Some v else dict_get k d'
  end.

Fixpoint dict_set (k : string) (v : value) (d : dict) : dict :=
  match d with
  | [] => [(k, v)]
  | (k', v') :: d' =>
      if String.eqb k k' then (k, v) :: d' else (k', v') :: dict_set k v d'
  end.

Definition keys (d : dict) : list string := map fst d.

(** ** Paths

    A path is the tuple of its [parts], as pathlib has it: an absolute
    path starts with the part ["/"]. *)
Abbreviation path := (list string).

Fixpoint split_on (sep : ascii) (s : string) : list string :=
  match s with
  | EmptyString => [EmptyString]
  | String c s' =>
      if Ascii.eqb c sep then EmptyString :: split_on sep s'
      else match split_on sep s' with
           | [] => [String c EmptyString]
           | w :: ws => String c w :: ws
           end
  end.

Definition nonempty_part (s : string) : bool :=
  negb (String.eqb s EmptyString || String.eqb s ".").

(** [Path(s)]: empty and ["."] segments vanish, a leading slash is the
    root part (two leading slashes are not told apart from one). *)
Definition Path (s : string) : path :=
  let segs := filter (fun x => Is_true (nonempty_part x)) (split_on "/" s) in
  match s with
  | String "/" _ => "/"%string :: segs
  | _ => segs
  end.

(** [p / q] *)
Definition joinpath (p q : path) : path :=
  match q with
  | "/"%string :: _ => q
  | _ => p ++ q
  end.

(** [p.as_posix()], also [str(p)] *)
Definition as_posix (p : path) : string :=
  match p with
  | [] => "."
  | "/"%string :: rest => "/" +:+ String.concat "/" rest
  | _ => String.concat "/" p
  end.

(** [p.parent] *)
Definition parent (p : path) : path :=
  match p with
  | [] => []
  | [r] => if String.eqb r "/" then p else []
  | _ => removelast p
  end.

(** ** Exceptions *)

(** The messages the module formats; the interpolated values are kept as
    they are instead of their text. Only the first piece of the message
    of line 300 is an f-string: it interpolates the subject and not the
    expected directory. *)
Inductive message :=
| MsgMoreThanOne (elem_identifier search_identifier : string)
| MsgNone (elem_identifier search_identifier : string)
| MsgSingleWay (intersection : gset string) (first second : string)
| MsgPathToFigures (path_to_figures : string) (should_exist : path)
| MsgWouldBeOverwritten (subj_group_fig_dir : path)
| MsgDoesNotExist (image_path : path)
| MsgIsSymlink (image_path : path)
| MsgNoObjectsToConcatenate
| MsgUnknownFormatCode
| MsgNotRelativeTo (p base : path)
| MsgExpectedLocation (subject : string)
| MsgOS (p : path).

Inductive exn :=
| ValueError (m : message)
| FileNotFoundError (m : message)
| FileExistsError (m : message)
| NotADirectoryError (m : message)
| IsADirectoryError (m : message)
| TypeError
| AttributeError (name : string)
| KeyError (key : string)
| IndexError.

Inductive res (A : Type) :=
| Ok (a : A)
| Raise (e : exn).
Arguments Ok {A} a.
Arguments Raise {A} e.

Definition res_bind {A B} (r : res A) (k : A -> res B) : res B :=
  match r with
  | Ok a => k a
  | Raise e => Raise e
  end.

Declare Scope res_scope.
Delimit Scope res_scope with res.
Notation "x <- r ;; k" := (res_bind r (fun x => k))
  (at level 100, r at next level, right associativity) : res_scope.

(** ** The parsed report (BeautifulSoup) *)

(** An attribute value is a string, or a list of strings for the
    multi-valued attributes: the parser always splits [class]. *)
Inductive attr :=
| AStr (s : string)
| AList (l : list string).

Inductive node :=
| Text (s : string)
| Tag (name : string) (attrs : list (string * attr)) (children : list node).

Fixpoint attr_get (k : string) (attrs : list (string * attr)) : option attr :=
  match attrs with
  | [] => None
  | (k', a) :: rest => if String.eqb k k' then Some a else attr_get k rest
  end.

(** [tag.get(k)] *)
Definition get (k : string) (n : node) : option attr :=
  match n with
  | Tag _ attrs _ => attr_get k attrs
  | Text _ => None
  end.

(** How [findAll(attrs={k: s})] matches an attribute value: one of the
    listed values, or the whole value. *)
Definition attr_matches (s : string) (a : attr) : bool :=
  match a with
  | AStr t => String.eqb t s
  | AList l => existsb (String.eqb s) l || String.eqb (String.concat " " l) s
  end.

Definition has_class (cls : string) (n : node) : bool :=
  match get "class" n with
  | Some a => attr_matches cls a
  | None => false
  end.

Definition named (name : option string) (n : node) : bool :=
  match n, name with
  | Tag nm _ _, Some want => String.eqb nm want
  | Tag _ _ _, None => true
  | Text _, _ => false
  end.

(** The nodes below [n], in document order. *)
Fixpoint descendants (n : node) : list node :=
  match n with
  | Text _ => []
  | Tag _ _ ch => flat_map (fun c => c :: descendants c) ch
  end.

(** [n.findAll(name, attrs={'class': cls})] *)
Definition findAll (name : option string) (cls : string) (n : node) : list node :=
  filter (fun d => Is_true (named name d && has_class cls d)) (descendants n).

(** [n.text] *)
Fixpoint text (n : node) : string :=
  match n with
  | Text s => s
  | Tag _ _ ch => String.concat EmptyString (map text ch)
  end.

(** A figure node together with what the loop of [parse_report] reaches
    from it: [fd.parent] and [fd.previous_siblings] (nearest first). *)
Record located := Located {
  fd : node;
  fd_parent : node;
  fd_previous_siblings : list node
}.

Fixpoint walk_children {A} (f : list node -> node -> list A)
    (prevs : list node) (cs : list node) : list A :=
  match cs with
  | [] => []
  | c :: cs' => f prevs c ++ walk_children f (c :: prevs) cs'
  end.

Fixpoint locate_in (up : node) (prevs : list node) (n : node) : list located :=
  (if has_class "svg-reportlet" n then [Located n up prevs] else []) ++
  match n with
  | Text _ => []
  | Tag _ _ ch => walk_children (locate_in n) [] ch
  end.

(** [soup.findAll(attrs={'class':'svg-reportlet'})], each with its place. *)
Definition file_divs (soup : node) : list located :=
  match soup with
  | Text _ => []
  | Tag _ _ ch => walk_children (locate_in soup) [] ch
  end.

(** ** Extraction of the report elements *)

(** [_unique_retrieval]: the text of the only element of a result set. *)
Definition _unique_retrieval (element_list : list node)
    (elem_identifier search_identifier : string) : res string :=
  if Nat.ltb 1 (length element_list) then
    Raise (ValueError (MsgMoreThanOne elem_identifier search_identifier))
  else if Nat.eqb (length element_list) 0 then
    Raise (ValueError (MsgNone elem_identifier search_identifier))
  else
    match element_list with
    | x :: _ => Ok (text x)
    | [] => Raise IndexError
    end.

(** [fd.get('src', fd.get('data'))] *)
Definition fig_path_of (n : node) : option attr :=
  match get "src" n with
  | Some a => Some a
  | None => get "data" n
  end.

(** The test of the sibling scan,
    [isinstance(prev, Tag) and prev.has_attr('class')
     and prev.get('class', '') == 'elem-caption']:
    a list of classes is never equal to a string. *)
Definition is_caption_sibling (prev : node) : bool :=
  match prev with
  | Text _ => false
  | Tag _ attrs _ =>
      match attr_get "class" attrs with
      | None => false
      | Some (AStr s) => String.eqb s "elem-caption"
      | Some (AList _) => false
      end
  end.

(** The loop [for prev in fd.previous_siblings] of the caption fallback:
    every sibling that passes the test assigns, none stops the loop. *)
Definition scan_previous_siblings (prevs : list node) (row : dict) : dict :=
  fold_left
    (fun row prev =>
       if is_caption_sibling prev
       then dict_set "elem_caption" (VStr (text prev)) row
       else row)
    prevs row.

Section Extraction.

(** [layout.parse_file_entities(p, config=['bids', 'derivatives'])],
    the entity grammar of pybids. *)
Variable parse_file_entities : string -> dict.

(** One turn of the loop of [parse_report]: the row of [l] and the new
    [prev_run_title]. *)
Definition figure_row (prev_run_title : value) (l : located)
  : res (dict * value) :=
  match fig_path_of (fd l) with
  | Some (AStr fig_path) =>
      let row := parse_file_entities fig_path in
      let row := dict_set "path" (VStr fig_path) row in
      match last (Path fig_path) with
      | None => Raise IndexError
      | Some filename =>
          let row := dict_set "filename" (VStr filename) row in
          let elem_identifier := "Parent div of " +:+ fig_path in
          let run_titles := findAll (Some "h3"%string) "run-title" (fd_parent l) in
          match
            match _unique_retrieval run_titles elem_identifier "run-title" with
            | Ok t => Ok (dict_set "run_title" (VStr t) row, VStr t)
            | Raise (ValueError _) =>
                Ok (dict_set "run_title" prev_run_title row, prev_run_title)
            | Raise e => Raise e
            end
          with
          | Raise e => Raise e
          | Ok (row, prev_run_title) =>
              let elem_captions :=
                findAll (Some "p"%string) "elem-caption" (fd_parent l) in
              match _unique_retrieval elem_captions elem_identifier "elem-caption" with
              | Ok t => Ok (dict_set "elem_caption" (VStr t) row, prev_run_title)
              | Raise (ValueError _) =>
                  Ok (scan_previous_siblings (fd_previous_siblings l) row,
                      prev_run_title)
              | Raise e => Raise e
              end
          end
      end
  | _ => Raise TypeError
  end.

Fixpoint figure_rows (prev_run_title : value) (fds : list located)
  : res (list dict) :=
  match fds with
  | [] => Ok []
  | l :: rest =>
      match figure_row prev_run_title l with
      | Raise e => Raise e
      | Ok (row, prev_run_title) =>
          match figure_rows prev_run_title rest with
          | Raise e => Raise e
          | Ok rows => Ok (row :: rows)
          end
      end
  end.

End Extraction.

(** ** Tables (pandas) *)

(** A table is its column names and its records; every record has every
    column, missing cells hold [VNaN]. *)
Record DataFrame := mkDataFrame {
  columns : list string;
  records : list dict
}.

Definition add_key (acc : list string) (k : string) : list string :=
  if bool_decide (k ∈ acc) then acc else acc ++ [k].

(** The columns of a table made of dictionaries: their keys in order of
    first appearance. *)
Definition union_keys (rows : list dict) : list string :=
  fold_left (fun acc r => fold_left add_key (keys r) acc) rows [].

Definition cell (c : string) (r : dict) : value := default VNaN (dict_get c r).

Definition is_number (v : value) : bool :=
  match v with
  | VInt _ | VFloat _ | VInf => true
  | _ => false
  end.

Definition is_int (v : value) : bool :=
  match v with
  | VInt _ => true
  | _ => false
  end.

(** The dtype that pandas infers for a column is float64 when its cells
    are numbers and nulls, one number at least, and not integers
    throughout. *)
Definition float_column (vs : list value) : bool :=
  forallb (fun v => is_number v || isnull v) vs
  && existsb is_number vs
  && negb (forallb is_int vs).

Definition to_float (v : value) : value :=
  match v with
  | VInt z => VFloat z
  | VNone => VNaN
  | _ => v
  end.

(** A cell as a column of cells [vs] holds it: in a float64 column an
    integer is a float and [None] is [np.nan]. *)
Definition astype (vs : list value) (v : value) : value :=
  if float_column vs then to_float v else v.

(** The row [r] of the rows [rows] laid out on the columns [cols],
    every cell with the type of its column. *)
Definition reindex (rows : list dict) (cols : list string) (r : dict) : dict :=
  map (fun c => (c, astype (map (cell c) rows) (cell c r))) cols.

(** [pd.DataFrame(rows)] *)
Definition DataFrame_of_records (rows : list dict) : DataFrame :=
  let cols := union_keys rows in
  mkDataFrame cols (map (reindex rows cols) rows).

(** [df.c]: attribute access to a column. *)
Definition getattr (c : string) (df : DataFrame) : res (list value) :=
  if bool_decide (c ∈ columns df) then Ok (map (cell c) (records df))
  else Raise (AttributeError c).

(** [df[c] = vs] *)
Definition setitem (c : string) (vs : list value) (df : DataFrame) : DataFrame :=
  mkDataFrame (add_key (columns df) c)
              (zip_with (fun r v => dict_set c v r) (records df) vs).

(** [df.loc[ind, c] = vs.loc[ind]] *)
Definition loc_setitem (ind : list bool) (c : string) (vs : list value)
    (df : DataFrame) : DataFrame :=
  mkDataFrame (columns df)
    (zip_with (fun r (bv : bool * value) =>
                 if bv.1 then dict_set c bv.2 r else r)
              (records df) (zip ind vs)).

(** The report-type column of [parse_report]. *)
Definition classify (report_elements : DataFrame) : res DataFrame :=
  (desc <- getattr "desc" report_elements ;;
   let report_elements := setitem "report_type" desc report_elements in
   report_type <- getattr "report_type" report_elements ;;
   suffix <- getattr "suffix" report_elements ;;
   let dseg_ind :=
     zip_with (fun rt s => isnull rt && bool_decide (s = VStr "dseg"))
              report_type suffix in
   let report_elements :=
     loc_setitem dseg_ind "report_type" suffix report_elements in
   if bool_decide ("space"%string ∈ columns report_elements) then
     report_type <- getattr "report_type" report_elements ;;
     space <- getattr "space" report_elements ;;
     let t1w_ind :=
       zip_with (fun rt sp => isnull rt && notnull sp) report_type space in
     Ok (loc_setitem t1w_ind "report_type" space report_elements)
   else Ok report_elements)%res.

(** [parse_report], from the parsed document on. *)
Definition parse_soup (parse_file_entities : string -> dict) (soup : node)
  : res DataFrame :=
  (report_elements <- figure_rows parse_file_entities VNaN (file_divs soup) ;;
   classify (DataFrame_of_records report_elements))%res.

(** ** The report snippet *)

(** What [json.dumps] is given: scalars, lists and objects. *)
Inductive json :=
| JVal (v : value)
| JList (l : list json)
| JDict (d : list (string * json)).

Definition json_of_dict (d : dict) : json :=
  JDict (map (fun kv : string * value => (kv.1, JVal kv.2)) d).

(** The member [k] of a JSON object. *)
Fixpoint json_members_get (k : string) (d : list (string * json)) : option json :=
  match d with
  | [] => None
  | (k', j) :: d' => if String.eqb k k' then Some j else json_members_get k d'
  end.

Definition json_get (k : string) (j : json) : option json :=
  match j with
  | JDict d => json_members_get k d
  | _ => None
  end.

Definition id_blacklist : list string :=
  ["path"; "run_title"; "elem_caption"; "extension"; "filename"]%string.

Definition header_blacklist : list string :=
  id_blacklist ++ ["desc"; "report_type"; "idx"; "chunk"]%string.

(** [{k: v for k, v in row.items() if k not in blacklist}] *)
Definition without (blacklist : list string) (row : dict) : dict :=
  filter (fun kv : string * value => kv.1 ∉ blacklist) row.

(** The state of a row, [id_ents] as it is handed to [json.dumps]. *)
Definition id_ents (row : dict) : dict :=
  let id_ents := without id_blacklist row in
  let id_ents := dict_set "been_on_screen" (VBool false) id_ents in
  let id_ents := dict_set "rater" VNaN id_ents in
  let id_ents := dict_set "report" VNaN id_ents in
  dict_set "note" VNaN id_ents.

Definition getitem (k : string) (row : dict) : res value :=
  match dict_get k row with
  | Some v => Ok v
  | None => Raise (KeyError k)
  end.

Definition dq : string := String (ascii_of_nat 34) EmptyString.
Definition nl : string := String (ascii_of_nat 10) EmptyString.

Definition header_vals (row : dict) : list string :=
  map (fun kv : string * value =>
         kv.1 +:+ " <span class=" +:+ dq +:+ "bids-entity" +:+ dq +:+ ">"
              +:+ str kv.2 +:+ "</span>")
      (filter (fun kv : string * value => Is_true (notnull kv.2))
              (without header_blacklist row)).

Section Snippet.

(** [json.dumps(obj, indent=indent)] *)
Variable json_dumps : option nat -> json -> string.

Definition _make_report_snippet (row : dict) : res string :=
  (idx <- getitem "idx" row ;;
   let header :=
     " <h2>idx-" +:+ str idx +:+ ": "
       +:+ String.concat ", " (header_vals row) +:+ "</h2>" in
   filename <- getitem "filename" row ;;
   stem <- match filename with
           | VStr f => Ok (hd EmptyString (split_on "." f))
           | _ => Raise (AttributeError "split")
           end ;;
   data <- getitem "path" row ;;
   let i := str idx in
   Ok (String.concat nl [
     EmptyString;
     "    <div id=" +:+ dq +:+ "id-" +:+ i +:+ "_filename-" +:+ stem +:+ dq +:+ ">";
     "      <script type=" +:+ dq +:+ "text/javascript" +:+ dq +:+ ">";
     "        var subj_qc = " +:+ json_dumps None (json_of_dict (id_ents row));
     "      </script>";
     "      " +:+ header;
     "      <div class=" +:+ dq +:+ "radio" +:+ dq +:+ ">";
     "        <label><input type=" +:+ dq +:+ "radio" +:+ dq +:+ " name=" +:+ dq
       +:+ "inlineRadio" +:+ i +:+ dq +:+ " id=" +:+ dq +:+ "inlineRating1" +:+ dq
       +:+ " value=" +:+ dq +:+ "1" +:+ dq +:+ " onclick=" +:+ dq +:+ "qc_update("
       +:+ i +:+ ", 'report', this.value)" +:+ dq +:+ "> Good </label>";
     "        <label><input type=" +:+ dq +:+ "radio" +:+ dq +:+ " name=" +:+ dq
       +:+ "inlineRadio" +:+ i +:+ dq +:+ " id=" +:+ dq +:+ "inlineRating0" +:+ dq
       +:+ " value=" +:+ dq +:+ "0" +:+ dq +:+ " onclick=" +:+ dq +:+ "qc_update("
       +:+ i +:+ ", 'report', this.value)" +:+ dq +:+ "> Bad</label>";
     "      </div>";
     "      <p> Notes: <input type=" +:+ dq +:+ "text" +:+ dq +:+ " id=" +:+ dq
       +:+ "box" +:+ i +:+ dq +:+ " oninput=" +:+ dq +:+ "qc_update(" +:+ i
       +:+ ", 'note', this.value)" +:+ dq +:+ "></p>";
     "      <object class=" +:+ dq +:+ "svg-reportlet" +:+ dq +:+ " type=" +:+ dq
       +:+ "image/svg+xml" +:+ dq +:+ " data=" +:+ dq +:+ str data +:+ dq
       +:+ "> </object>";
     "    </div>";
     "    <script type=" +:+ dq +:+ "text/javascript" +:+ dq +:+ ">";
     "      subj_qc[" +:+ dq +:+ "report" +:+ dq +:+ "] = -1";
     "      subjs.push(subj_qc)";
     "    </script>";
     "    "
   ]))%res.

End Snippet.

(** ** Grouping and pagination *)

(** The order in which [groupby] lists its keys: numbers before strings,
    each kind in its own order. *)
Definition key_ltb (a b : value) : bool :=
  match a, b with
  | VStr s, VStr t => String.ltb s t
  | VStr _, _ => false
  | _, VStr _ => true
  | VInt x, VInt y => Z.ltb x y
  | VInt x, VFloat y => Z.ltb x y
  | VFloat x, VInt y => Z.ltb x y
  | VFloat x, VFloat y => Z.ltb x y
  | VInt _, VInf => true
  | VFloat _, VInf => true
  | _, _ => false
  end.

(** Add a row to the group of its key; the groups stay in key order and
    every group keeps the order in which its rows arrived. *)
Fixpoint insert_group (k : value) (r : dict) (groups : list (value * list dict))
  : list (value * list dict) :=
  match groups with
  | [] => [(k, [r])]
  | (k', g) :: rest =>
      if bool_decide (k = k') then (k', g ++ [r]) :: rest
      else if key_ltb k k' then (k, [r]) :: groups
      else (k', g) :: insert_group k r rest
  end.

Definition group_rows (c : string) (rows : list dict) : list (value * list dict) :=
  fold_left
    (fun groups r => if isnull (cell c r) then groups
                     else insert_group (cell c r) r groups)
    rows [].

(** [df.groupby(c)]: rows whose key is null belong to no group. *)
Definition groupby (c : string) (df : DataFrame) : res (list (value * DataFrame)) :=
  if bool_decide (c ∈ columns df) then
    Ok (map (fun kg : value * list dict => (kg.1, mkDataFrame (columns df) kg.2))
            (group_rows c (records df)))
  else Raise (KeyError c).

(** [pd.concat(reports).reset_index(drop=True)] *)
Definition concat_frames (reports : list DataFrame) : res DataFrame :=
  match reports with
  | [] => Raise (ValueError MsgNoObjectsToConcatenate)
  | _ =>
      let cols := fold_left (fun acc df => fold_left add_key (columns df) acc)
                            reports [] in
      let rows := flat_map records reports in
      Ok (mkDataFrame cols (map (reindex rows cols) rows))
  end.

(** [rtdf.copy().reset_index(drop=True)] followed by
    [rtdf.reset_index().rename(columns={'index': 'idx'})]: the position
    becomes the first column. *)
Definition with_idx (rtdf : DataFrame) : DataFrame :=
  mkDataFrame ("idx"%string :: columns rtdf)
    (imap (fun i r => ("idx"%string, VInt (Z.of_nat i)) :: r) (records rtdf)).

(** [idx // reports_per_page] on an integer column. A division by zero
    gives NaN or infinity. A size from 2^63 to 2^64 - 1 is an unsigned
    64-bit integer for NumPy, and the quotient of a signed by an unsigned
    column is a float. *)
Definition floordiv (idx : value) (reports_per_page : Z) : value :=
  match idx with
  | VInt i =>
      if Z.eqb reports_per_page 0 then (if Z.eqb i 0 then VNaN else VInf)
      else if Z.leb 9223372036854775808 reports_per_page
              && Z.ltb reports_per_page 18446744073709551616
      then VFloat (i / reports_per_page)
      else VInt (i / reports_per_page)
  | _ => VNaN
  end.

(** Lines 353-356: the page of every row. *)
Definition with_chunk (reports_per_page : option Z) (rtdf : DataFrame) : res DataFrame :=
  match reports_per_page with
  | None => Ok (setitem "chunk" (map (fun _ => VInt 0) (records rtdf)) rtdf)
  | Some n =>
      (idx <- getattr "idx" rtdf ;;
       Ok (setitem "chunk" (map (fun i => floordiv i n) idx) rtdf))%res
  end.

Definition dict_del (k : string) (d : dict) : dict :=
  filter (fun kv : string * value => kv.1 ≠ k) d.

(** Line 360: the rows of a page are numbered again from 0. *)
Definition rebase_idx (cdf : DataFrame) : DataFrame :=
  mkDataFrame ("idx"%string :: filter (fun c => c ≠ "idx"%string) (columns cdf))
    (imap (fun i r => ("idx"%string, VInt (Z.of_nat i)) :: dict_del "idx" r)
          (records cdf)).

Fixpoint zeros (n : nat) : string :=
  match n with
  | O => EmptyString
  | S n' => String "0" (zeros n')
  end.

Definition zfill (width : nat) (digits : string) : string :=
  zeros (width - String.length digits) +:+ digits.

(** [f'{chunk:03d}'] *)
Definition format_03d (chunk : value) : res string :=
  match chunk with
  | VInt z =>
      if Z.ltb z 0 then Ok ("-" +:+ zfill 2 (str_of_Z (Z.opp z)))
      else Ok (zfill 3 (str_of_Z z))
  | VBool b => Ok (zfill 3 (str_of_Z (Z.b2z b)))
  | _ => Raise (ValueError MsgUnknownFormatCode)
  end.

Fixpoint res_map {A B} (f : A -> res B) (l : list A) : res (list B) :=
  match l with
  | [] => Ok []
  | a :: l' =>
      match f a with
      | Raise e => Raise e
      | Ok b => match res_map f l' with
                | Raise e => Raise e
                | Ok bs => Ok (b :: bs)
                end
      end
  end.

(** ** The file system

    The state threaded through [make_report]: a finite map from resolved
    locations (the names from the root down, the root being [[]]) to
    entries. The working directory is the root. *)
Inductive entry :=
| Dir
| File (content : string)
| Symlink (target : path).

Abbreviation files := (gmap path entry).

Definition entry_at (fs : files) (q : path) : option entry :=
  match q with
  | [] => Some Dir
  | _ => fs !! q
  end.

(** The parts [todo] walked from the directory [cur]; [follow cur t]
    says where a symbolic link found in [cur] with target [t] leads. *)
Fixpoint walk (follow : path -> path -> option path) (fs : files)
    (cur todo : path) : option path :=
  match todo with
  | [] => Some cur
  | c :: rest =>
      if String.eqb c "/" then walk follow fs [] rest
      else
        match entry_at fs cur with
        | Some Dir =>
            if String.eqb c ".." then walk follow fs (removelast cur) rest
            else
              match fs !! (cur ++ [c]) with
              | None => None
              | Some (Symlink t) =>
                  match follow cur t with
                  | Some q => walk follow fs q rest
                  | None => None
                  end
              | Some _ => walk follow fs (cur ++ [c]) rest
              end
        | _ => None
        end
  end.

(** Resolution of [todo] from [cur], symbolic links followed, at most
    [fuel] of them nested. *)
Fixpoint realpath (fuel : nat) (fs : files) (cur todo : path) : option path :=
  match fuel with
  | O => None
  | S fuel' => walk (realpath fuel' fs) fs cur todo
  end.

Definition symloop_max : nat := 40.

Definition resolve (fs : files) (p : path) : option path :=
  realpath symloop_max fs [] p.

(** Where the last part of [p] lives, the part itself not followed. *)
Definition locate (fs : files) (p : path) : option path :=
  match last p with
  | None => Some []
  | Some name =>
      if String.eqb name "/" || String.eqb name ".." then resolve fs p
      else
        match resolve fs (removelast p) with
        | Some d =>
            match entry_at fs d with
            | Some Dir => Some (d ++ [name])
            | _ => None
            end
        | None => None
        end
  end.

(** [p.exists()] *)
Definition path_exists (fs : files) (p : path) : bool :=
  match resolve fs p with
  | Some _ => true
  | None => false
  end.

(** [p.is_symlink()] *)
Definition is_symlink (fs : files) (p : path) : bool :=
  match locate fs p with
  | Some q => match entry_at fs q with
              | Some (Symlink _) => true
              | _ => false
              end
  | None => false
  end.

(** [p.is_dir()] *)
Definition is_dir (fs : files) (p : path) : bool :=
  match resolve fs p with
  | Some q => match entry_at fs q with
              | Some Dir => true
              | _ => false
              end
  | None => false
  end.

(** Computations on the file system that may raise. *)
Definition M (A : Type) : Type := files -> files * res A.

Definition ret {A} (a : A) : M A := fun fs => (fs, Ok a).
Definition raise {A} (e : exn) : M A := fun fs => (fs, Raise e).
Definition lift {A} (r : res A) : M A := fun fs => (fs, r).
Definition bind {A B} (m : M A) (k : A -> M B) : M B :=
  fun fs =>
    match m fs with
    | (fs', Ok a) => k a fs'
    | (fs', Raise e) => (fs', Raise e)
    end.
Definition query {A} (f : files -> A) : M A := fun fs => (fs, Ok (f fs)).

Declare Scope M_scope.
Delimit Scope M_scope with M.
Notation "x <- m ;; k" := (bind m (fun x => k))
  (at level 100, m at next level, right associativity) : M_scope.
Notation "m ;; k" := (bind m (fun _ => k))
  (at level 100, right associativity) : M_scope.

Fixpoint for_each {A} (l : list A) (body : A -> M unit) : M unit :=
  match l with
  | [] => ret tt
  | a :: l' => (body a ;; for_each l' body)%M
  end.

(** [p.mkdir(exist_ok=True)] *)
Definition mkdir_exist_ok (p : path) : M unit :=
  fun fs =>
    match locate fs p with
    | None => (fs, Raise (FileNotFoundError (MsgOS p)))
    | Some q =>
        match entry_at fs q with
        | None => (<[q := Dir]> fs, Ok tt)
        | Some _ =>
            if is_dir fs p then (fs, Ok tt)
            else (fs, Raise (FileExistsError (MsgOS p)))
        end
    end.

(** Where [open(p, 'w')] writes: the last part is followed when it is a
    symbolic link. *)
Fixpoint open_location (fuel : nat) (fs : files) (p : path) : res path :=
  match locate fs p with
  | None => Raise (FileNotFoundError (MsgOS p))
  | Some q =>
      match entry_at fs q with
      | Some Dir => Raise (IsADirectoryError (MsgOS p))
      | Some (Symlink t) =>
          match fuel with
          | O => Raise (FileNotFoundError (MsgOS p))
          | S fuel' => open_location fuel' fs (joinpath ("/"%string :: removelast q) t)
          end
      | _ => Ok q
      end
  end.

(** [p.write_text(s)] *)
Definition write_text (p : path) (s : string) : M unit :=
  fun fs =>
    match open_location symloop_max fs p with
    | Ok q => (<[q := File s]> fs, Ok tt)
    | Raise e => (fs, Raise e)
    end.

(** [p.read_text()] *)
Definition read_text (p : path) : M string :=
  fun fs =>
    match resolve fs p with
    | None => (fs, Raise (FileNotFoundError (MsgOS p)))
    | Some q =>
        match entry_at fs q with
        | Some (File s) => (fs, Ok s)
        | Some Dir => (fs, Raise (IsADirectoryError (MsgOS p)))
        | _ => (fs, Raise (FileNotFoundError (MsgOS p)))
        end
    end.

(** [p.symlink_to(target, target_is_directory=True)] *)
Definition symlink_to (p : path) (target : path) : M unit :=
  fun fs =>
    match locate fs p with
    | None => (fs, Raise (FileNotFoundError (MsgOS p)))
    | Some q =>
        match entry_at fs q with
        | None => (<[q := Symlink target]> fs, Ok tt)
        | Some _ => (fs, Raise (FileExistsError (MsgOS p)))
        end
    end.

(** *** Globbing *)

Definition endswith (suffix s : string) : bool :=
  String.prefix (String.rev suffix) (String.rev s).

(** [fnmatch(name, 'sub-*.html')] *)
Definition is_subject_report (name : string) : bool :=
  String.prefix "sub-" name && endswith ".html" name
  && Nat.leb 9 (String.length name).

Fixpoint parts_compare (p q : path) : comparison :=
  match p, q with
  | [], [] => Eq
  | [], _ :: _ => Lt
  | _ :: _, [] => Gt
  | a :: p', b :: q' =>
      match String.compare a b with
      | Eq => parts_compare p' q'
      | c => c
      end
  end.

Definition path_leb (p q : path) : bool :=
  match parts_compare p q with
  | Gt => false
  | _ => true
  end.

Fixpoint insert_sorted (p : path) (l : list path) : list path :=
  match l with
  | [] => [p]
  | q :: l' => if path_leb p q then p :: l else q :: insert_sorted p l'
  end.

(** [sorted(paths)] *)
Definition sorted (l : list path) : list path := fold_right insert_sorted [] l.

(** The proper prefixes of [rel] below [base] are directories: the
    recursive wildcard does not enter symbolic links. *)
Fixpoint below_dirs (fs : files) (base rel : path) : bool :=
  match rel with
  | [] | [_] => true
  | c :: rel' =>
      match fs !! (base ++ [c]) with
      | Some Dir => below_dirs fs (base ++ [c]) rel'
      | _ => false
      end
  end.

(** [sorted(root.glob('**/sub-*.html'))] *)
Definition glob_subject_reports (root : path) : M (list path) :=
  fun fs =>
    match resolve fs root with
    | None => (fs, Ok [])
    | Some base =>
        let rels :=
          omap (fun q : path =>
                  if bool_decide (base `prefix_of` q) then
                    let rel := drop (length base) q in
                    match last rel with
                    | Some name =>
                        if is_subject_report name && below_dirs fs base rel
                        then Some rel else None
                    | None => None
                    end
                  else None)
               (map fst (map_to_list fs)) in
        (fs, Ok (sorted (map (fun rel => root ++ rel) rels)))
    end.

(** ** make_report *)

Record options := mkOptions {
  fmriprep_output_path : path;
  reports_per_page : option Z;
  path_to_figures : option string;
  flip_images : list string;
  drop_background : list string;
  drop_foreground : list string
}.

(** What lines 236-254 leave behind: whether images are changed, and the
    three options, as sets once they have been checked. *)
Record image_mode := mkMode {
  image_changes : bool;
  flip_set : gset string;
  background_set : gset string;
  foreground_set : gset string;
  flip_list : list string;
  background_list : list string;
  foreground_list : list string
}.

(** Lines 236-254. [list(s)] of a set lists its elements in an order that
    Python leaves open; [elements] fixes one. *)
Definition check_image_changes (o : options) : res image_mode :=
  if Nat.eqb (length (flip_images o)) 0
     && Nat.eqb (length (drop_background o)) 0
     && Nat.eqb (length (drop_foreground o)) 0
  then Ok (mkMode false ∅ ∅ ∅ (flip_images o) (drop_background o) (drop_foreground o))
  else
    let flip_images : gset string := list_to_set (flip_images o) in
    let drop_background : gset string := list_to_set (drop_background o) in
    let drop_foreground : gset string := list_to_set (drop_foreground o) in
    if negb (bool_decide (flip_images ## drop_foreground)) then
      Raise (ValueError (MsgSingleWay (flip_images ∩ drop_foreground)
                                      "flip_images" "drop_foreground"))
    else if negb (bool_decide (flip_images ## drop_background)) then
      Raise (ValueError (MsgSingleWay (flip_images ∩ drop_background)
                                      "flip_images" "drop_background"))
    else if negb (bool_decide (drop_foreground ## drop_background)) then
      Raise (ValueError (MsgSingleWay (drop_foreground ∩ drop_background)
                                      "drop_foreground" "drop_background"))
    else
      Ok (mkMode true flip_images drop_background drop_foreground
                 (elements flip_images) (elements drop_background)
                 (elements drop_foreground)).

(** [p.relative_to(base)] *)
Definition relative_to (p base : path) : res path :=
  if bool_decide (base `prefix_of` p) then Ok (drop (length base) p)
  else Raise (ValueError (MsgNotRelativeTo p base)).

(** An expression statement, as the exception of line 300 that is built
    without [raise]: the value is computed and dropped. *)
Definition discard {A} (a : A) : M unit := ret tt.

(** [report_type in names] *)
Definition in_set (report_type : value) (names : gset string) : bool :=
  match report_type with
  | VStr s => bool_decide (s ∈ names)
  | _ => false
  end.

Definition jstr (s : string) : json := JVal (VStr s).

Section MakeReport.

(** Collaborators of the module: pybids, BeautifulSoup, json, the
    string method [format], [shutil.copytree], and the sibling modules
    [_html_snippets] and [_svg_edit]. *)
Variable parse_file_entities : string -> dict.
Variable BeautifulSoup : string -> node.
Variable json_dumps : option nat -> json -> string.
Variable loads_BIDSVersion : string -> option json.
Variable format_subject : string -> value -> res string.
Variable copytree : path -> path -> M unit.
Variable _generate_html_head : string -> string.
Variables nav reviewer_initials html_foot : string.
Variable _flip_images : path -> path -> M unit.
Variable _drop_image : path -> path -> string -> M unit.

(** [parse_report] *)
Definition parse_report (report_path : path) : M DataFrame :=
  (html <- read_text report_path ;;
   lift (parse_soup parse_file_entities (BeautifulSoup html)))%M.

Definition params (o : options) (mode : image_mode) : json :=
  JDict [
    ("fmriprep_output_path"%string, jstr (as_posix (fmriprep_output_path o)));
    ("reports_per_page"%string,
       JVal (match reports_per_page o with Some n => VInt n | None => VNone end));
    ("path_to_figures"%string,
       JVal (match path_to_figures o with Some t => VStr t | None => VNone end));
    ("flip_images"%string, JList (map jstr (flip_list mode)));
    ("drop_background"%string, JList (map jstr (background_list mode)));
    ("drop_foreground"%string, JList (map jstr (foreground_list mode)))
  ].

Definition dataset_description (o : options) (mode : image_mode)
    (bids_version : json) : json :=
  JDict [
    ("Name"%string, jstr "fMRIPrep-Group-Report output");
    ("BIDSVersion"%string, bids_version);
    ("DatasetType"%string, jstr "derivative");
    ("GeneratedBy"%string, JList [
       JDict [
         ("Name"%string, jstr "fMRIPrep-Group-Report");
         ("CodeURL"%string,
            jstr "https://github.com/nimh-comppsych/fmriprep-group-report");
         ("Parameters"%string, params o mode)
       ]
     ])
  ].

(** Lines 267-270: any failure leaves ['unknown']. *)
Definition bids_version_of (o : options) (fs : files) : json :=
  match read_text (joinpath (fmriprep_output_path o) ["dataset_description.json"%string]) fs with
  | (_, Ok s) =>
      match loads_BIDSVersion s with
      | Some v => v
      | None => jstr "unknown"
      end
  | (_, Raise _) => jstr "unknown"
  end.

(** Lines 258-283: the group directory and its description. *)
Definition prepare_group_dir (o : options) (mode : image_mode) : M path :=
  (let group_dir := joinpath (fmriprep_output_path o) ["group"%string] in
   mkdir_exist_ok group_dir ;;
   bids_version <- query (bids_version_of o) ;;
   write_text (joinpath group_dir ["dataset_description.json"%string])
              (json_dumps (Some 2) (dataset_description o mode bids_version)) ;;
   ret group_dir)%M.

(** Lines 297-319: where the figures of the subject are, relative to
    the directory of the subject in the group tree. *)
Definition find_orig_fig_dir (o : options) (report_path : path)
    (subject : value) (subj_group_dir subj_group_fig_dir : path) : M path :=
  match path_to_figures o with
  | None =>
      (let expected_subj_fig_dir :=
         joinpath (joinpath (parent report_path) (Path ("sub-" +:+ str subject)))
                  ["figures"%string] in
       there <- query (fun fs => path_exists fs expected_subj_fig_dir) ;;
       (if negb there
        then discard (FileNotFoundError (MsgExpectedLocation (str subject)))
        else ret tt) ;;
       good_parts <- lift (relative_to expected_subj_fig_dir (fmriprep_output_path o)) ;;
       below <- lift (relative_to subj_group_fig_dir (fmriprep_output_path o)) ;;
       let lvls_down := (length below - 1)%nat in
       let path_parts := repeat ".."%string lvls_down ++ good_parts in
       ret path_parts)%M
  | Some template =>
      (orig_fig_dir <- lift (format_subject template subject) ;;
       there <- query (fun fs =>
                  path_exists fs (joinpath subj_group_dir (Path orig_fig_dir))) ;;
       if negb there then
         raise (ValueError (MsgPathToFigures template
                  (joinpath subj_group_fig_dir (Path orig_fig_dir))))
       else ret (Path orig_fig_dir))%M
  end.

(** Lines 320-326: the figures entry of the subject. *)
Definition place_figures (mode : image_mode)
    (subj_group_dir subj_group_fig_dir orig_fig_dir : path) : M unit :=
  (taken <- query (fun fs => is_symlink fs subj_group_fig_dir
                             || path_exists fs subj_group_fig_dir) ;;
   if taken then
     raise (ValueError (MsgWouldBeOverwritten subj_group_fig_dir))
   else if image_changes mode then
     copytree (joinpath subj_group_dir orig_fig_dir) subj_group_fig_dir
   else
     symlink_to subj_group_fig_dir orig_fig_dir)%M.

(** Lines 291-326. *)
Definition link_figures (o : options) (mode : image_mode) (group_dir : path)
    (report_path : path) : M unit :=
  (subject <- lift (getitem "subject" (parse_file_entities (as_posix report_path))) ;;
   let subj_group_dir := joinpath group_dir (Path ("sub-" +:+ str subject)) in
   mkdir_exist_ok subj_group_dir ;;
   let subj_group_fig_dir := joinpath subj_group_dir ["figures"%string] in
   orig_fig_dir <- find_orig_fig_dir o report_path subject
                     subj_group_dir subj_group_fig_dir ;;
   place_figures mode subj_group_dir subj_group_fig_dir orig_fig_dir)%M.

(** Lines 286-326: the loop over the subject reports. *)
Fixpoint collect_reports (o : options) (mode : image_mode) (group_dir : path)
    (report_paths : list path) : M (list DataFrame) :=
  match report_paths with
  | [] => ret []
  | report_path :: rest =>
      if bool_decide ("figures"%string ∈ report_path) then
        collect_reports o mode group_dir rest
      else
        (report <- parse_report report_path ;;
         link_figures o mode group_dir report_path ;;
         reports <- collect_reports o mode group_dir rest ;;
         ret (report :: reports))%M
  end.

(** Lines 339-351: one image of a report type that is to be changed. *)
Definition change_image (mode : image_mode) (group_dir : path)
    (report_type : value) (row : dict) : M unit :=
  match dict_get "subject" row, dict_get "filename" row with
  | None, _ => raise (AttributeError "subject")
  | _, None => raise (AttributeError "filename")
  | Some subject, Some (VStr filename) =>
      (let subj_group_dir :=
         joinpath (joinpath group_dir (Path ("sub-" +:+ str subject)))
                  ["figures"%string] in
       let image_path := joinpath subj_group_dir (Path filename) in
       there <- query (fun fs => path_exists fs image_path) ;;
       if negb there then raise (FileNotFoundError (MsgDoesNotExist image_path))
       else
         link <- query (fun fs => is_symlink fs image_path) ;;
         if link then raise (ValueError (MsgIsSymlink image_path))
         else if in_set report_type (flip_set mode) then
           _flip_images image_path image_path
         else if in_set report_type (foreground_set mode) then
           _drop_image image_path image_path "foreground"
         else if in_set report_type (background_set mode) then
           _drop_image image_path image_path "background"
         else ret tt)%M
  | Some _, Some _ => raise TypeError
  end.

Definition chunk_name (report_type : value) (number extension : string) : string :=
  "consolidated_" +:+ str report_type +:+ "_" +:+ number +:+ extension.

(** Lines 358-368: the document of one page. *)
Definition write_chunk (group_dir : path) (report_type : value)
    (chunk : value) (cdf : DataFrame) : M unit :=
  (number <- lift (format_03d chunk) ;;
   let consolidated_path :=
     joinpath group_dir (Path (chunk_name report_type number ".html")) in
   let dl_file_name := chunk_name report_type number ".tsv" in
   let cdf := rebase_idx cdf in
   snippets <- lift (res_map (_make_report_snippet json_dumps) (records cdf)) ;;
   let lines := String.concat nl snippets in
   let rpt_text :=
     String.concat nl [_generate_html_head dl_file_name; nav;
                       reviewer_initials; lines; html_foot] in
   write_text consolidated_path rpt_text)%M.

(** Lines 332-368: one report type. *)
Definition consolidate (o : options) (mode : image_mode) (group_dir : path)
    (report_type : value) (rtdf : DataFrame) : M unit :=
  (let rtdf := with_idx rtdf in
   (if image_changes mode
       && (in_set report_type (flip_set mode)
           || in_set report_type (foreground_set mode)
           || in_set report_type (background_set mode))
    then for_each (records rtdf) (change_image mode group_dir report_type)
    else ret tt) ;;
   rtdf <- lift (with_chunk (reports_per_page o) rtdf) ;;
   chunks <- lift (groupby "chunk" rtdf) ;;
   for_each chunks
     (fun cc : value * DataFrame => write_chunk group_dir report_type cc.1 cc.2))%M.

(** Lines 285-328: the table of all report elements. *)
Definition corpus (o : options) (mode : image_mode) (group_dir : path)
  : M DataFrame :=
  (report_paths <- glob_subject_reports (fmriprep_output_path o) ;;
   reports <- collect_reports o mode group_dir report_paths ;;
   lift (concat_frames reports))%M.

Definition make_report (o : options) : M unit :=
  (mode <- lift (check_image_changes o) ;;
   group_dir <- prepare_group_dir o mode ;;
   reports <- corpus o mode group_dir ;;
   groups <- lift (groupby "report_type" reports) ;;
   for_each groups
     (fun g : value * DataFrame => consolidate o mode group_dir g.1 g.2))%M.

End MakeReport.

(** ** Vocabulary of the statements *)

(** The three rules of the report type, read off one row: the [desc]
    value, else the suffix when it is ['dseg'], else the [space] value
    when the table has that column. *)
Definition rule_chain (has_space : bool) (r : dict) : value :=
  let report_type := cell "desc" r in
  let report_type :=
    if isnull report_type && bool_decide (cell "suffix" r = VStr "dseg")
    then cell "suffix" r else report_type in
  if has_space && isnull report_type && notnull (cell "space" r)
  then cell "space" r else report_type.

(** The text of the only run-title heading below the parent of a figure,
    when there is exactly one. *)
Definition own_run_title (l : located) : option string :=
  match findAll (Some "h3"%string) "run-title" (fd_parent l) with
  | [h] => Some (text h)
  | _ => None
  end.

(** The run title as the specification words it: the own heading of
    element [k], else what element [k - 1] resolved to, else null. *)
Fixpoint spec_run_title (fds : list located) (k : nat) : value :=
  match fds !! k ≫= own_run_title with
  | Some t => VStr t
  | None =>
      match k with
      | O => VNaN
      | S k' => spec_run_title fds k'
      end
  end.

Definition synthetic_fields : list string :=
  ["been_on_screen"; "rater"; "report"; "note"]%string.

(** The page of the row at position [i] of its report type. *)
Definition spec_chunk (reports_per_page : option Z) (i : nat) : Z :=
  match reports_per_page with
  | None => 0
  | Some n => Z.of_nat i / n
  end.

(** A row without its two pagination columns. *)
Definition payload (r : dict) : dict := dict_del "chunk" (dict_del "idx" r).

(** Two of the three image-change options name the same report type. *)
Definition overlapping (o : options) : Prop :=
  ∃ name : string,
    (name ∈ flip_images o ∧ name ∈ drop_foreground o)
    ∨ (name ∈ flip_images o ∧ name ∈ drop_background o)
    ∨ (name ∈ drop_foreground o ∧ name ∈ drop_background o).

Definition pairwise_disjoint (o : options) : Prop :=
  ∀ name : string,
    ¬ (name ∈ flip_images o ∧ name ∈ drop_foreground o)
    ∧ ¬ (name ∈ flip_images o ∧ name ∈ drop_background o)
    ∧ ¬ (name ∈ drop_foreground o ∧ name ∈ drop_background o).

Definition option_named (o : options) (which : string) : list string :=
  if String.eqb which "flip_images" then flip_images o
  else if String.eqb which "drop_background" then drop_background o
  else if String.eqb which "drop_foreground" then drop_foreground o
  else [].

(** The figures entry of a subject in the group tree is taken. *)
Definition entry_taken (fs : files) (subj_group_fig_dir : path) : bool :=
  is_symlink fs subj_group_fig_dir || path_exists fs subj_group_fig_dir.

(** The run title that the loop of [parse_report] carries from figure
    to figure, started from [prev]. *)
Fixpoint carried_run_title (prev : value) (fds : list located) (k : nat) : value :=
  match fds with
  | [] => prev
  | l :: rest =>
      let mine := match own_run_title l with
                  | Some t => VStr t
                  | None => prev
                  end in
      match k with
      | O => mine
      | S k' => carried_run_title mine rest k'
      end
  end.

(** A row of the table with its report type. *)
Definition classified (rows : list dict) (r : dict) : dict :=
  let cols := union_keys rows in
  let r := reindex rows cols r in
  dict_set "report_type" (rule_chain (bool_decide ("space"%string ∈ cols)) r) r.

(** What the parser guarantees of a node: its [class], when it has one,
    is a list. *)
Definition class_is_list (n : node) : Prop :=
  match get "class" n with
  | Some (AStr _) => False
  | _ => True
  end.

(** The keys of the groups with the sizes of the groups, from the key
    column alone. *)
Fixpoint insert_count (k : value) (counts : list (value * nat))
  : list (value * nat) :=
  match counts with
  | [] => [(k, 1)]
  | (k', n) :: rest =>
      if bool_decide (k = k') then (k', S n) :: rest
      else if key_ltb k k' then (k, 1) :: counts
      else (k', n) :: insert_count k rest
  end.

Definition count_keys (ks : list value) : list (value * nat) :=
  fold_left (λ counts k, if isnull k then counts else insert_count k counts) ks [].

Definition sizes (groups : list (value * list dict)) : list (value * nat) :=
  map (λ kg : value * list dict, (kg.1, length kg.2)) groups.

(** The figure path of a located node, when it is a string. *)
Definition figure_path (l : located) : option string :=
  match fig_path_of (fd l) with
  | Some (AStr fig_path) => Some fig_path
  | _ => None
  end.

(** A figure from which the loop of [parse_report] gets a row: it has a
    path, and the path has a last part. *)
Definition readable (l : located) : Prop :=
  ∃ fig_path filename,
    figure_path l = Some fig_path ∧ last (Path fig_path) = Some filename.

(** The text of the only caption below the parent of a figure, when there
    is exactly one. *)
Definition own_caption (l : located) : option string :=
  match findAll (Some "p"%string) "elem-caption" (fd_parent l) with
  | [c] => Some (text c)
  | _ => None
  end.


(** The column of an entity as the entity parser gives it, figure by
    figure of a document. *)
Definition entity_column (pfe : string → dict) (c : string) (soup : node)
  : list value :=
  map (λ l, match figure_path l with
            | Some fig_path => cell c (pfe fig_path)
            | None => VNaN
            end)
      (file_divs soup).

(** The keys that [parse_report] sets itself. *)
Definition extraction_keys : list string :=
  ["path"; "filename"; "run_title"; "elem_caption"; "report_type"]%string.

(** [int(s)] on the digits of a page number. *)
Definition read_number (s : string) : option Z :=
  Z.of_int <$> NilZero.int_of_string s.

(** No image-change option is given. *)
Definition no_options (o : options) : Prop :=
  flip_images o = [] ∧ drop_background o = [] ∧ drop_foreground o = [].

(** A row from which a snippet can be made: its path and file name are
    strings. *)
Definition renderable (r : dict) : Prop :=
  ∃ fig_path filename,
    cell "path" r = VStr fig_path ∧ cell "filename" r = VStr filename.

(** The page of the row at position [i], for any page size. *)
Definition chunk_of (reports_per_page : option Z) (i : nat) : value :=
  match reports_per_page with
  | None => VInt 0
  | Some n => floordiv (VInt (Z.of_nat i)) n
  end.

(** [n] zeros before the digits [d]. *)
Fixpoint lead (n : nat) (d : Decimal.uint) : Decimal.uint :=
  match n with
  | O => d
  | S n' => Decimal.D0 (lead n' d)
  end.

(** Nothing of [fs] is removed in [fs']: directories and symbolic links
    are as they were, a file is still a file. *)
Definition kept (fs fs' : files) : Prop :=
  ∀ q e, fs !! q = Some e →
    match e with
    | File _ => ∃ content, fs' !! q = Some (File content)
    | _ => fs' !! q = Some e
    end.

Definition keeps {A} (m : M A) : Prop := ∀ fs, kept fs (m fs).1.

(** A path that leads to a file. *)
Definition is_file_at (fs : files) (p q : path) : Prop :=
  open_location symloop_max fs p = Ok q
  ∧ ∃ content, fs !! q = Some (File content).

(** The page of a chunk is among the files of a tree. *)
Definition page_written (group_dir : path) (report_type : value)
    (cc : value * DataFrame) (fs : files) : Prop :=
  ∃ number q,
    format_03d cc.1 = Ok number
    ∧ is_file_at fs
        (joinpath group_dir
           (Path ("consolidated_" +:+ str report_type +:+ "_" +:+ number
                    +:+ ".html"))) q.

(** The entry [q] is the page of a chunk. *)
Definition page_at (group_dir : path) (report_type : value)
    (cc : value * DataFrame) (q : path) (fs : files) : Prop :=
  ∃ number,
    format_03d cc.1 = Ok number
    ∧ is_file_at fs
        (joinpath group_dir
           (Path ("consolidated_" +:+ str report_type +:+ "_" +:+ number
                    +:+ ".html"))) q.

(** ** A small instance of the collaborators

    Enough of the BIDS grammar, of [json.dumps] and of [copytree] to run
    [make_report] on the trees below. *)
Module Toy.

Definition entity_name (k : string) : option string :=
  if String.eqb k "sub" then Some "subject"%string
  else if String.eqb k "ses" then Some "session"%string
  else if String.eqb k "task" then Some "task"%string
  else if String.eqb k "run" then Some "run"%string
  else if String.eqb k "space" then Some "space"%string
  else if String.eqb k "desc" then Some "desc"%string
  else None.

Definition entity_of_segment (seg : string) : option (string * value) :=
  match split_on "-" seg with
  | [k; v] =>
      match entity_name k with
      | Some n =>
          if String.eqb n "run" then
            match read_number v with
            | Some z => Some (n, VInt z)
            | None => Some (n, VStr v)
            end
          else Some (n, VStr v)
      | None => None
      end
  | _ => None
  end.

(** [sub-01_task-rest_desc-x_bold.svg]: the key-value segments, the
    suffix and the extension. *)
Definition parse_file_entities (p : string) : dict :=
  match last (Path p) with
  | None => []
  | Some name =>
      match split_on "." name with
      | stem :: ext =>
          let segs := split_on "_" stem in
          omap entity_of_segment segs
          ++ match last segs with
             | Some s =>
                 match split_on "-" s with
                 | [sfx] => [("suffix"%string, VStr sfx)]
                 | _ => []
                 end
             | None => []
             end
          ++ match ext with
             | [] => []
             | _ => [("extension"%string, VStr ("." +:+ String.concat "." ext))]
             end
      | [] => []
      end
  end.

Fixpoint json_dumps_fuel (fuel : nat) (j : json) : string :=
  match fuel with
  | O => EmptyString
  | S fuel' =>
      match j with
      | JVal (VStr s) => dq +:+ s +:+ dq
      | JVal VNone => "null"
      | JVal VNaN => "NaN"
      | JVal VInf => "Infinity"
      | JVal (VBool true) => "true"
      | JVal (VBool false) => "false"
      | JVal (VInt z) => str_of_Z z
      | JVal (VFloat z) => str_of_Z z +:+ ".0"
      | JList l => "[" +:+ String.concat ", " (map (json_dumps_fuel fuel') l) +:+ "]"
      | JDict d =>
          "{" +:+ String.concat ", "
                    (map (fun kv : string * json =>
                            dq +:+ kv.1 +:+ dq +:+ ": " +:+ json_dumps_fuel fuel' kv.2)
                         d) +:+ "}"
      end
  end.

Definition json_dumps (indent : option nat) (j : json) : string :=
  json_dumps_fuel 8 j.

Definition loads_BIDSVersion (s : string) : option json := None.

Definition format_subject (template : string) (subject : value) : res string :=
  Ok template.

(** The entries below [src] appear below [dst]; nothing that is there
    is replaced. *)
Definition copytree (src dst : path) : M unit :=
  fun fs =>
    match resolve fs src, locate fs dst with
    | Some s, Some d =>
        match entry_at fs s, entry_at fs d with
        | Some Dir, None =>
            let copied : files :=
              list_to_map
                (omap (fun qe : path * entry =>
                         if bool_decide (s `prefix_of` qe.1)
                         then Some (d ++ drop (length s) qe.1, qe.2)
                         else None)
                      (map_to_list fs)) in
            (fs ∪ copied, Ok tt)
        | Some Dir, Some _ => (fs, Raise (FileExistsError (MsgOS dst)))
        | _, _ => (fs, Raise (NotADirectoryError (MsgOS src)))
        end
    | _, _ => (fs, Raise (FileNotFoundError (MsgOS src)))
    end.

Definition _generate_html_head (dl_file_name : string) : string :=
  "<head><a download=" +:+ dq +:+ dl_file_name +:+ dq +:+ "></a></head>".
Definition nav : string := "<nav></nav>".
Definition reviewer_initials : string := "<input id=initials>".
Definition html_foot : string := "</html>".

Definition _flip_images (src dst : path) : M unit :=
  (svg <- read_text src ;; write_text dst ("flipped " +:+ svg))%M.
Definition _drop_image (src dst : path) (layer : string) : M unit :=
  (svg <- read_text src ;; write_text dst ("without " +:+ layer +:+ " " +:+ svg))%M.

(** Report documents, as BeautifulSoup hands them over. *)
Definition figure (src : string) : node :=
  Tag "object" [("class"%string, AList ["svg-reportlet"%string]);
                ("type"%string, AStr "image/svg+xml");
                ("data"%string, AStr src)] [].
Definition caption (s : string) : node :=
  Tag "p" [("class"%string, AList ["elem-caption"%string])] [Text s].
Definition run_title (s : string) : node :=
  Tag "h3" [("class"%string, AList ["run-title"%string])] [Text s].
Definition div (ch : list node) : node := Tag "div" [] ch.
Definition document (ch : list node) : node := Tag "[document]" [] ch.

(** A report with a figure that has a description and one that has
    neither a description, nor the suffix ['dseg'], nor a space. *)
Definition report_01 : node :=
  document [
    div [run_title "Anatomical"; caption "Surface reconstruction";
         figure "./sub-01/figures/sub-01_desc-reconall_T1w.svg"];
    div [caption "Carpet plot";
         figure "./sub-01/figures/sub-01_task-rest_bold.svg"]
  ].

(** A report with the figure of a run and a figure without run. *)
Definition report_runs : node :=
  document [
    div [figure "./sub-01/figures/sub-01_desc-reconall_T1w.svg"];
    div [figure "./sub-01/figures/sub-01_task-rest_run-1_desc-carpetplot_bold.svg"]
  ].

(** Two figures outside any division, each after its caption. *)
Definition report_captions : node :=
  document [
    caption "far";
    figure "./sub-01/figures/sub-01_desc-reconall_T1w.svg";
    caption "near";
    figure "./sub-01/figures/sub-01_desc-summary_T1w.svg"
  ].

Definition BeautifulSoup (html : string) : node :=
  if String.eqb html "report_01" then report_01
  else if String.eqb html "report_captions" then report_captions
  else document [].

Definition make_report : options -> M unit :=
  make_report parse_file_entities BeautifulSoup json_dumps loads_BIDSVersion
    format_subject copytree _generate_html_head nav reviewer_initials
    html_foot _flip_images _drop_image.

Definition out : path := ["/"; "data"]%string.

(** An fMRIPrep output with one subject. *)
Definition study : files :=
  list_to_map [
    (["data"%string], Dir);
    (["data"; "sub-01.html"]%string, File "report_01");
    (["data"; "sub-01"]%string, Dir);
    (["data"; "sub-01"; "figures"]%string, Dir);
    (["data"; "sub-01"; "figures"; "sub-01_desc-reconall_T1w.svg"]%string,
       File "<svg>reconall</svg>");
    (["data"; "sub-01"; "figures"; "sub-01_task-rest_bold.svg"]%string,
       File "<svg>bold</svg>")
  ].

(** The same output, the figures directory of the subject missing. *)
Definition study_without_figures : files :=
  list_to_map [
    (["data"%string], Dir);
    (["data"; "sub-01.html"]%string, File "report_01")
  ].

(** The output after an earlier run. *)
Definition study_with_group : files :=
  <[ ["data"; "group"; "sub-01"; "figures"]%string
       := Symlink [".."; ".."; "sub-01"; "figures"]%string ]>
  (<[ ["data"; "group"; "sub-01"]%string := Dir ]>
  (<[ ["data"; "group"; "dataset_description.json"]%string
        := File "description of the earlier run" ]>
  (<[ ["data"; "group"]%string := Dir ]> study))).

Definition defaults : options :=
  mkOptions out (Some 50%Z) None [] [] [].

(** What the check of the options leaves when none is given. *)
Definition no_changes : image_mode := mkMode false ∅ ∅ ∅ [] [] [].

Definition group_dir : path := ["/"; "data"; "group"]%string.

(** Flipping and dropping the background of the same report type. *)
Definition flip_and_drop : options :=
  mkOptions out (Some 50%Z) None ["A"%string] ["A"%string] [].

(** A row as [_make_report_snippet] receives it. *)
Definition row : dict :=
  [("idx"%string, VInt 0); ("subject"%string, VStr "01");
   ("desc"%string, VStr "reconall"); ("suffix"%string, VStr "T1w");
   ("extension"%string, VStr ".svg");
   ("path"%string, VStr "./sub-01/figures/sub-01_desc-reconall_T1w.svg");
   ("filename"%string, VStr "sub-01_desc-reconall_T1w.svg");
   ("run_title"%string, VStr "Anatomical");
   ("elem_caption"%string, VStr "Surface reconstruction");
   ("task"%string, VNaN); ("report_type"%string, VStr "reconall");
   ("chunk"%string, VInt 0)].

(** Five rows of one report type. *)
Definition five_rows : DataFrame :=
  mkDataFrame ["subject"%string]
    (map (fun s => [("subject"%string, VStr s)])
         ["01"; "02"; "03"; "04"; "05"]%string).

Definition corpus : options -> image_mode -> path -> M DataFrame :=
  corpus parse_file_entities BeautifulSoup format_subject copytree.

Definition prepare_group_dir : options -> image_mode -> M path :=
  prepare_group_dir json_dumps loads_BIDSVersion.

Definition write_chunk : path -> value -> value -> DataFrame -> M unit :=
  write_chunk json_dumps _generate_html_head nav reviewer_initials html_foot.

(** The trees after lines 258-283, on the fresh output and on the one
    with a group directory. *)
Definition prepared : files :=
  (prepare_group_dir defaults no_changes study).1.

Definition prepared_again : files :=
  (prepare_group_dir defaults no_changes study_with_group).1.

Definition report_path : path := ["/"; "data"; "sub-01.html"]%string.

Definition subj_group_fig_dir : path :=
  ["/"; "data"; "group"; "sub-01"; "figures"]%string.

(** Runs on the edges: the figures of one report type flipped, an output
    directory that is not there, the figures directory of a subject taken
    for the output directory, and pages of no row. *)
Definition flip_reconall : options :=
  mkOptions out (Some 50%Z) None ["reconall"%string] [] [].

Definition flip_and_fade : options :=
  mkOptions out (Some 50%Z) None ["reconall"%string] ["bold"%string] [].

Definition nowhere : options :=
  mkOptions ["/"; "nodata"]%string (Some 50%Z) None [] [] [].

Definition figures_as_output : options :=
  mkOptions ["/"; "data"; "sub-01"; "figures"]%string (Some 50%Z) None [] [] [].

Definition zero_per_page : options :=
  mkOptions out (Some 0%Z) None [] [] [].

End Toy.

(** * Properties *)

(** ** Dictionaries *)

Lemma dict_get_set_eq (k : string) (v : value) (d : dict) :
  dict_get k (dict_set k v d) = Some v.
Proof.
  induction d as [|[k' v'] d IH]; simpl.
  - by rewrite String.eqb_refl.
  - destruct (String.eqb k k') eqn:E; simpl.
    + by rewrite String.eqb_refl.
    + by rewrite E.
Qed.

Lemma dict_get_set_ne (k k' : string) (v : value) (d : dict) :
  k ≠ k' → dict_get k (dict_set k' v d) = dict_get k d.
Proof.
  intros Hne. induction d as [|[k0 v0] d IH]; simpl.
  - by apply String.eqb_neq in Hne as ->.
  - destruct (String.eqb k' k0) eqn:E; simpl.
    + apply String.eqb_eq in E as <-.
      by apply String.eqb_neq in Hne as ->.
    + by rewrite IH.
Qed.

Lemma dict_set_set (k : string) (v w : value) (d : dict) :
  dict_set k v (dict_set k w d) = dict_set k v d.
Proof.
  induction d as [|[k0 v0] d IH]; simpl.
  - by rewrite String.eqb_refl.
  - destruct (String.eqb k k0) eqn:E; simpl.
    + by rewrite String.eqb_refl.
    + by rewrite E, IH.
Qed.

Lemma keys_dict_set (k k' : string) (v : value) (d : dict) :
  k' ∈ keys (dict_set k v d) ↔ k' = k ∨ k' ∈ keys d.
Proof.
  unfold keys. induction d as [|[k0 v0] d IH]; simpl.
  - set_solver.
  - destruct (String.eqb k k0) eqn:E; simpl.
    + apply String.eqb_eq in E as <-. set_solver.
    + set_solver.
Qed.

Lemma dict_get_Some_keys (k : string) (v : value) (d : dict) :
  dict_get k d = Some v → k ∈ keys d.
Proof.
  unfold keys. induction d as [|[k0 v0] d IH]; simpl; [done|].
  destruct (String.eqb k k0) eqn:E.
  - apply String.eqb_eq in E as ->. set_solver.
  - set_solver.
Qed.

Lemma dict_get_None_keys (k : string) (d : dict) :
  dict_get k d = None ↔ k ∉ keys d.
Proof.
  unfold keys. induction d as [|[k0 v0] d IH]; simpl.
  - set_solver.
  - destruct (String.eqb k k0) eqn:E.
    + apply String.eqb_eq in E as ->. set_solver.
    + apply String.eqb_neq in E. set_solver.
Qed.

Lemma dict_get_without (k : string) (blacklist : list string) (row : dict) :
  k ∉ blacklist → dict_get k (without blacklist row) = dict_get k row.
Proof.
  intros Hk. unfold without.
  induction row as [|[k0 v0] row IH]; [done|].
  rewrite filter_cons. simpl. destruct (String.eqb k k0) eqn:E.
  - apply String.eqb_eq in E as <-.
    rewrite decide_True by done. simpl. by rewrite String.eqb_refl.
  - case_decide; simpl; rewrite ?E; done.
Qed.

Lemma keys_without (k : string) (blacklist : list string) (row : dict) :
  k ∈ keys (without blacklist row) ↔ k ∈ keys row ∧ k ∉ blacklist.
Proof.
  unfold keys, without. rewrite !list_elem_of_fmap. split.
  - intros [[k0 v0] [-> H]]. apply list_elem_of_filter in H as [H1 H2].
    split; [|done]. by exists (k0, v0).
  - intros [[[k0 v0] [-> H]] Hb]. exists (k0, v0). split; [done|].
    by apply list_elem_of_filter.
Qed.

(** ** The state blob of a row *)

Lemma json_get_of_dict (k : string) (d : dict) :
  json_get k (json_of_dict d) = JVal <$> dict_get k d.
Proof.
  unfold json_of_dict. simpl.
  induction d as [|[k' v] d IH]; simpl; [done|].
  by destruct (String.eqb k k').
Qed.

(** C5, as the code has it. For a row none of whose keys is one of the
    four names the snippet adds, the object that the snippet hands to
    [json.dumps] and embeds has every key of the row outside the
    exclusion set {path, run_title, elem_caption, extension, filename}
    as a member with the value of the row, and besides exactly the
    members been_on_screen = false and rater, note and report, all three
    [np.nan]: not a null, and written by [json.dumps] as NaN. *)
Theorem id_ents_round_trip (row : dict) :
  (∀ k, k ∈ synthetic_fields → dict_get k row = None) →
  (∀ k v, dict_get k row = Some v → k ∉ id_blacklist →
          json_get k (json_of_dict (id_ents row)) = Some (JVal v))
  ∧ json_get "been_on_screen" (json_of_dict (id_ents row))
    = Some (JVal (VBool false))
  ∧ json_get "rater" (json_of_dict (id_ents row)) = Some (JVal VNaN)
  ∧ json_get "note" (json_of_dict (id_ents row)) = Some (JVal VNaN)
  ∧ json_get "report" (json_of_dict (id_ents row)) = Some (JVal VNaN)
  ∧ (∀ k, is_Some (json_get k (json_of_dict (id_ents row))) ↔
          (k ∈ keys row ∧ k ∉ id_blacklist) ∨ k ∈ synthetic_fields)
  ∧ (∀ json_dumps snippet,
        _make_report_snippet json_dumps row = Ok snippet →
        ∃ lines, snippet = String.concat nl lines
                 ∧ lines !! 3%nat
                   = Some ("        var subj_qc = "
                           +:+ json_dumps None (json_of_dict (id_ents row)))).
Proof.
  intros Hfresh.
  assert (∀ k, k ∈ keys (id_ents row) ↔
               (k ∈ keys row ∧ k ∉ id_blacklist) ∨ k ∈ synthetic_fields)
    as Hkeys.
  { intros k. unfold id_ents.
    rewrite !keys_dict_set, keys_without. unfold synthetic_fields. set_solver. }
  split; [|split; [|split; [|split; [|split; [|split]]]]];
    rewrite ?json_get_of_dict.
  - intros k v Hk Hb. rewrite json_get_of_dict. unfold id_ents.
    assert (k ∉ synthetic_fields) as Hs.
    { intros Hin. apply Hfresh in Hin. congruence. }
    unfold synthetic_fields in Hs.
    rewrite !dict_get_set_ne by set_solver.
    by rewrite dict_get_without, Hk.
  - unfold id_ents. rewrite !dict_get_set_ne by done.
    by rewrite dict_get_set_eq.
  - unfold id_ents. rewrite !dict_get_set_ne by done.
    by rewrite dict_get_set_eq.
  - unfold id_ents. by rewrite dict_get_set_eq.
  - unfold id_ents. rewrite !dict_get_set_ne by done.
    by rewrite dict_get_set_eq.
  - intros k. rewrite json_get_of_dict, <- Hkeys, fmap_is_Some. split.
    + intros [v Hv]. by eapply dict_get_Some_keys.
    + intros Hk. destruct (dict_get k (id_ents row)) eqn:E; [eauto|].
      by apply dict_get_None_keys in E.
  - intros json_dumps snippet. unfold _make_report_snippet, res_bind.
    destruct (getitem "idx" row); [|done].
    destruct (getitem "filename" row) as [[]|]; try done.
    destruct (getitem "path" row); [|done].
    intros Heq.
    match type of Heq with Ok (String.concat nl ?l) = _ => exists l end.
    split; [congruence | reflexivity].
Qed.

(** The script that closes the snippet assigns -1 to [report] on the
    object the page keeps, after the blob has been read; the blob itself
    is the one above. *)
Lemma snippet_script_sets_report (json_dumps : option nat → json → string)
    (row : dict) (snippet : string) :
  _make_report_snippet json_dumps row = Ok snippet →
  ∃ lines, snippet = String.concat nl lines
           ∧ lines !! 14%nat
             = Some ("      subj_qc[" +:+ dq +:+ "report" +:+ dq +:+ "] = -1").
Proof.
  unfold _make_report_snippet, res_bind.
  destruct (getitem "idx" row); [|done].
  destruct (getitem "filename" row) as [[]|]; try done.
  destruct (getitem "path" row); [|done].
  intros Heq.
  match type of Heq with Ok (String.concat nl ?l) = _ => exists l end.
  split; [congruence | reflexivity].
Qed.

(** ** Validation of the image-change options *)

Lemma check_image_changes_overlap (o : options) :
  overlapping o →
  ∃ (I : gset string) (a b : string),
    check_image_changes o = Raise (ValueError (MsgSingleWay I a b))
    ∧ a ≠ b ∧ I ≠ ∅
    ∧ ∀ x, x ∈ I ↔ x ∈ option_named o a ∧ x ∈ option_named o b.
Proof.
  intros [name Hname]. unfold check_image_changes.
  destruct (Nat.eqb (length (flip_images o)) 0
            && Nat.eqb (length (drop_background o)) 0
            && Nat.eqb (length (drop_foreground o)) 0) eqn:Hlen.
  { apply andb_prop in Hlen as [Hlen Hfg]. apply andb_prop in Hlen as [Hf Hbg].
    apply Nat.eqb_eq, nil_length_inv in Hf, Hbg, Hfg.
    rewrite Hf, Hbg, Hfg in Hname. set_solver. }
  clear Hlen.
  destruct (bool_decide_reflect
              ((list_to_set (flip_images o) : gset string)
                 ## list_to_set (drop_foreground o))) as [D1|D1]; simpl.
  - destruct (bool_decide_reflect
                ((list_to_set (flip_images o) : gset string)
                   ## list_to_set (drop_background o))) as [D2|D2]; simpl.
    + destruct (bool_decide_reflect
                  ((list_to_set (drop_foreground o) : gset string)
                     ## list_to_set (drop_background o))) as [D3|D3]; simpl.
      * exfalso. set_solver.
      * eexists _, "drop_foreground"%string, "drop_background"%string.
        split; [reflexivity|]. split; [done|]. split; [|set_solver].
        intros HI. apply D3. by apply disjoint_intersection_L.
    + eexists _, "flip_images"%string, "drop_background"%string.
      split; [reflexivity|]. split; [done|]. split; [|set_solver].
      intros HI. apply D2. by apply disjoint_intersection_L.
  - eexists _, "flip_images"%string, "drop_foreground"%string.
    split; [reflexivity|]. split; [done|]. split; [|set_solver].
    intros HI. apply D1. by apply disjoint_intersection_L.
Qed.

Lemma check_image_changes_disjoint (o : options) :
  pairwise_disjoint o →
  ∃ mode, check_image_changes o = Ok mode
          ∧ (image_changes mode = false ↔
             flip_images o = [] ∧ drop_background o = [] ∧ drop_foreground o = []).
Proof.
  intros Hd. unfold check_image_changes.
  destruct (Nat.eqb (length (flip_images o)) 0
            && Nat.eqb (length (drop_background o)) 0
            && Nat.eqb (length (drop_foreground o)) 0) eqn:Hlen.
  { apply andb_prop in Hlen as [Hlen Hfg]. apply andb_prop in Hlen as [Hf Hbg].
    apply Nat.eqb_eq, nil_length_inv in Hf, Hbg, Hfg.
    eexists. split; [reflexivity|]. simpl. done. }
  rewrite !bool_decide_eq_true_2; simpl.
  - eexists. split; [reflexivity|]. simpl. split; [done|].
    intros (Hf & Hbg & Hfg). rewrite Hf, Hbg, Hfg in Hlen. done.
  - intros x Hx Hy. apply elem_of_list_to_set in Hx, Hy.
    destruct (Hd x) as (_ & _ & H). auto.
  - intros x Hx Hy. apply elem_of_list_to_set in Hx, Hy.
    destruct (Hd x) as (_ & H & _). auto.
  - intros x Hx Hy. apply elem_of_list_to_set in Hx, Hy.
    destruct (Hd x) as (H & _ & _). auto.
Qed.

Section Run.

Variable parse_file_entities : string -> dict.
Variable BeautifulSoup : string -> node.
Variable json_dumps : option nat -> json -> string.
Variable loads_BIDSVersion : string -> option json.
Variable format_subject : string -> value -> res string.
Variable copytree : path -> path -> M unit.
Variable _generate_html_head : string -> string.
Variables nav reviewer_initials html_foot : string.
Variable _flip_images : path -> path -> M unit.
Variable _drop_image : path -> path -> string -> M unit.

(** C8. When a name is in two of [flip_images], [drop_foreground] and
    [drop_background], [make_report] raises the [ValueError] that names
    the first pair with common names and their intersection, and the file
    system is the one it started from: no directory was made, no file
    written. When the three are pairwise disjoint the check passes. *)
Theorem mutation_sets_checked_first (o : options) (fs : files) :
  (overlapping o →
   ∃ (I : gset string) (a b : string),
     make_report parse_file_entities BeautifulSoup json_dumps loads_BIDSVersion
       format_subject copytree _generate_html_head nav reviewer_initials
       html_foot _flip_images _drop_image o fs
     = (fs, Raise (ValueError (MsgSingleWay I a b)))
     ∧ a ≠ b ∧ I ≠ ∅
     ∧ ∀ x, x ∈ I ↔ x ∈ option_named o a ∧ x ∈ option_named o b)
  ∧ (pairwise_disjoint o → ∃ mode, check_image_changes o = Ok mode).
Proof.
  split.
  - intros Hov.
    destruct (check_image_changes_overlap o Hov) as (I & a & b & Hc & Hrest).
    exists I, a, b. split; [|done].
    unfold make_report, bind, lift. by rewrite Hc.
  - intros Hd. destruct (check_image_changes_disjoint o Hd) as (mode & Hc & _).
    by exists mode.
Qed.

End Run.


(** ** Lists *)

Lemma map_fmap {A B} (f : A → B) (l : list A) : map f l = f <$> l.
Proof. reflexivity. Qed.

Lemma zip_with_maps {A B C D} (f : B → C → D) (a : A → B) (b : A → C) (l : list A) :
  zip_with f (map a l) (map b l) = map (λ x, f (a x) (b x)) l.
Proof. induction l; simpl; congruence. Qed.

Lemma zip_with_map_r {A B C} (f : A → B → C) (b : A → B) (l : list A) :
  zip_with f l (map b l) = map (λ x, f x (b x)) l.
Proof. induction l; simpl; congruence. Qed.

Lemma elem_of_add_key (acc : list string) (k x : string) :
  x ∈ add_key acc k ↔ x ∈ acc ∨ x = k.
Proof. unfold add_key. case_bool_decide; set_solver. Qed.

Lemma elem_of_fold_add_key (ks acc : list string) (x : string) :
  x ∈ fold_left add_key ks acc ↔ x ∈ acc ∨ x ∈ ks.
Proof.
  revert acc. induction ks as [|k ks IH]; intros acc; simpl.
  - set_solver.
  - rewrite IH, elem_of_add_key. set_solver.
Qed.

Lemma elem_of_union_keys_acc (rows : list dict) (acc : list string) (x : string) :
  x ∈ fold_left (λ acc r, fold_left add_key (keys r) acc) rows acc
  ↔ x ∈ acc ∨ ∃ r, r ∈ rows ∧ x ∈ keys r.
Proof.
  revert acc. induction rows as [|r rows IH]; intros acc; simpl.
  - set_solver.
  - rewrite IH, elem_of_fold_add_key. split.
    + intros [[H|H]|(r' & Hr' & H)]; [by left| |].
      * right. exists r. set_solver.
      * right. exists r'. set_solver.
    + intros [H|(r' & Hr' & H)]; [by left; left|].
      apply elem_of_cons in Hr' as [->|Hr']; [by left; right|].
      right. by exists r'.
Qed.

Lemma elem_of_union_keys (rows : list dict) (r : dict) (x : string) :
  r ∈ rows → x ∈ keys r → x ∈ union_keys rows.
Proof.
  intros Hr Hx. unfold union_keys. apply elem_of_union_keys_acc.
  right. by exists r.
Qed.

(** ** Tables *)

Lemma cell_set_eq (c : string) (v : value) (r : dict) :
  cell c (dict_set c v r) = v.
Proof. unfold cell. by rewrite dict_get_set_eq. Qed.

Lemma cell_set_ne (c c' : string) (v : value) (r : dict) :
  c ≠ c' → cell c (dict_set c' v r) = cell c r.
Proof. intros. unfold cell. by rewrite dict_get_set_ne. Qed.

Lemma to_float_other (v : value) :
  is_int v = false → v ≠ VNone → to_float v = v.
Proof. by destruct v. Qed.

Lemma astype_other (vs : list value) (v : value) :
  is_int v = false → v ≠ VNone → astype vs v = v.
Proof.
  intros Hi Hn. unfold astype. destruct (float_column vs); [|done].
  by apply to_float_other.
Qed.

Lemma astype_cases (vs : list value) (v : value) :
  astype vs v = v ∨ astype vs v = to_float v.
Proof. unfold astype. destruct (float_column vs); auto. Qed.

Lemma isnull_astype (vs : list value) (v : value) :
  isnull (astype vs v) = isnull v.
Proof. unfold astype. destruct (float_column vs); [|done]. by destruct v. Qed.

Lemma dict_get_reindex (c : string) (rows : list dict) (cols : list string)
    (r : dict) :
  dict_get c (reindex rows cols r)
  = if bool_decide (c ∈ cols)
    then Some (astype (map (cell c) rows) (cell c r)) else None.
Proof.
  unfold reindex. induction cols as [|c0 cols IH]; simpl; [done|].
  destruct (String.eqb c c0) eqn:E.
  - apply String.eqb_eq in E as ->. by rewrite bool_decide_eq_true_2 by set_solver.
  - apply String.eqb_neq in E. rewrite IH.
    case_bool_decide; case_bool_decide; set_solver.
Qed.

Lemma rule_chain_set (hs : bool) (v : value) (r : dict) :
  rule_chain hs (dict_set "report_type" v r) = rule_chain hs r.
Proof. unfold rule_chain. by rewrite !cell_set_ne by done. Qed.

(** The three assignments of [classify], row by row. *)
Lemma classify_records (df df' : DataFrame) :
  classify df = Ok df' →
  columns df' = add_key (columns df) "report_type"
  ∧ records df'
    = map (λ r, dict_set "report_type"
                  (rule_chain (bool_decide ("space"%string ∈ columns df)) r) r)
          (records df).
Proof.
  unfold classify, res_bind, getattr, loc_setitem, setitem.
  destruct df as [cols R]. simpl.
  case_bool_decide as Hdesc; [|done].
  rewrite bool_decide_eq_true_2 by (apply elem_of_add_key; by right).
  assert (bool_decide ("suffix"%string ∈ add_key cols "report_type")
          = bool_decide ("suffix"%string ∈ cols)) as ->.
  { apply bool_decide_ext. rewrite elem_of_add_key. naive_solver. }
  case_bool_decide as Hsuffix; [|done].
  assert (bool_decide ("space"%string ∈ add_key cols "report_type")
          = bool_decide ("space"%string ∈ cols)) as ->.
  { apply bool_decide_ext. rewrite elem_of_add_key. naive_solver. }
  repeat (rewrite ?zip_with_map_r, ?map_map, ?zip_with_maps; simpl).
  case_bool_decide as Hspace; simpl.
  - rewrite ?bool_decide_eq_true_2 by (apply elem_of_add_key; by right).
    repeat (rewrite ?zip_with_map_r, ?map_map, ?zip_with_maps; simpl).
    intros [= <-]. simpl. split; [done|].
    apply map_ext. intros r. unfold rule_chain. simpl.
    rewrite !cell_set_eq, !(cell_set_ne "suffix") by done.
    destruct (isnull (cell "desc" r) && bool_decide (cell "suffix" r = VStr "dseg")) eqn:E1;
      simpl; rewrite ?cell_set_eq, ?cell_set_ne by done;
      rewrite ?dict_set_set;
      match goal with
      | |- context [if ?b then _ else _] => destruct b
      end; by rewrite ?dict_set_set.
  - intros [= <-]. simpl. split; [done|].
    apply map_ext. intros r. unfold rule_chain. simpl.
    rewrite !cell_set_eq, !(cell_set_ne "suffix") by done.
    destruct (isnull (cell "desc" r) && bool_decide (cell "suffix" r = VStr "dseg"));
      simpl; by rewrite ?dict_set_set.
Qed.

Lemma parse_soup_records (pfe : string → dict) (soup : node) (df : DataFrame) :
  parse_soup pfe soup = Ok df →
  ∃ rows, figure_rows pfe VNaN (file_divs soup) = Ok rows
          ∧ columns df = add_key (union_keys rows) "report_type"
          ∧ records df = map (classified rows) rows.
Proof.
  unfold parse_soup, res_bind.
  destruct (figure_rows pfe VNaN (file_divs soup)) as [rows|]; [|done].
  intros H. apply classify_records in H as [Hc H]. exists rows.
  split; [done|]. split; [done|].
  rewrite H. unfold DataFrame_of_records. simpl. by rewrite map_map.
Qed.

(** ** Run titles and captions *)

Lemma unique_retrieval_other (l : list node) (a b : string) :
  (∀ h, l ≠ [h]) → ∃ m, _unique_retrieval l a b = Raise (ValueError m).
Proof.
  intros Hl. destruct l as [|x [|y l]]; simpl; eauto.
  by destruct (Hl x).
Qed.

Lemma scan_previous_siblings_get (k : string) (prevs : list node) (row : dict) :
  k ≠ "elem_caption"%string →
  dict_get k (scan_previous_siblings prevs row) = dict_get k row.
Proof.
  intros Hk. unfold scan_previous_siblings. revert row.
  induction prevs as [|p prevs IH]; intros row; simpl; [done|].
  rewrite IH. destruct (is_caption_sibling p); [|done].
  by rewrite dict_get_set_ne.
Qed.

(** The sibling scan assigns nothing on a parsed document. *)
Lemma scan_previous_siblings_parsed (prevs : list node) (row : dict) :
  Forall class_is_list prevs → scan_previous_siblings prevs row = row.
Proof.
  unfold scan_previous_siblings. induction 1 as [|p prevs Hp _ IH]; simpl; [done|].
  assert (is_caption_sibling p = false) as ->; [|done].
  destruct p as [|name attrs ch]; [done|]. unfold class_is_list in Hp. simpl in *.
  by destruct (attr_get "class" attrs) as [[]|].
Qed.

Lemma figure_row_run_title (pfe : string → dict) (prev : value) (l : located)
    (row : dict) (prev' : value) :
  figure_row pfe prev l = Ok (row, prev') →
  prev' = match own_run_title l with
          | Some t => VStr t
          | None => prev
          end
  ∧ dict_get "run_title" row = Some prev'.
Proof.
  unfold figure_row, own_run_title.
  destruct (fig_path_of (fd l)) as [[fig_path|]|]; try done.
  destruct (last (Path fig_path)) as [filename|]; [|done].
  set (captions := _unique_retrieval
                     (findAll (Some "p"%string) "elem-caption" (fd_parent l)) _ _).
  destruct (findAll (Some "h3"%string) "run-title" (fd_parent l))
    as [|h [|h' hs]]; simpl;
    destruct captions as [t|[]]; try done; intros [= <- <-]; (split; [done|]);
    rewrite ?scan_previous_siblings_get, ?dict_get_set_ne by done;
    apply dict_get_set_eq.
Qed.

Lemma figure_rows_run_title (pfe : string → dict) (fds : list located) :
  ∀ prev rows,
    figure_rows pfe prev fds = Ok rows →
    length rows = length fds
    ∧ ∀ k, k < length fds →
        ∃ row, rows !! k = Some row
               ∧ dict_get "run_title" row = Some (carried_run_title prev fds k).
Proof.
  induction fds as [|l fds IH]; intros prev rows; simpl.
  - intros [= <-]. split; [done|]. intros k Hk. lia.
  - destruct (figure_row pfe prev l) as [[row prev']|] eqn:Hrow; [|done].
    destruct (figure_rows pfe prev' fds) as [rows'|] eqn:Hrows; [|done].
    intros [= <-]. apply figure_row_run_title in Hrow as [-> Hrt].
    apply IH in Hrows as [Hlen Hrest]. split; [simpl; lia|].
    intros [|k] Hk; simpl.
    + by exists row.
    + apply Hrest. lia.
Qed.

Lemma carried_run_title_step (fds : list located) :
  ∀ prev k, k < length fds →
    carried_run_title prev fds k
    = match fds !! k ≫= own_run_title with
      | Some t => VStr t
      | None => match k with
                | O => prev
                | S k' => carried_run_title prev fds k'
                end
      end.
Proof.
  induction fds as [|l fds IH]; intros prev k Hk; simpl in *; [lia|].
  destruct k as [|k]; simpl.
  - by destruct (own_run_title l).
  - rewrite IH by lia. destruct (fds !! k ≫= own_run_title); [done|].
    by destruct k.
Qed.

Lemma carried_run_title_spec (fds : list located) (k : nat) :
  k < length fds → carried_run_title VNaN fds k = spec_run_title fds k.
Proof.
  induction k as [|k IH]; intros Hk; rewrite carried_run_title_step by done; simpl.
  - done.
  - by rewrite IH by lia.
Qed.

Lemma spec_run_title_kind (fds : list located) (k : nat) :
  is_int (spec_run_title fds k) = false ∧ spec_run_title fds k ≠ VNone.
Proof.
  induction k as [|k IH]; simpl; by destruct (_ ≫= own_run_title).
Qed.

Lemma dict_get_classified (c : string) (rows : list dict) (r : dict) (v : value) :
  c ≠ "report_type"%string → c ∈ union_keys rows → dict_get c r = Some v →
  is_int v = false → v ≠ VNone →
  dict_get c (classified rows r) = Some v.
Proof.
  intros Hc Hin Hv Hi Hn. unfold classified.
  rewrite dict_get_set_ne, dict_get_reindex by done.
  rewrite bool_decide_eq_true_2 by done. unfold cell. rewrite Hv. simpl.
  by rewrite astype_other.
Qed.

(** C7. In the table of a parsed report, row [k] belongs to figure [k],
    and its [run_title] is the text of the only run-title heading below
    the parent of the figure when there is exactly one, and otherwise the
    [run_title] of row [k - 1], null for the first figure: a figure
    without a heading of its own inherits the title of the nearest
    earlier figure that had one. *)
Theorem run_title_inheritance (pfe : string → dict) (soup : node) (df : DataFrame) :
  parse_soup pfe soup = Ok df →
  length (records df) = length (file_divs soup)
  ∧ ∀ k l, file_divs soup !! k = Some l →
      ∃ row, records df !! k = Some row
        ∧ dict_get "run_title" row = Some (spec_run_title (file_divs soup) k)
        ∧ (∀ t, own_run_title l = Some t →
                dict_get "run_title" row = Some (VStr t))
        ∧ (own_run_title l = None → k = 0 →
           dict_get "run_title" row = Some VNaN)
        ∧ (own_run_title l = None → ∀ k', k = S k' →
           ∃ row', records df !! k' = Some row'
                   ∧ dict_get "run_title" row = dict_get "run_title" row').
Proof.
  intros Hparse. apply parse_soup_records in Hparse as (rows & Hrows & _ & Hrec).
  apply figure_rows_run_title in Hrows as [Hlen Hrows].
  assert (∀ k, k < length (file_divs soup) →
            ∃ row, records df !! k = Some row
                   ∧ dict_get "run_title" row
                     = Some (spec_run_title (file_divs soup) k)) as Hmain.
  { intros k Hk. destruct (Hrows k Hk) as (row & Hrow & Hrt).
    exists (classified rows row). split.
    - rewrite Hrec, map_fmap, list_lookup_fmap, Hrow. done.
    - rewrite carried_run_title_spec in Hrt by done.
      destruct (spec_run_title_kind (file_divs soup) k) as [Hi Hn].
      apply dict_get_classified; [done| |done|done|done].
      eapply elem_of_union_keys; [by eapply list_elem_of_lookup_2|].
      by eapply dict_get_Some_keys. }
  split; [by rewrite Hrec, length_map|].
  intros k l Hl. pose proof (lookup_lt_Some _ _ _ Hl) as Hk.
  destruct (Hmain k Hk) as (row & Hrow & Hrt). exists row.
  split; [done|]. split; [done|].
  rewrite Hrt. destruct k as [|k']; simpl; rewrite Hl; simpl.
  - split; [by intros t ->|]. split; [by intros ->|]. intros _ k' [=].
  - split; [by intros t ->|]. split; [by intros _ [=]|].
    intros -> k'' [= <-]. destruct (Hmain k') as (row' & Hrow' & Hrt'); [lia|].
    exists row'. by rewrite Hrt'.
Qed.

(** C4, on the report [Toy.report_captions]: the second figure has two
    captions below its parent and the caption "near" as its nearest
    earlier sibling, yet its row gets no caption, and the table of the
    report has no caption at all. The test of the scan compares the list
    of classes of the sibling with a string, which never holds. *)
Theorem caption_fallback_finds_no_sibling :
  ∃ l rest row prev df,
    file_divs Toy.report_captions !! 1 = Some l
    ∧ length (findAll (Some "p"%string) "elem-caption" (fd_parent l)) = 2
    ∧ fd_previous_siblings l = Toy.caption "near" :: rest
    ∧ has_class "elem-caption" (Toy.caption "near") = true
    ∧ figure_row Toy.parse_file_entities VNaN l = Ok (row, prev)
    ∧ dict_get "elem_caption" row = None
    ∧ parse_soup Toy.parse_file_entities Toy.report_captions = Ok df
    ∧ Forall (λ r, cell "elem_caption" r = VNaN) (records df).
Proof.
  do 5 eexists.
  split; [reflexivity|]. split; [reflexivity|]. split; [reflexivity|].
  split; [reflexivity|]. split; [vm_compute; reflexivity|].
  split; [reflexivity|]. split; [vm_compute; reflexivity|].
  repeat constructor.
Qed.

(** Were the class of a sibling a plain string, the scan would still not
    stop at the nearest caption: the last assignment is the one of the
    farthest. *)
Lemma scan_previous_siblings_keeps_farthest :
  scan_previous_siblings
    [Tag "p" [("class"%string, AStr "elem-caption")] [Text "near"];
     Tag "p" [("class"%string, AStr "elem-caption")] [Text "far"]] []
  = [("elem_caption"%string, VStr "far")].
Proof. reflexivity. Qed.

(** ** Grouping *)

Lemma insert_group_perm (k : value) (r : dict) (groups : list (value * list dict)) :
  concat (map snd (insert_group k r groups)) ≡ₚ concat (map snd groups) ++ [r].
Proof.
  induction groups as [|[k' g] groups IH]; simpl; [done|].
  case_bool_decide; simpl.
  - rewrite <- !(assoc_L (++)). f_equiv. apply Permutation_app_comm.
  - destruct (key_ltb k k'); simpl.
    + rewrite (Permutation_app_comm _ [r]). done.
    + rewrite IH. by rewrite (assoc_L (++)).
Qed.

Lemma insert_group_keyed (c : string) (k : value) (r : dict)
    (groups : list (value * list dict)) :
  isnull k = false → cell c r = k →
  Forall (λ kg : value * list dict,
            isnull kg.1 = false ∧ Forall (λ r, cell c r = kg.1) kg.2) groups →
  Forall (λ kg : value * list dict,
            isnull kg.1 = false ∧ Forall (λ r, cell c r = kg.1) kg.2)
         (insert_group k r groups).
Proof.
  intros Hk Hr. induction 1 as [|[k' g] groups [Hk' Hg] Hgroups IH]; simpl.
  - repeat constructor; done.
  - case_bool_decide; [|destruct (key_ltb k k')].
    + subst k'. constructor; [|done]. split; [done|].
      apply Forall_app. split; [done|]. by constructor.
    + constructor; [|by constructor]. split; [done|]. by constructor.
    + by constructor.
Qed.

Lemma group_rows_acc (c : string) (rows : list dict) :
  ∀ groups,
    Forall (λ kg : value * list dict,
              isnull kg.1 = false ∧ Forall (λ r, cell c r = kg.1) kg.2) groups →
    Forall (λ kg : value * list dict,
              isnull kg.1 = false ∧ Forall (λ r, cell c r = kg.1) kg.2)
           (fold_left (λ groups r, if isnull (cell c r) then groups
                                   else insert_group (cell c r) r groups)
                      rows groups)
    ∧ concat (map snd
                (fold_left (λ groups r, if isnull (cell c r) then groups
                                        else insert_group (cell c r) r groups)
                           rows groups))
      ≡ₚ concat (map snd groups)
          ++ filter (λ r, isnull (cell c r) = false) rows.
Proof.
  induction rows as [|r rows IH]; intros groups Hg; simpl.
  - split; [done|]. by rewrite app_nil_r.
  - rewrite filter_cons. destruct (isnull (cell c r)) eqn:E.
    + rewrite decide_False by done. by apply IH.
    + rewrite decide_True by done.
      destruct (IH (insert_group (cell c r) r groups)) as [H1 H2].
      { by apply insert_group_keyed. }
      split; [done|]. rewrite H2, insert_group_perm.
      by rewrite <- (assoc_L (++)).
Qed.

Lemma groupby_spec (c : string) (df : DataFrame) :
  c ∈ columns df →
  ∃ groups, groupby c df = Ok groups
    ∧ (∀ k g, (k, g) ∈ groups →
         isnull k = false ∧ ∀ r, r ∈ records g → cell c r = k)
    ∧ flat_map (λ kg : value * DataFrame, records kg.2) groups
      ≡ₚ filter (λ r, isnull (cell c r) = false) (records df).
Proof.
  intros Hc. unfold groupby. rewrite bool_decide_eq_true_2 by done.
  eexists. split; [reflexivity|].
  destruct (group_rows_acc c (records df) []) as [H1 H2]; [constructor|].
  fold (group_rows c (records df)) in H1, H2. split.
  - intros k g Hin. apply list_elem_of_fmap in Hin as ([k' g'] & [= -> ->] & Hin).
    rewrite Forall_forall in H1. destruct (H1 _ Hin) as [Hk Hg]. simpl in *.
    split; [done|]. intros r Hr. rewrite Forall_forall in Hg. by apply Hg.
  - simpl in H2. rewrite <- H2.
    generalize (group_rows c (records df)). intros gs.
    induction gs as [|[k g] gs IH]; simpl; [done|]. by rewrite IH.
Qed.

(** ** Pagination *)

Lemma dict_del_set (k : string) (v : value) (d : dict) :
  dict_del k (dict_set k v d) = dict_del k d.
Proof.
  unfold dict_del. induction d as [|[k0 v0] d IH]; simpl.
  - by rewrite filter_cons_False by (simpl; by intros []).
  - destruct (String.eqb k k0) eqn:E.
    + apply String.eqb_eq in E as <-.
      by rewrite !filter_cons_False by (simpl; by intros []).
    + rewrite !filter_cons. simpl. by rewrite IH.
Qed.

Lemma dict_del_set_ne (k k' : string) (v : value) (d : dict) :
  k ≠ k' → dict_del k (dict_set k' v d) = dict_set k' v (dict_del k d).
Proof.
  intros Hne. unfold dict_del. induction d as [|[k0 v0] d IH]; simpl.
  - by rewrite filter_cons_True by (simpl; congruence).
  - destruct (String.eqb k' k0) eqn:E.
    + apply String.eqb_eq in E as <-.
      rewrite !filter_cons_True by (simpl; congruence).
      simpl. by rewrite String.eqb_refl.
    + rewrite !filter_cons. simpl. case_decide; simpl; rewrite ?E, IH; done.
Qed.

Lemma payload_set_chunk (v : value) (r : dict) :
  payload (dict_set "chunk" v r) = payload r.
Proof.
  unfold payload. by rewrite dict_del_set_ne, dict_del_set by done.
Qed.

Lemma payload_paged (v i : value) (r : dict) :
  payload (dict_set "chunk" v (("idx"%string, i) :: r)) = payload r.
Proof.
  rewrite payload_set_chunk. unfold payload, dict_del at 2.
  by rewrite filter_cons_False by (simpl; by intros []).
Qed.

Lemma payload_rebased (j : value) (row : dict) :
  payload (("idx"%string, j) :: dict_del "idx" row) = payload row.
Proof.
  unfold payload. f_equal. unfold dict_del.
  rewrite filter_cons_False by (simpl; by intros []).
  by rewrite list_filter_filter_l.
Qed.

(** The rows of a report type after lines 332-356. *)
Lemma paged_records (rpp : option Z) (rtdf : DataFrame) :
  (∀ n, rpp = Some n → 0 < n < 9223372036854775808)%Z →
  ∃ paged,
    with_chunk rpp (with_idx rtdf) = Ok paged
    ∧ columns paged = add_key ("idx"%string :: columns rtdf) "chunk"
    ∧ records paged
      = imap (λ i r, dict_set "chunk" (VInt (spec_chunk rpp i))
                       (("idx"%string, VInt (Z.of_nat i)) :: r))
             (records rtdf).
Proof.
  intros Hpos. unfold with_chunk, with_idx, setitem, getattr, res_bind.
  destruct rtdf as [cols R]. simpl. destruct rpp as [n|]; simpl.
  - eexists. split; [reflexivity|]. split; [done|]. simpl.
    rewrite map_map, zip_with_map_r, map_fmap, fmap_imap.
    apply imap_ext. intros i r _. simpl. unfold cell. simpl.
    specialize (Hpos n eq_refl).
    rewrite (proj2 (Z.eqb_neq n 0)) by lia.
    by rewrite (proj2 (Z.leb_gt 9223372036854775808 n)) by lia.
  - eexists. split; [reflexivity|]. split; [done|]. simpl.
    by rewrite zip_with_map_r, map_fmap, fmap_imap.
Qed.

Lemma spec_chunk_mono (rpp : option Z) (i j : nat) :
  (∀ n, rpp = Some n → 0 < n)%Z → i ≤ j →
  (spec_chunk rpp i ≤ spec_chunk rpp j)%Z.
Proof.
  intros Hpos Hij. destruct rpp as [n|]; simpl; [|done].
  apply Z.div_le_mono; [by apply Hpos | lia].
Qed.

Lemma seq_sorted (h : nat → Z) (n : nat) :
  (∀ i j, i ≤ j → (h i ≤ h j)%Z) →
  ∀ a, StronglySorted Z.le (h <$> seq a n).
Proof.
  intros Hh. induction n as [|n IH]; intros a; simpl; constructor; [done|].
  apply Forall_fmap, Forall_forall. intros i Hi. apply elem_of_seq in Hi.
  simpl. apply Hh. lia.
Qed.

(** Adding a row whose key is at least every key so far. *)
Lemma insert_group_last (z : Z) (r : dict) (groups : list (value * list dict)) :
  ∀ zs,
    map fst groups = map VInt zs →
    StronglySorted Z.lt zs →
    Forall (λ y, y ≤ z)%Z zs →
    concat (map snd (insert_group (VInt z) r groups))
    = concat (map snd groups) ++ [r]
    ∧ ∃ zs', map fst (insert_group (VInt z) r groups) = map VInt zs'
             ∧ StronglySorted Z.lt zs'
             ∧ Forall (λ y, y ≤ z)%Z zs'
             ∧ ∀ x, x ∈ zs' → x ∈ zs ∨ x = z.
Proof.
  induction groups as [|[k g] groups IH]; intros zs Hkeys Hsorted Hle; simpl.
  - split; [done|]. exists [z]. repeat split; try by repeat constructor.
    set_solver.
  - destruct zs as [|y zs]; [done|]. simpl in Hkeys.
    injection Hkeys as -> Hkeys.
    apply StronglySorted_inv in Hsorted as [Hsorted Hy].
    apply Forall_cons in Hle as [Hyz Hle].
    case_bool_decide as Heq.
    + injection Heq as ->. simpl.
      assert (zs = []) as ->.
      { destruct zs as [|y' zs]; [done|].
        apply Forall_cons in Hy as [? _]. apply Forall_cons in Hle as [? _]. lia. }
      destruct groups; [|done]. simpl. split; [by rewrite !app_nil_r|].
      exists [y]. repeat split; try by repeat constructor.
      set_solver.
    + assert ((z <? y)%Z = false) as -> by (by apply Z.ltb_ge).
      destruct (IH zs Hkeys Hsorted Hle) as (Hcat & zs' & Hk' & Hs' & Hl' & Hin).
      simpl. split; [by rewrite Hcat, (assoc_L (++))|].
      exists (y :: zs'). split; [simpl; by rewrite Hk'|].
      split; [|split; [by constructor | set_solver]].
      constructor; [done|]. apply Forall_forall. intros x Hx.
      destruct (Hin x Hx) as [Hx'| ->].
      * rewrite Forall_forall in Hy. by apply Hy.
      * assert (y ≠ z) by congruence. lia.
Qed.

(** Rows that come in key order are grouped without being reordered. *)
Lemma group_rows_sorted (c : string) (rows : list dict) :
  ∀ ks groups zs,
    map (cell c) rows = map VInt ks →
    StronglySorted Z.le ks →
    map fst groups = map VInt zs →
    StronglySorted Z.lt zs →
    (∀ y k, y ∈ zs → k ∈ ks → (y ≤ k)%Z) →
    concat (map snd
              (fold_left (λ groups r, if isnull (cell c r) then groups
                                      else insert_group (cell c r) r groups)
                         rows groups))
    = concat (map snd groups) ++ rows
    ∧ ∃ zs', map fst
               (fold_left (λ groups r, if isnull (cell c r) then groups
                                       else insert_group (cell c r) r groups)
                          rows groups)
             = map VInt zs'
             ∧ StronglySorted Z.lt zs'.
Proof.
  induction rows as [|r rows IH]; intros ks groups zs Hks Hsorted Hkeys Hzs Hle; simpl.
  - split; [by rewrite app_nil_r|]. by exists zs.
  - destruct ks as [|k ks]; [done|]. simpl in Hks. injection Hks as Hk Hks.
    rewrite Hk. simpl.
    apply StronglySorted_inv in Hsorted as [Hsorted Hkle].
    destruct (insert_group_last k r groups zs Hkeys Hzs)
      as (Hcat & zs' & Hk' & Hs' & Hl' & Hin).
    { apply Forall_forall. intros y Hy. apply Hle; set_solver. }
    destruct (IH ks (insert_group (VInt k) r groups) zs' Hks Hsorted Hk' Hs')
      as [Hcat' Hrest].
    { intros y k' Hy Hk''. rewrite Forall_forall in Hl', Hkle.
      specialize (Hl' y Hy). specialize (Hkle k' Hk''). simpl in *. lia. }
    split; [|done]. rewrite Hcat', Hcat. by rewrite <- (assoc_L (++)).
Qed.

Lemma insert_group_sizes (k : value) (r : dict) (groups : list (value * list dict)) :
  sizes (insert_group k r groups) = insert_count k (sizes groups).
Proof.
  unfold sizes. induction groups as [|[k' g] groups IH]; simpl; [done|].
  case_bool_decide; simpl.
  - rewrite length_app. simpl. do 2 f_equal. lia.
  - destruct (key_ltb k k'); simpl; [done|]. by rewrite IH.
Qed.

Lemma group_rows_sizes (c : string) (rows : list dict) :
  sizes (group_rows c rows) = count_keys (map (cell c) rows).
Proof.
  unfold group_rows, count_keys.
  change (@nil (value * nat)) with (sizes []).
  generalize (@nil (value * list dict)).
  induction rows as [|r rows IH]; intros groups; simpl; [done|].
  rewrite IH. destruct (isnull (cell c r)); [done|].
  by rewrite insert_group_sizes.
Qed.

Lemma paged_keys (rpp : option Z) (R : list dict) :
  map (cell "chunk")
      (imap (λ i r, dict_set "chunk" (VInt (spec_chunk rpp i))
                      (("idx"%string, VInt (Z.of_nat i)) :: r)) R)
  = map VInt (spec_chunk rpp <$> seq 0 (length R)).
Proof.
  rewrite !map_fmap, fmap_imap, <- list_fmap_compose, <- imap_seq_0.
  apply imap_ext. intros i r _. simpl. apply cell_set_eq.
Qed.

Lemma rebased_payloads (cols : list string) (g : list dict) :
  map payload (records (rebase_idx (mkDataFrame cols g))) = map payload g.
Proof.
  simpl. rewrite !map_fmap, fmap_imap, <- imap_const.
  apply imap_ext. intros i r _. simpl. apply payload_rebased.
Qed.

(** C6, as the code has it. For a page size that is unset, or positive
    and below 2^63: the row at position [i] of a report type has
    [idx = i] and [chunk = 0] when the size is unset, [chunk = i div size]
    otherwise; the pages are listed by increasing chunk; their rows, each
    page numbered again from 0, are one after the other the rows of the
    report type in their order. With 120 rows and a size of 50 the pages
    are chunks 0, 1 and 2 with 50, 50 and 20 rows. *)
Theorem pagination_by_chunks (rpp : option Z) (rtdf : DataFrame) :
  (∀ n, rpp = Some n → 0 < n < 9223372036854775808)%Z →
  ∃ paged chunks zs,
    with_chunk rpp (with_idx rtdf) = Ok paged
    ∧ groupby "chunk" paged = Ok chunks
    ∧ (∀ i r, records paged !! i = Some r →
         dict_get "idx" r = Some (VInt (Z.of_nat i))
         ∧ cell "chunk" r = VInt (spec_chunk rpp i))
    ∧ map fst chunks = map VInt zs
    ∧ StronglySorted Z.lt zs
    ∧ flat_map (λ c : value * DataFrame, map payload (records (rebase_idx c.2)))
               chunks
      = map payload (records rtdf)
    ∧ (∀ c j r, c ∈ chunks → records (rebase_idx c.2) !! j = Some r →
         dict_get "idx" r = Some (VInt (Z.of_nat j)))
    ∧ (length (records rtdf) = 120 → rpp = Some 50%Z →
       map fst chunks = [VInt 0; VInt 1; VInt 2]
       ∧ map (λ c : value * DataFrame, length (records (rebase_idx c.2))) chunks
         = [50; 50; 20]).
Proof.
  intros Hpos.
  destruct (paged_records rpp rtdf Hpos) as (paged & Hpaged & Hcols & Hrec).
  pose proof (paged_keys rpp (records rtdf)) as Hkeys. rewrite <- Hrec in Hkeys.
  destruct (group_rows_sorted "chunk" (records paged)
              (spec_chunk rpp <$> seq 0 (length (records rtdf))) [] [])
    as (Hcat & zs & Hzs & Hsorted); try done.
  { apply seq_sorted. intros i j Hij. apply spec_chunk_mono; [|done].
    intros n Hn. apply Hpos in Hn. lia. }
  { constructor. }
  { intros y k Hy. by apply elem_of_nil in Hy. }
  fold (group_rows "chunk" (records paged)) in Hcat, Hzs. simpl in Hcat.
  exists paged. eexists. exists zs. split; [done|].
  unfold groupby. rewrite bool_decide_eq_true_2
    by (rewrite Hcols; apply elem_of_add_key; by right).
  split; [reflexivity|].
  split; [|split; [|split; [done|split; [|split]]]].
  - intros i r Hr. rewrite Hrec, list_lookup_imap in Hr.
    destruct (records rtdf !! i) as [r0|]; [|done]. injection Hr as <-.
    split; [done|]. unfold cell. simpl. by rewrite dict_get_set_eq.
  - by rewrite map_map.
  - transitivity (map payload (concat (map snd (group_rows "chunk" (records paged))))).
    + generalize (group_rows "chunk" (records paged)). intros gs.
      induction gs as [|[k g] gs IH]; [done|].
      cbn [map flat_map concat snd fst]. rewrite IH, map_app. f_equal.
      apply rebased_payloads.
    + rewrite Hcat, Hrec, !map_fmap, fmap_imap, <- imap_const.
      apply imap_ext. intros i r _. simpl. apply payload_paged.
  - intros c j r Hc Hr. simpl in Hr. rewrite list_lookup_imap in Hr.
    destruct (records c.2 !! j); [|done]. by injection Hr as <-.
  - intros Hlen ->.
    pose proof (group_rows_sizes "chunk" (records paged)) as Hsizes.
    rewrite Hkeys, Hlen in Hsizes.
    assert (count_keys (map VInt (spec_chunk (Some 50%Z) <$> seq 0 120))
            = [(VInt 0, 50); (VInt 1, 50); (VInt 2, 20)]) as Hcount
      by (vm_compute; reflexivity).
    rewrite Hcount in Hsizes. clear Hcount. unfold sizes in Hsizes. split.
    + rewrite map_map. simpl.
      change (map (λ x : value * list dict, x.1) (group_rows "chunk" (records paged)))
        with (map fst (group_rows "chunk" (records paged))).
      apply (f_equal (map fst)) in Hsizes. rewrite map_map in Hsizes. done.
    + rewrite map_map. simpl. apply (f_equal (map snd)) in Hsizes.
      rewrite map_map in Hsizes. simpl in Hsizes.
      rewrite <- Hsizes. apply map_ext. intros [k g]. simpl. apply length_imap.
Qed.

(** ** The file system *)

Lemma walk_app (follow : path → path → option path) (fs : files) (p q : path) :
  ∀ cur, walk follow fs cur (p ++ q)
         = walk follow fs cur p ≫= λ d, walk follow fs d q.
Proof.
  induction p as [|c p IH]; intros cur; simpl; [done|].
  destruct (String.eqb c "/"); [apply IH|].
  destruct (entry_at fs cur) as [[]|]; try done.
  destruct (String.eqb c ".."); [apply IH|].
  destruct (fs !! (cur ++ [c])) as [[]|]; try done; try apply IH.
  destruct (follow cur target); [apply IH | done].
Qed.

Lemma resolve_snoc (fs : files) (p : path) (name : string) (q : path) :
  name ≠ "/"%string → name ≠ ".."%string →
  resolve fs (p ++ [name]) = Some q →
  ∃ d, resolve fs p = Some d ∧ entry_at fs d = Some Dir
       ∧ is_Some (fs !! (d ++ [name])).
Proof.
  intros H1 H2. unfold resolve, symloop_max. simpl. rewrite walk_app.
  destruct (walk _ fs [] p) as [d|]; [|done]. simpl.
  apply String.eqb_neq in H1, H2. rewrite H1, H2.
  destruct (entry_at fs d) as [[]|] eqn:Hd; try done.
  destruct (fs !! (d ++ [name])) as [e|] eqn:He; [|done]. intros _.
  exists d. eauto.
Qed.

Lemma locate_snoc (fs : files) (p : path) (name : string) :
  name ≠ "/"%string → name ≠ ".."%string →
  locate fs (p ++ [name])
  = resolve fs p ≫= λ d, match entry_at fs d with
                         | Some Dir => Some (d ++ [name])
                         | _ => None
                         end.
Proof.
  intros H1 H2. unfold locate. rewrite last_snoc, removelast_last.
  apply String.eqb_neq in H1, H2. rewrite H1, H2. simpl.
  by destruct (resolve fs p).
Qed.

Lemma entry_at_snoc (fs : files) (d : path) (name : string) :
  entry_at fs (d ++ [name]) = fs !! (d ++ [name]).
Proof. by destruct d. Qed.

Lemma taken_parent_is_dir (fs : files) (p : path) :
  entry_taken fs (p ++ ["figures"%string]) = true → is_dir fs p = true.
Proof.
  unfold entry_taken, is_symlink, path_exists, is_dir. intros H.
  apply orb_prop in H as [H|H].
  - rewrite locate_snoc in H by done.
    destruct (resolve fs p) as [d|]; [|done]. simpl in H.
    by destruct (entry_at fs d) as [[]|].
  - destruct (resolve fs (p ++ ["figures"%string])) as [q|] eqn:E; [|done].
    apply resolve_snoc in E as (d & -> & -> & _); done.
Qed.

Lemma mkdir_exist_ok_is_dir (fs : files) (p : path) :
  is_dir fs p = true → mkdir_exist_ok p fs = (fs, Ok tt).
Proof.
  intros Hdir. unfold mkdir_exist_ok. rewrite Hdir.
  assert (∃ q e, locate fs p = Some q ∧ entry_at fs q = Some e) as (q & e & -> & ->);
    [|done].
  unfold is_dir in Hdir. destruct (resolve fs p) as [q|] eqn:Hres; [|done].
  destruct (entry_at fs q) as [[]|] eqn:Hq; try done.
  destruct p as [|c p _] using rev_ind.
  { exists [], Dir. done. }
  destruct (decide (c = "/"%string ∨ c = ".."%string)) as [Hc|Hc].
  - exists q, Dir. split; [|done]. unfold locate. rewrite last_snoc.
    destruct Hc as [-> | ->]; simpl; done.
  - apply resolve_snoc in Hres as (d & Hd & Hdd & [e He]); [|naive_solver..].
    exists (d ++ [c]), e. rewrite locate_snoc by naive_solver.
    rewrite Hd. simpl. rewrite Hdd. by rewrite entry_at_snoc.
Qed.

Lemma mkdir_exist_ok_extends (p : path) (fs : files) :
  fs ⊆ (mkdir_exist_ok p fs).1.
Proof.
  unfold mkdir_exist_ok. destruct (locate fs p) as [q|]; [|done].
  destruct (entry_at fs q) eqn:E.
  - by destruct (is_dir fs p).
  - simpl. apply insert_subseteq. by destruct q.
Qed.

Lemma symlink_to_extends (p target : path) (fs : files) :
  fs ⊆ (symlink_to p target fs).1.
Proof.
  unfold symlink_to. destruct (locate fs p) as [q|]; [|done].
  destruct (entry_at fs q) eqn:E; [done|].
  simpl. apply insert_subseteq. by destruct q.
Qed.

Lemma for_each_ok {A} (body : A → M unit) (l : list A) :
  ∀ fs fs', for_each l body fs = (fs', Ok tt) →
            ∀ a, a ∈ l → ∃ fsa fsb, body a fsa = (fsb, Ok tt).
Proof.
  induction l as [|x l IH]; intros fs fs' Hrun a Ha.
  - by apply elem_of_nil in Ha.
  - simpl in Hrun. unfold bind in Hrun.
    destruct (body x fs) as [fs1 [[]|e]] eqn:Hx; [|done].
    apply elem_of_cons in Ha as [->|Ha]; [eauto|].
    by eapply IH.
Qed.

(** ** The group tree *)

Lemma check_image_changes_lists (o : options) (mode : image_mode) :
  check_image_changes o = Ok mode →
  (NoDup (flip_list mode) ∧ ∀ x, x ∈ flip_list mode ↔ x ∈ flip_images o)
  ∧ (NoDup (background_list mode)
     ∧ ∀ x, x ∈ background_list mode ↔ x ∈ drop_background o)
  ∧ (NoDup (foreground_list mode)
     ∧ ∀ x, x ∈ foreground_list mode ↔ x ∈ drop_foreground o).
Proof.
  unfold check_image_changes.
  destruct (Nat.eqb (length (flip_images o)) 0
            && Nat.eqb (length (drop_background o)) 0
            && Nat.eqb (length (drop_foreground o)) 0) eqn:Hlen.
  - apply andb_prop in Hlen as [Hlen Hfg]. apply andb_prop in Hlen as [Hf Hbg].
    apply Nat.eqb_eq, nil_length_inv in Hf, Hbg, Hfg.
    intros [= <-]. simpl. rewrite Hf, Hbg, Hfg.
    repeat split; (constructor || done).
  - repeat case_bool_decide; simpl; try done.
    intros [= <-]. simpl.
    repeat split; try apply NoDup_elements;
      rewrite elem_of_elements, elem_of_list_to_set; done.
Qed.

Section GroupTree.

Variable parse_file_entities : string -> dict.
Variable BeautifulSoup : string -> node.
Variable json_dumps : option nat -> json -> string.
Variable loads_BIDSVersion : string -> option json.
Variable format_subject : string -> value -> res string.
Variable copytree : path -> path -> M unit.
Variable _generate_html_head : string -> string.
Variables nav reviewer_initials html_foot : string.
Variable _flip_images : path -> path -> M unit.
Variable _drop_image : path -> path -> string -> M unit.

Lemma parse_report_pure (report_path : path) (fs : files) :
  ∃ r, parse_report parse_file_entities BeautifulSoup report_path fs = (fs, r).
Proof.
  unfold parse_report, bind, read_text, lift.
  destruct (resolve fs report_path) as [q|]; [|eauto].
  destruct (entry_at fs q) as [[]|]; eauto.
Qed.

Lemma find_orig_fig_dir_pure (o : options) (report_path : path)
    (subject : value) (subj_group_dir subj_group_fig_dir : path) (fs : files) :
  ∃ r, find_orig_fig_dir format_subject o report_path subject
         subj_group_dir subj_group_fig_dir fs = (fs, r).
Proof.
  unfold find_orig_fig_dir, bind, query, lift, discard, ret, raise.
  destruct (path_to_figures o) as [template|].
  - destruct (format_subject template subject); [|eauto].
    destruct (negb _); eauto.
  - destruct (negb _); simpl;
      destruct (relative_to _ _); eauto; destruct (relative_to _ _); eauto.
Qed.

(** Without a template the result does not depend on whether the
    expected figures directory exists. *)
Lemma inferred_fig_dir_unchecked (o : options) (report_path : path)
    (subject : value) (subj_group_dir subj_group_fig_dir : path) (fs1 fs2 : files) :
  path_to_figures o = None →
  (find_orig_fig_dir format_subject o report_path subject
     subj_group_dir subj_group_fig_dir fs1).2
  = (find_orig_fig_dir format_subject o report_path subject
       subj_group_dir subj_group_fig_dir fs2).2.
Proof.
  intros Hnone. unfold find_orig_fig_dir, bind, query, lift, discard, ret.
  rewrite Hnone.
  destruct (negb (path_exists fs1 _)), (negb (path_exists fs2 _)); simpl;
    destruct (relative_to _ _); try done; destruct (relative_to _ _); done.
Qed.

Lemma place_figures_taken (mode : image_mode)
    (subj_group_dir subj_group_fig_dir orig_fig_dir : path) (fs : files) :
  entry_taken fs subj_group_fig_dir = true →
  place_figures copytree mode subj_group_dir subj_group_fig_dir orig_fig_dir fs
  = (fs, Raise (ValueError (MsgWouldBeOverwritten subj_group_fig_dir))).
Proof.
  unfold entry_taken, place_figures, bind, query, raise. by intros ->.
Qed.

Lemma link_figures_taken (o : options) (mode : image_mode)
    (group_dir report_path : path) (subject : value) (fs : files) :
  getitem "subject" (parse_file_entities (as_posix report_path)) = Ok subject →
  entry_taken fs (joinpath (joinpath group_dir (Path ("sub-" +:+ str subject)))
                           ["figures"%string]) = true →
  ∃ e, link_figures parse_file_entities format_subject copytree
         o mode group_dir report_path fs = (fs, Raise e).
Proof.
  intros Hsubject Htaken. unfold link_figures, bind, lift. rewrite Hsubject.
  rewrite mkdir_exist_ok_is_dir by (by apply taken_parent_is_dir).
  destruct (find_orig_fig_dir_pure o report_path subject
              (joinpath group_dir (Path ("sub-" +:+ str subject)))
              (joinpath (joinpath group_dir (Path ("sub-" +:+ str subject)))
                        ["figures"%string]) fs) as [[orig|e] ->]; [|eauto].
  rewrite place_figures_taken by done. eauto.
Qed.

Lemma collect_reports_app (o : options) (mode : image_mode) (group_dir : path)
    (pre rest : list path) :
  ∀ fs fs1 dfs,
    collect_reports parse_file_entities BeautifulSoup format_subject copytree
      o mode group_dir pre fs = (fs1, Ok dfs) →
    collect_reports parse_file_entities BeautifulSoup format_subject copytree
      o mode group_dir (pre ++ rest) fs
    = match collect_reports parse_file_entities BeautifulSoup format_subject
              copytree o mode group_dir rest fs1 with
      | (fs2, Ok dfs') => (fs2, Ok (dfs ++ dfs'))
      | (fs2, Raise e) => (fs2, Raise e)
      end.
Proof.
  induction pre as [|rp pre IH]; intros fs fs1 dfs; simpl.
  - unfold ret. intros [= <- <-].
    by destruct (collect_reports _ _ _ _ _ _ _ _ _) as [fs2 [dfs'|e]].
  - case_bool_decide; [apply IH|]. unfold bind, ret.
    destruct (parse_report _ _ rp fs) as [fsa [df|]]; [|done].
    destruct (link_figures _ _ _ _ _ _ _ fsa) as [fsb [[]|]]; [|done].
    destruct (collect_reports _ _ _ _ _ _ _ pre fsb) as [fsc [dfs0|]] eqn:Hpre;
      [|done].
    intros [= <- <-]. rewrite (IH _ _ _ Hpre).
    by destruct (collect_reports _ _ _ _ _ _ _ rest fsc) as [fs2 [dfs'|e]].
Qed.

(** C9. When the loop over the subject reports arrives at a report whose
    subject already has a figures entry in the group tree, be it a
    symbolic link, dangling or not, or anything else, the check of
    lines 320-322 raises, neither [copytree] nor [symlink_to] runs, and
    the whole of [make_report] ends there with an error: the tree is the
    one the loop found on arrival, so the entry is not replaced. *)
Theorem existing_figures_entry_aborts (o : options) (mode : image_mode)
    (group_dir report_path : path) (subject : value) (fs : files) :
  getitem "subject" (parse_file_entities (as_posix report_path)) = Ok subject →
  entry_taken fs (joinpath (joinpath group_dir (Path ("sub-" +:+ str subject)))
                           ["figures"%string]) = true →
  (∀ orig_fig_dir,
     place_figures copytree mode
       (joinpath group_dir (Path ("sub-" +:+ str subject)))
       (joinpath (joinpath group_dir (Path ("sub-" +:+ str subject)))
                 ["figures"%string])
       orig_fig_dir fs
     = (fs, Raise (ValueError (MsgWouldBeOverwritten
                     (joinpath (joinpath group_dir (Path ("sub-" +:+ str subject)))
                               ["figures"%string])))))
  ∧ (∃ e, link_figures parse_file_entities format_subject copytree
            o mode group_dir report_path fs = (fs, Raise e))
  ∧ (∀ fs0 fs1 pre rest dfs report,
       check_image_changes o = Ok mode →
       prepare_group_dir json_dumps loads_BIDSVersion o mode fs0
       = (fs1, Ok group_dir) →
       glob_subject_reports (fmriprep_output_path o) fs1
       = (fs1, Ok (pre ++ report_path :: rest)) →
       collect_reports parse_file_entities BeautifulSoup format_subject copytree
         o mode group_dir pre fs1 = (fs, Ok dfs) →
       "figures"%string ∉ report_path →
       parse_report parse_file_entities BeautifulSoup report_path fs
       = (fs, Ok report) →
       ∃ e, make_report parse_file_entities BeautifulSoup json_dumps loads_BIDSVersion
       format_subject copytree _generate_html_head nav reviewer_initials
       html_foot _flip_images _drop_image o fs0
            = (fs, Raise e)).
Proof.
  intros Hsubject Htaken. split; [|split].
  - intros orig. by apply place_figures_taken.
  - by eapply link_figures_taken.
  - intros fs0 fs1 pre rest dfs report Hcheck Hprep Hglob Hpre Hfig Hparse.
    destruct (link_figures_taken o mode group_dir report_path subject fs
                Hsubject Htaken) as [e He].
    exists e. unfold make_report, corpus, bind, lift.
    rewrite Hcheck, Hprep, Hglob, (collect_reports_app _ _ _ _ _ _ _ _ Hpre).
    simpl. rewrite bool_decide_eq_false_2 by done.
    unfold bind. by rewrite Hparse, He.
Qed.

Lemma link_figures_extends (o : options) (mode : image_mode)
    (group_dir report_path : path) (fs : files) :
  (∀ src dst fs, fs ⊆ (copytree src dst fs).1) →
  fs ⊆ (link_figures parse_file_entities format_subject copytree
          o mode group_dir report_path fs).1.
Proof.
  intros Hcopy. unfold link_figures, bind, lift.
  destruct (getitem "subject" _) as [subject|]; [|done].
  pose proof (mkdir_exist_ok_extends
                (joinpath group_dir (Path ("sub-" +:+ str subject))) fs) as Hmk.
  destruct (mkdir_exist_ok _ fs) as [fsa [[]|]]; [|done]. simpl in Hmk.
  destruct (find_orig_fig_dir_pure o report_path subject
              (joinpath group_dir (Path ("sub-" +:+ str subject)))
              (joinpath (joinpath group_dir (Path ("sub-" +:+ str subject)))
                        ["figures"%string]) fsa) as [[orig|e] ->]; [|done].
  unfold place_figures, bind, query, raise.
  destruct (_ || _); [done|]. etrans; [exact Hmk|].
  destruct (image_changes mode); [apply Hcopy | apply symlink_to_extends].
Qed.

Lemma collect_reports_extends (o : options) (mode : image_mode)
    (group_dir : path) (report_paths : list path) :
  (∀ src dst fs, fs ⊆ (copytree src dst fs).1) →
  ∀ fs, fs ⊆ (collect_reports parse_file_entities BeautifulSoup format_subject
                copytree o mode group_dir report_paths fs).1.
Proof.
  intros Hcopy. induction report_paths as [|rp rps IH]; intros fs; simpl; [done|].
  case_bool_decide; [apply IH|]. unfold bind, ret.
  destruct (parse_report_pure rp fs) as [[df|e] ->]; [|done].
  pose proof (link_figures_extends o mode group_dir rp fs Hcopy) as Hlink.
  destruct (link_figures _ _ _ _ _ _ _ fs) as [fsb [[]|]]; [|done].
  pose proof (IH fsb) as Hrest.
  destruct (collect_reports _ _ _ _ _ _ _ rps fsb) as [fsc [dfs|]];
    simpl in *; by etrans.
Qed.

Lemma corpus_extends (o : options) (mode : image_mode) (group_dir : path) :
  (∀ src dst fs, fs ⊆ (copytree src dst fs).1) →
  ∀ fs, fs ⊆ (corpus parse_file_entities BeautifulSoup format_subject copytree
                o mode group_dir fs).1.
Proof.
  intros Hcopy fs. unfold corpus, bind, glob_subject_reports, lift.
  destruct (resolve fs (fmriprep_output_path o)) as [base|].
  - match goal with
    | |- context [collect_reports _ _ _ _ _ _ _ ?rps fs] =>
        pose proof (collect_reports_extends o mode group_dir rps Hcopy fs) as Hext;
        destruct (collect_reports parse_file_entities BeautifulSoup
                    format_subject copytree o mode group_dir rps fs)
          as [fsc [dfs|e]]
    end; [by destruct (concat_frames dfs) | done].
  - simpl. done.
Qed.

(** C10. [make_report] writes the description of the group directory
    before it looks at any subject: when the loop over the reports then
    stops because a figures entry exists, [make_report] stops with that
    error and the tree it leaves holds the new description where
    [group/dataset_description.json] was opened, whatever an earlier run
    had left there. The description is the object with the name, the
    BIDS version read from the output directory ('unknown' when that
    fails), the dataset type and, under [GeneratedBy], the parameters of
    this run: the output path, the page size, the figures template and
    the three lists of report types, each holding the names given,
    once. *)
Theorem description_written_before_figures_check (o : options)
    (mode : image_mode) (group_dir : path) (fs fs1 fs' : files) (p : path) :
  (∀ src dst fs, fs ⊆ (copytree src dst fs).1) →
  check_image_changes o = Ok mode →
  prepare_group_dir json_dumps loads_BIDSVersion o mode fs = (fs1, Ok group_dir) →
  corpus parse_file_entities BeautifulSoup format_subject copytree
    o mode group_dir fs1
  = (fs', Raise (ValueError (MsgWouldBeOverwritten p))) →
  make_report parse_file_entities BeautifulSoup json_dumps loads_BIDSVersion
       format_subject copytree _generate_html_head nav reviewer_initials
       html_foot _flip_images _drop_image o fs
  = (fs', Raise (ValueError (MsgWouldBeOverwritten p)))
  ∧ ∃ fs0 q bids_version flips backgrounds foregrounds,
      group_dir = joinpath (fmriprep_output_path o) ["group"%string]
      ∧ mkdir_exist_ok group_dir fs = (fs0, Ok tt)
      ∧ open_location symloop_max fs0
          (joinpath group_dir ["dataset_description.json"%string]) = Ok q
      ∧ ((∃ text,
            read_text (joinpath (fmriprep_output_path o)
                                ["dataset_description.json"%string]) fs0
            = (fs0, Ok text)
            ∧ loads_BIDSVersion text = Some bids_version)
         ∨ bids_version = JVal (VStr "unknown"))
      ∧ (NoDup flips ∧ ∀ x, x ∈ flips ↔ x ∈ flip_images o)
      ∧ (NoDup backgrounds ∧ ∀ x, x ∈ backgrounds ↔ x ∈ drop_background o)
      ∧ (NoDup foregrounds ∧ ∀ x, x ∈ foregrounds ↔ x ∈ drop_foreground o)
      ∧ fs' !! q
        = Some (File (json_dumps (Some 2) (JDict [
            ("Name"%string, JVal (VStr "fMRIPrep-Group-Report output"));
            ("BIDSVersion"%string, bids_version);
            ("DatasetType"%string, JVal (VStr "derivative"));
            ("GeneratedBy"%string, JList [
               JDict [
                 ("Name"%string, JVal (VStr "fMRIPrep-Group-Report"));
                 ("CodeURL"%string,
                    JVal (VStr "https://github.com/nimh-comppsych/fmriprep-group-report"));
                 ("Parameters"%string, JDict [
                    ("fmriprep_output_path"%string,
                       JVal (VStr (as_posix (fmriprep_output_path o))));
                    ("reports_per_page"%string,
                       JVal (match reports_per_page o with
                             | Some n => VInt n
                             | None => VNone
                             end));
                    ("path_to_figures"%string,
                       JVal (match path_to_figures o with
                             | Some template => VStr template
                             | None => VNone
                             end));
                    ("flip_images"%string,
                       JList (map (λ x, JVal (VStr x)) flips));
                    ("drop_background"%string,
                       JList (map (λ x, JVal (VStr x)) backgrounds));
                    ("drop_foreground"%string,
                       JList (map (λ x, JVal (VStr x)) foregrounds))
                  ])
               ]
             ])
          ]))).
Proof.
  intros Hcopy Hcheck Hprep Hcorpus. split.
  - unfold make_report, bind, lift. by rewrite Hcheck, Hprep, Hcorpus.
  - assert (fs1 ⊆ fs') as Hsub.
    { pose proof (corpus_extends o mode group_dir Hcopy fs1) as H.
      by rewrite Hcorpus in H. }
    clear Hcorpus.
    unfold prepare_group_dir, bind, query, write_text, ret in Hprep.
    destruct (mkdir_exist_ok _ fs) as [fs0 [[]|]] eqn:Hmk; [|done].
    destruct (open_location symloop_max fs0 _) as [q|] eqn:Hopen; [|done].
    injection Hprep as <- <-.
    exists fs0, q, (bids_version_of loads_BIDSVersion o fs0),
      (flip_list mode), (background_list mode), (foreground_list mode).
    split; [done|]. split; [done|]. split; [done|]. split.
    { unfold bids_version_of.
      destruct (read_text _ fs0) as [fsr [text|e]] eqn:Hread; [|by right].
      destruct (loads_BIDSVersion text) as [v|] eqn:Hloads; [|by right].
      left. exists text. split; [|done].
      unfold read_text in *. destruct (resolve fs0 _) as [qr|]; [|done].
      destruct (entry_at fs0 qr) as [[]|]; congruence. }
    destruct (check_image_changes_lists o mode Hcheck) as (Hf & Hb & Hg).
    split; [done|]. split; [done|]. split; [done|].
    eapply lookup_weaken; [apply lookup_insert_eq | exact Hsub].
Qed.

End GroupTree.

(** ** The instance at work *)

Lemma toy_copytree_extends (src dst : path) (fs : files) :
  fs ⊆ (Toy.copytree src dst fs).1.
Proof.
  unfold Toy.copytree.
  destruct (resolve fs src) as [s|]; [|done].
  destruct (locate fs dst) as [d|]; [|done].
  destruct (entry_at fs s) as [[]|]; try done.
  destruct (entry_at fs d); [done|].
  simpl. apply map_union_subseteq_l.
Qed.

(** A run that is known by its two components. *)
Lemma run_is {A} (x : files * res A) (fs : files) (r : res A) :
  x.1 = fs → x.2 = r → x = (fs, r).
Proof. destruct x. simpl. by intros -> ->. Qed.

(** C1, the claim as it is worded fails on the output [Toy.study]: the
    report of its subject has a figure without description, without the
    suffix 'dseg' and without space; its row is in the table of all
    report elements with a null report type; [make_report] ends without
    an error; and the row is in none of the groups that are rendered. *)
Lemma null_report_type_dropped_silently :
  ∃ reports row groups,
    check_image_changes Toy.defaults = Ok Toy.no_changes
    ∧ (Toy.prepare_group_dir Toy.defaults Toy.no_changes Toy.study).2
      = Ok Toy.group_dir
    ∧ (Toy.corpus Toy.defaults Toy.no_changes Toy.group_dir Toy.prepared).2
      = Ok reports
    ∧ records reports !! 1 = Some row
    ∧ cell "filename" row = VStr "sub-01_task-rest_bold.svg"
    ∧ isnull (cell "report_type" row) = true
    ∧ groupby "report_type" reports = Ok groups
    ∧ map fst groups = [VStr "reconall"]
    ∧ (∀ kg, kg ∈ groups → row ∉ records kg.2)
    ∧ (Toy.make_report Toy.defaults Toy.study).2 = Ok tt.
Proof.
  do 3 eexists.
  split; [reflexivity|]. split; [vm_compute; reflexivity|].
  split; [vm_compute; reflexivity|]. split; [reflexivity|].
  split; [reflexivity|]. split; [reflexivity|].
  split; [vm_compute; reflexivity|]. split; [reflexivity|].
  split; [|vm_compute; reflexivity].
  intros kg Hkg. apply list_elem_of_singleton in Hkg as ->. simpl.
  intros Hrow. apply list_elem_of_singleton in Hrow. discriminate Hrow.
Qed.

(** C2, on the output [Toy.study_without_figures]: no figures template
    is given, the figures directory of the subject does not exist, and
    [make_report] ends without an error, having made the entry of the
    subject in the group tree, a symbolic link that leads nowhere. The
    [FileNotFoundError] of line 300 is built and not raised. *)
Theorem missing_figures_dir_not_raised :
  path_to_figures Toy.defaults = None
  ∧ path_exists Toy.study_without_figures
      ["/"; "data"; "sub-01"; "figures"]%string = false
  ∧ (Toy.make_report Toy.defaults Toy.study_without_figures).2 = Ok tt
  ∧ (Toy.make_report Toy.defaults Toy.study_without_figures).1
      !! ["data"; "group"; "sub-01"; "figures"]%string
    = Some (Symlink [".."; ".."; "sub-01"; "figures"]%string)
  ∧ path_exists (Toy.make_report Toy.defaults Toy.study_without_figures).1
      Toy.subj_group_fig_dir = false.
Proof.
  split; [reflexivity|]. split; [vm_compute; reflexivity|].
  split; [vm_compute; reflexivity|]. split; vm_compute; reflexivity.
Qed.

(** C3, the claim as it is worded fails on the output [Toy.study]: the
    run ends without an error, the report type 'reconall' has one page,
    chunk 0, its document is in the group directory, and no file
    [consolidated_reconall_000.tsv] is. *)
Lemma no_tsv_file_on_disk :
  ∃ reports rtdf paged chunks,
    (Toy.corpus Toy.defaults Toy.no_changes Toy.group_dir Toy.prepared).2
    = Ok reports
    ∧ groupby "report_type" reports = Ok [(VStr "reconall", rtdf)]
    ∧ with_chunk (reports_per_page Toy.defaults) (with_idx rtdf) = Ok paged
    ∧ groupby "chunk" paged = Ok chunks
    ∧ map fst chunks = [VInt 0]
    ∧ (Toy.make_report Toy.defaults Toy.study).2 = Ok tt
    ∧ is_Some ((Toy.make_report Toy.defaults Toy.study).1
                 !! ["data"; "group"; "consolidated_reconall_000.html"]%string)
    ∧ (Toy.make_report Toy.defaults Toy.study).1
        !! ["data"; "group"; "consolidated_reconall_000.tsv"]%string = None
    ∧ path_exists (Toy.make_report Toy.defaults Toy.study).1
        ["/"; "data"; "group"; "consolidated_reconall_000.tsv"]%string = false.
Proof.
  do 4 eexists.
  split; [vm_compute; reflexivity|]. split; [vm_compute; reflexivity|].
  split; [vm_compute; reflexivity|]. split; [vm_compute; reflexivity|].
  split; [reflexivity|]. split; [vm_compute; reflexivity|].
  split; [eexists; vm_compute; reflexivity|].
  split; vm_compute; reflexivity.
Qed.

(** The description that an earlier run left is replaced although the
    run stops at the figures entry of the subject, which stays as it
    was. *)
Lemma earlier_description_replaced :
  ∃ new,
    Toy.study_with_group !! ["data"; "group"; "dataset_description.json"]%string
    = Some (File "description of the earlier run")
    ∧ (Toy.make_report Toy.defaults Toy.study_with_group).2
      = Raise (ValueError (MsgWouldBeOverwritten Toy.subj_group_fig_dir))
    ∧ (Toy.make_report Toy.defaults Toy.study_with_group).1
        !! ["data"; "group"; "dataset_description.json"]%string
      = Some (File new)
    ∧ new ≠ "description of the earlier run"%string
    ∧ (Toy.make_report Toy.defaults Toy.study_with_group).1
        !! ["data"; "group"; "sub-01"; "figures"]%string
      = Toy.study_with_group !! ["data"; "group"; "sub-01"; "figures"]%string.
Proof.
  eexists. split; [vm_compute; reflexivity|].
  split; [vm_compute; reflexivity|]. split; [vm_compute; reflexivity|].
  split; [discriminate|]. vm_compute; reflexivity.
Qed.

(** C5, the claim as it is worded fails on the row [Toy.row]: the three
    fields rater, note and report of its state are [np.nan], which is not
    the null [None]; [json.dumps] writes the one as NaN and the other as
    null, and the text that the snippet embeds ends with a NaN. The same
    holds of an entity the row has no value for. *)
Lemma synthetic_fields_are_nan_not_null :
  json_get "rater" (json_of_dict (id_ents Toy.row)) = Some (JVal VNaN)
  ∧ json_get "note" (json_of_dict (id_ents Toy.row)) = Some (JVal VNaN)
  ∧ json_get "report" (json_of_dict (id_ents Toy.row)) = Some (JVal VNaN)
  ∧ json_get "task" (json_of_dict (id_ents Toy.row)) = Some (JVal VNaN)
  ∧ JVal VNaN ≠ JVal VNone
  ∧ Toy.json_dumps None (JVal VNaN) = "NaN"%string
  ∧ Toy.json_dumps None (JVal VNone) = "null"%string
  ∧ endswith (dq +:+ "note" +:+ dq +:+ ": NaN}")
             (Toy.json_dumps None (json_of_dict (id_ents Toy.row))) = true
  ∧ ∃ snippet lines,
      _make_report_snippet Toy.json_dumps Toy.row = Ok snippet
      ∧ snippet = String.concat nl lines
      ∧ lines !! 3
        = Some ("        var subj_qc = "
                +:+ Toy.json_dumps None (json_of_dict (id_ents Toy.row))).
Proof.
  split; [reflexivity|]. split; [reflexivity|]. split; [reflexivity|].
  split; [reflexivity|]. split; [discriminate|]. split; [reflexivity|].
  split; [reflexivity|]. split; [vm_compute; reflexivity|].
  unfold _make_report_snippet, res_bind. simpl getitem. cbv iota beta.
  eexists. eexists. split; [reflexivity|]. split; reflexivity.
Qed.

(** C6, the claim as it is worded fails outside the sizes from 1 to
    2^63 - 1. With a page size of -1 the five rows of [Toy.five_rows] get
    the chunks 0, -1, -2, -3 and -4, the pages come by increasing chunk,
    and their rows one after the other are the rows in reverse order.
    With a page size of 2^63 the chunk of every row is the float 0.0,
    which [{chunk:03d}] refuses. *)
Lemma page_size_outside_range :
  (∃ paged chunks,
     with_chunk (Some (-1)%Z) (with_idx Toy.five_rows) = Ok paged
     ∧ map (cell "chunk") (records paged)
       = [VInt 0; VInt (-1); VInt (-2); VInt (-3); VInt (-4)]
     ∧ groupby "chunk" paged = Ok chunks
     ∧ map fst chunks = [VInt (-4); VInt (-3); VInt (-2); VInt (-1); VInt 0]
     ∧ map (cell "subject") (records Toy.five_rows)
       = [VStr "01"; VStr "02"; VStr "03"; VStr "04"; VStr "05"]
     ∧ flat_map (λ c : value * DataFrame,
                   map (cell "subject") (records (rebase_idx c.2))) chunks
       = [VStr "05"; VStr "04"; VStr "03"; VStr "02"; VStr "01"])
  ∧ (∃ paged chunks,
       with_chunk (Some 9223372036854775808%Z) (with_idx Toy.five_rows)
       = Ok paged
       ∧ Forall (λ r, cell "chunk" r = VFloat 0) (records paged)
       ∧ groupby "chunk" paged = Ok chunks
       ∧ map fst chunks = [VFloat 0]
       ∧ format_03d (VFloat 0) = Raise (ValueError MsgUnknownFormatCode)).
Proof.
  split.
  - do 2 eexists. split; [reflexivity|]. split; [reflexivity|].
    split; [vm_compute; reflexivity|]. split; [reflexivity|].
    split; reflexivity.
  - do 2 eexists. split; [reflexivity|]. split; [repeat constructor|].
    split; [vm_compute; reflexivity|]. split; reflexivity.
Qed.

(** ** Instances of the theorems *)

Lemma glob_subject_reports_state (root : path) (fs : files) :
  (glob_subject_reports root fs).1 = fs.
Proof. unfold glob_subject_reports. by destruct (resolve fs root). Qed.

Lemma parse_report_state (pfe : string → dict) (soup : string → node)
    (report_path : path) (fs : files) :
  (parse_report pfe soup report_path fs).1 = fs.
Proof. by destruct (parse_report_pure pfe soup report_path fs) as [r ->]. Qed.

Lemma id_ents_round_trip_witness :
  (∀ k, k ∈ synthetic_fields → dict_get k Toy.row = None)
  ∧ json_get "subject" (json_of_dict (id_ents Toy.row)) = Some (JVal (VStr "01"))
  ∧ json_get "task" (json_of_dict (id_ents Toy.row)) = Some (JVal VNaN)
  ∧ json_get "report" (json_of_dict (id_ents Toy.row)) = Some (JVal VNaN)
  ∧ json_get "run_title" (json_of_dict (id_ents Toy.row)) = None.
Proof.
  assert (∀ k, k ∈ synthetic_fields → dict_get k Toy.row = None) as Hfresh.
  { intros k Hk. unfold synthetic_fields in Hk.
    repeat (apply elem_of_cons in Hk as [->|Hk]; [reflexivity|]).
    by apply elem_of_nil in Hk. }
  split; [exact Hfresh|].
  destruct (id_ents_round_trip Toy.row Hfresh) as (Hkeep & _ & _ & _ & Hreport & _).
  split; [|split; [|split; [exact Hreport | reflexivity]]].
  - apply Hkeep; [reflexivity|]. unfold id_blacklist. set_solver.
  - apply Hkeep; [reflexivity|]. unfold id_blacklist. set_solver.
Defined.

Lemma pagination_by_chunks_witness :
  ∃ paged chunks,
    with_chunk (Some 2%Z) (with_idx Toy.five_rows) = Ok paged
    ∧ groupby "chunk" paged = Ok chunks
    ∧ flat_map (λ c : value * DataFrame, map payload (records (rebase_idx c.2)))
               chunks
      = map payload (records Toy.five_rows).
Proof.
  destruct (pagination_by_chunks (Some 2%Z) Toy.five_rows)
    as (paged & chunks & zs & H1 & H2 & _ & _ & _ & H6 & _).
  { intros n [= <-]. lia. }
  exists paged, chunks. split; [exact H1|]. split; [exact H2 | exact H6].
Defined.

Lemma run_title_inheritance_witness :
  ∃ df row,
    parse_soup Toy.parse_file_entities Toy.report_01 = Ok df
    ∧ records df !! 1 = Some row
    ∧ dict_get "run_title" row = Some (VStr "Anatomical").
Proof.
  assert (∃ df, parse_soup Toy.parse_file_entities Toy.report_01 = Ok df)
    as [df E] by (eexists; vm_compute; reflexivity).
  destruct (run_title_inheritance _ _ _ E) as [_ H].
  destruct (H 1 _ eq_refl) as (row & Hrow & Hrt & _).
  exists df, row. split; [exact E|]. split; [exact Hrow|].
  rewrite Hrt. reflexivity.
Defined.

Lemma mutation_sets_checked_first_witness :
  overlapping Toy.flip_and_drop
  ∧ ∃ I a b,
      Toy.make_report Toy.flip_and_drop Toy.study
      = (Toy.study, Raise (ValueError (MsgSingleWay I a b))).
Proof.
  assert (overlapping Toy.flip_and_drop) as Hov.
  { exists "A"%string. right. left. split; apply list_elem_of_singleton; reflexivity. }
  split; [exact Hov|].
  destruct (mutation_sets_checked_first
              Toy.parse_file_entities Toy.BeautifulSoup Toy.json_dumps
              Toy.loads_BIDSVersion Toy.format_subject Toy.copytree
              Toy._generate_html_head Toy.nav Toy.reviewer_initials
              Toy.html_foot Toy._flip_images Toy._drop_image
              Toy.flip_and_drop Toy.study) as [H _].
  destruct (H Hov) as (I & a & b & Hrun & _). exists I, a, b. exact Hrun.
Defined.

Lemma existing_figures_entry_aborts_witness :
  entry_taken Toy.prepared_again Toy.subj_group_fig_dir = true
  ∧ ∃ e, Toy.make_report Toy.defaults Toy.study_with_group
         = (Toy.prepared_again, Raise e).
Proof.
  split; [vm_compute; reflexivity|].
  destruct (existing_figures_entry_aborts
              Toy.parse_file_entities Toy.BeautifulSoup Toy.json_dumps
              Toy.loads_BIDSVersion Toy.format_subject Toy.copytree
              Toy._generate_html_head Toy.nav Toy.reviewer_initials
              Toy.html_foot Toy._flip_images Toy._drop_image
              Toy.defaults Toy.no_changes Toy.group_dir Toy.report_path
              (VStr "01") Toy.prepared_again) as (_ & _ & H).
  - vm_compute; reflexivity.
  - vm_compute; reflexivity.
  - eapply (H Toy.study_with_group Toy.prepared_again [] [] []).
    + reflexivity.
    + apply run_is; [reflexivity | vm_compute; reflexivity].
    + apply run_is; [apply glob_subject_reports_state | vm_compute; reflexivity].
    + reflexivity.
    + unfold Toy.report_path. set_solver.
    + apply run_is; [apply parse_report_state | vm_compute; reflexivity].
Defined.

Lemma description_written_before_figures_check_witness :
  Toy.study_with_group !! ["data"; "group"; "dataset_description.json"]%string
  = Some (File "description of the earlier run")
  ∧ Toy.make_report Toy.defaults Toy.study_with_group
    = ((Toy.corpus Toy.defaults Toy.no_changes Toy.group_dir Toy.prepared_again).1,
       Raise (ValueError (MsgWouldBeOverwritten Toy.subj_group_fig_dir)))
  ∧ (Toy.corpus Toy.defaults Toy.no_changes Toy.group_dir Toy.prepared_again).1
      !! ["data"; "group"; "dataset_description.json"]%string
    = Some (File (Toy.json_dumps (Some 2) (JDict [
        ("Name"%string, JVal (VStr "fMRIPrep-Group-Report output"));
        ("BIDSVersion"%string, JVal (VStr "unknown"));
        ("DatasetType"%string, JVal (VStr "derivative"));
        ("GeneratedBy"%string, JList [
           JDict [
             ("Name"%string, JVal (VStr "fMRIPrep-Group-Report"));
             ("CodeURL"%string,
                JVal (VStr "https://github.com/nimh-comppsych/fmriprep-group-report"));
             ("Parameters"%string, JDict [
                ("fmriprep_output_path"%string, JVal (VStr "/data"));
                ("reports_per_page"%string, JVal (VInt 50));
                ("path_to_figures"%string, JVal VNone);
                ("flip_images"%string, JList []);
                ("drop_background"%string, JList []);
                ("drop_foreground"%string, JList [])
              ])
           ]
         ])
      ]))).
Proof.
  split; [vm_compute; reflexivity|].
  destruct (description_written_before_figures_check
              Toy.parse_file_entities Toy.BeautifulSoup Toy.json_dumps
              Toy.loads_BIDSVersion Toy.format_subject Toy.copytree
              Toy._generate_html_head Toy.nav Toy.reviewer_initials
              Toy.html_foot Toy._flip_images Toy._drop_image
              Toy.defaults Toy.no_changes Toy.group_dir Toy.study_with_group
              Toy.prepared_again
              (Toy.corpus Toy.defaults Toy.no_changes Toy.group_dir
                 Toy.prepared_again).1
              Toy.subj_group_fig_dir)
    as (Hrun & fs0 & q & bids & flips & bgs & fgs & _ & Hmk & Hopen & Hbids
        & [_ Hf] & [_ Hb] & [_ Hg] & Hq).
  - exact toy_copytree_extends.
  - reflexivity.
  - apply run_is; [reflexivity | vm_compute; reflexivity].
  - apply run_is; [reflexivity | vm_compute; reflexivity].
  - split; [exact Hrun|].
    assert (bids = JVal (VStr "unknown")) as ->.
    { destruct Hbids as [(text & _ & Hloads)|Hunknown];
        [discriminate Hloads | exact Hunknown]. }
    assert (∀ l : list string, (∀ x, x ∈ l ↔ x ∈ @nil string) → l = []) as Hnil.
    { intros [|x l] H; [reflexivity|].
      exfalso. eapply not_elem_of_nil, H. left. }
    rewrite (Hnil flips Hf), (Hnil bgs Hb), (Hnil fgs Hg) in Hq.
    assert (q = ["data"; "group"; "dataset_description.json"]%string) as ->.
    { apply (f_equal fst) in Hmk. simpl in Hmk. subst fs0.
      vm_compute in Hopen. by injection Hopen as <-. }
    exact Hq.
Defined.


(** * Further properties *)

(** ** The figures of a document *)






(** ** Rows and figures *)

Lemma figure_row_spec (pfe : string → dict) (prev : value) (l : located)
    (row : dict) (prev' : value) :
  figure_row pfe prev l = Ok (row, prev') →
  ∃ p f,
    figure_path l = Some p ∧ last (Path p) = Some f
    ∧ dict_get "path" row = Some (VStr p)
    ∧ dict_get "filename" row = Some (VStr f)
    ∧ (∀ c, c ∉ extraction_keys → dict_get c row = dict_get c (pfe p))
    ∧ (∀ t, own_caption l = Some t →
            dict_get "elem_caption" row = Some (VStr t))
    ∧ (own_caption l = None → Forall class_is_list (fd_previous_siblings l) →
       dict_get "elem_caption" row = dict_get "elem_caption" (pfe p)).
Proof.
  unfold figure_row, figure_path, own_caption, extraction_keys.
  destruct (fig_path_of (fd l)) as [[p|]|]; try done.
  destruct (last (Path p)) as [f|] eqn:Hlast; [|done].
  intros H. exists p, f. split; [done|]. split; [done|]. revert H.
  set (titles := _unique_retrieval
                   (findAll (Some "h3"%string) "run-title" (fd_parent l)) _ _).
  assert (∀ (X : value) (base : dict),
            base = dict_set "run_title" X
                     (dict_set "filename" (VStr f)
                        (dict_set "path" (VStr p) (pfe p))) →
            dict_get "path" base = Some (VStr p)
            ∧ dict_get "filename" base = Some (VStr f)
            ∧ (∀ c, c ∉ ["path"; "filename"; "run_title"; "elem_caption";
                          "report_type"]%string →
                    dict_get c base = dict_get c (pfe p))
            ∧ dict_get "elem_caption" base = dict_get "elem_caption" (pfe p))
    as Hbase.
  { intros X base ->. split; [|split; [|split]].
    - rewrite !dict_get_set_ne by done. apply dict_get_set_eq.
    - rewrite dict_get_set_ne by done. apply dict_get_set_eq.
    - intros c Hc. by rewrite !dict_get_set_ne by set_solver.
    - by rewrite !dict_get_set_ne by done. }
  assert (match
            match findAll (Some "p"%string) "elem-caption" (fd_parent l) with
            | [c] => Some (text c)
            | _ => None
            end
          with
          | Some t =>
              _unique_retrieval
                (findAll (Some "p"%string) "elem-caption" (fd_parent l))
                ("Parent div of " +:+ p) "elem-caption" = Ok t
          | None =>
              ∃ m, _unique_retrieval
                     (findAll (Some "p"%string) "elem-caption" (fd_parent l))
                     ("Parent div of " +:+ p) "elem-caption"
                   = Raise (ValueError m)
          end) as Hc.
  { destruct (findAll (Some "p"%string) "elem-caption" (fd_parent l))
      as [|c [|c' cs]]; simpl; eauto. }
  destruct (match findAll (Some "p"%string) "elem-caption" (fd_parent l) with
            | [c] => Some (text c)
            | _ => None
            end) as [t|].
  - rewrite Hc.
    destruct titles as [t'|[]]; try done; intros [= <- <-];
      match goal with
      | |- context [dict_set "elem_caption" _ (dict_set "run_title" ?X _)] =>
          destruct (Hbase X _ eq_refl) as (H1 & H2 & H3 & H4)
      end;
      (split; [by rewrite dict_get_set_ne by done|]);
      (split; [by rewrite dict_get_set_ne by done|]);
      (split; [intros c Hc'; rewrite dict_get_set_ne by set_solver; by apply H3|]);
      (split; [intros ? [= <-]; apply dict_get_set_eq | done]).
  - destruct Hc as [m ->].
    destruct titles as [t'|[]]; try done; intros [= <- <-];
      match goal with
      | |- context [scan_previous_siblings _ (dict_set "run_title" ?X _)] =>
          destruct (Hbase X _ eq_refl) as (H1 & H2 & H3 & H4)
      end;
      (split; [by rewrite scan_previous_siblings_get by done|]);
      (split; [by rewrite scan_previous_siblings_get by done|]);
      (split; [intros c Hc'; rewrite scan_previous_siblings_get by set_solver;
               by apply H3|]);
      (split; [done|]);
      intros _ Hparsed; by rewrite scan_previous_siblings_parsed by done.
Qed.

Lemma figure_rows_each (pfe : string → dict) (fds : list located) :
  ∀ prev rows,
    figure_rows pfe prev fds = Ok rows →
    Forall2 (λ l row, ∃ prev0 prev1, figure_row pfe prev0 l = Ok (row, prev1))
            fds rows.
Proof.
  induction fds as [|l fds IH]; intros prev rows; simpl.
  - intros [= <-]. constructor.
  - destruct (figure_row pfe prev l) as [[row prev']|] eqn:Hrow; [|done].
    destruct (figure_rows pfe prev' fds) as [rows'|] eqn:Hrows; [|done].
    intros [= <-]. constructor; [eauto | by eapply IH].
Qed.

Lemma cell_classified (c : string) (rows : list dict) (r : dict) :
  r ∈ rows → c ≠ "report_type"%string →
  cell c (classified rows r) = astype (map (cell c) rows) (cell c r).
Proof.
  intros Hr Hc. unfold classified. rewrite cell_set_ne by done.
  unfold cell at 1. rewrite dict_get_reindex. case_bool_decide as Hin; [done|].
  simpl. assert (Forall (λ r, cell c r = VNaN) rows) as Hall.
  { apply Forall_forall. intros r' Hr'. unfold cell.
    destruct (dict_get c r') as [v|] eqn:E; [|done].
    destruct Hin. eapply elem_of_union_keys; [done|]. by eapply dict_get_Some_keys. }
  rewrite (proj1 (Forall_forall _ _) Hall r Hr).
  unfold astype. destruct (float_column _); done.
Qed.

Lemma parse_soup_row (pfe : string → dict) (soup : node) (df : DataFrame)
    (k : nat) (l : located) :
  parse_soup pfe soup = Ok df →
  file_divs soup !! k = Some l →
  ∃ rows row r prev0 prev1,
    figure_rows pfe VNaN (file_divs soup) = Ok rows
    ∧ records df !! k = Some row
    ∧ figure_row pfe prev0 l = Ok (r, prev1)
    ∧ ∀ c, c ≠ "report_type"%string →
        cell c row = astype (map (cell c) rows) (cell c r).
Proof.
  intros Hparse Hl.
  apply parse_soup_records in Hparse as (rows & Hrows & _ & Hrec).
  pose proof (figure_rows_each _ _ _ _ Hrows) as Heach.
  destruct (Forall2_lookup_l _ _ _ _ _ Heach Hl) as (r & Hr & prev0 & prev1 & Hrow).
  exists rows, (classified rows r), r, prev0, prev1.
  split; [done|].
  split; [by rewrite Hrec, map_fmap, list_lookup_fmap, Hr|]. split; [done|].
  intros c Hc. apply cell_classified; [|done]. by eapply list_elem_of_lookup_2.
Qed.

Lemma figure_rows_entity_column (pfe : string → dict) (c : string)
    (fds : list located) (rows : list dict) :
  c ∉ extraction_keys →
  Forall2 (λ l row, ∃ prev0 prev1, figure_row pfe prev0 l = Ok (row, prev1))
          fds rows →
  map (cell c) rows
  = map (λ l, match figure_path l with
              | Some fig_path => cell c (pfe fig_path)
              | None => VNaN
              end) fds.
Proof.
  intros Hc. induction 1 as [|l row fds rows (prev0 & prev1 & Hrow) _ IH];
    [done|].
  simpl. rewrite IH. f_equal.
  apply figure_row_spec in Hrow as (p & f & Hp & _ & _ & _ & H3 & _).
  rewrite Hp. unfold cell. by rewrite H3.
Qed.

(** X2. Row [k] of the table of a report belongs to figure [k] of the
    document: its [path] is the [src] attribute of the figure, or its
    [data] attribute when there is no [src]; its [filename] is the last
    part of that path; and every other column that [parse_report] does
    not set itself holds what the entity parser returned for the path,
    null when it returned nothing, with the type pandas gives the column:
    where the entity is an integer for some figures and missing for
    others the column is float64 and the integer [1] is held as [1.0];
    a string is held as it is. *)
Theorem rows_follow_figures (pfe : string → dict) (soup : node) (df : DataFrame) :
  parse_soup pfe soup = Ok df →
  ∀ k l, file_divs soup !! k = Some l →
    ∃ row p f,
      records df !! k = Some row
      ∧ figure_path l = Some p ∧ last (Path p) = Some f
      ∧ cell "path" row = VStr p
      ∧ cell "filename" row = VStr f
      ∧ (∀ c, c ∉ extraction_keys →
           cell c row = astype (entity_column pfe c soup) (cell c (pfe p)))
      ∧ (∀ c s, c ∉ extraction_keys → cell c (pfe p) = VStr s →
           cell c row = VStr s)
      ∧ (∀ c z, c ∉ extraction_keys → cell c (pfe p) = VInt z →
           VNaN ∈ entity_column pfe c soup →
           Forall (λ v, is_number v || isnull v = true)
                  (entity_column pfe c soup) →
           cell c row = VFloat z).
Proof.
  intros Hparse k l Hl.
  destruct (parse_soup_row _ _ _ _ _ Hparse Hl)
    as (rows & row & r & prev0 & prev1 & Hrows & Hrow & Hr & Hcell).
  apply figure_row_spec in Hr as (p & f & Hp & Hf & H1 & H2 & H3 & _).
  assert (∀ c, c ∉ extraction_keys →
            cell c row = astype (entity_column pfe c soup) (cell c (pfe p)))
    as Hent.
  { intros c Hc. rewrite Hcell by (unfold extraction_keys in Hc; set_solver).
    unfold entity_column.
    rewrite <- (figure_rows_entity_column pfe c _ rows Hc)
      by (by eapply figure_rows_each).
    unfold cell at 2 4. by rewrite H3. }
  exists row, p, f. split; [done|]. split; [done|]. split; [done|].
  split; [|split; [|split; [done|split]]].
  - rewrite Hcell by done. unfold cell at 2. rewrite H1. by apply astype_other.
  - rewrite Hcell by done. unfold cell at 2. rewrite H2. by apply astype_other.
  - intros c s Hc Hs. rewrite Hent, Hs by done. by apply astype_other.
  - intros c z Hc Hz Hnan Hall. rewrite Hent, Hz by done.
    unfold astype.
    assert (float_column (entity_column pfe c soup) = true) as ->; [|done].
    unfold float_column. rewrite !andb_true_iff. split; [split|].
    + apply forallb_forall. intros v Hv. apply list_elem_of_In in Hv.
      by apply (proj1 (Forall_forall _ _) Hall).
    + apply existsb_exists. exists (VInt z). split; [|done].
      apply list_elem_of_In. rewrite <- Hz. unfold entity_column.
      apply list_elem_of_fmap. exists l. rewrite Hp. split; [done|].
      by eapply list_elem_of_lookup_2.
    + apply negb_true_iff. apply not_true_is_false. intros Hints.
      rewrite forallb_forall in Hints.
      by specialize (Hints VNaN (proj1 (list_elem_of_In _ _) Hnan)).
Qed.

(** X4. The caption of a row is the text of the only [p] node with class
    elem-caption below the parent of its figure when there is exactly
    one. When there is none or more than one, and the earlier siblings
    of the figure come from the parser (their classes are lists), the
    row gets no caption from the document: the cell keeps what the
    entity parser returned under that name, as a float where pandas
    makes the column float64, and is null when it returned nothing. *)
Theorem caption_from_parent (pfe : string → dict) (soup : node) (df : DataFrame) :
  parse_soup pfe soup = Ok df →
  ∀ k l, file_divs soup !! k = Some l →
    ∃ row p,
      records df !! k = Some row
      ∧ figure_path l = Some p
      ∧ (∀ t, own_caption l = Some t → cell "elem_caption" row = VStr t)
      ∧ (own_caption l = None →
         Forall class_is_list (fd_previous_siblings l) →
         (cell "elem_caption" row = cell "elem_caption" (pfe p)
          ∨ cell "elem_caption" row = to_float (cell "elem_caption" (pfe p)))
         ∧ (dict_get "elem_caption" (pfe p) = None →
            cell "elem_caption" row = VNaN)).
Proof.
  intros Hparse k l Hl.
  destruct (parse_soup_row _ _ _ _ _ Hparse Hl)
    as (rows & row & r & prev0 & prev1 & Hrows & Hrow & Hr & Hcell).
  apply figure_row_spec in Hr as (p & f & Hp & _ & _ & _ & _ & H4 & H5).
  exists row, p. split; [done|]. split; [done|]. split.
  - intros t Ht. rewrite Hcell by done. unfold cell at 2. rewrite (H4 t Ht).
    by apply astype_other.
  - intros Hnone Hparsed. rewrite Hcell by done.
    assert (cell "elem_caption" r = cell "elem_caption" (pfe p)) as ->.
    { unfold cell. by rewrite (H5 Hnone Hparsed). }
    split; [apply astype_cases|].
    intros Hno. unfold cell at 2. rewrite Hno. by apply astype_other.
Qed.

Lemma figure_row_total (pfe : string → dict) (prev : value) (l : located) :
  readable l → ∃ row prev', figure_row pfe prev l = Ok (row, prev').
Proof.
  intros (p & f & Hp & Hf). unfold figure_row, figure_path in *.
  destruct (fig_path_of (fd l)) as [[p'|]|]; try done.
  injection Hp as ->. rewrite Hf.
  destruct (findAll (Some "h3"%string) "run-title" (fd_parent l))
    as [|h [|h' hs]];
    destruct (findAll (Some "p"%string) "elem-caption" (fd_parent l))
      as [|c [|c' cs]]; simpl; eauto.
Qed.

Lemma figure_row_raises (pfe : string → dict) (prev : value) (l : located)
    (e : exn) :
  figure_row pfe prev l = Raise e →
  ¬ readable l ∧ (e = TypeError ∨ e = IndexError).
Proof.
  intros H. split.
  - intros Hr. destruct (figure_row_total pfe prev l Hr) as (row & prev' & H').
    congruence.
  - revert H. unfold figure_row.
    destruct (fig_path_of (fd l)) as [[p|]|];
      try (intros [= <-]; by left).
    destruct (last (Path p)) as [f|]; [|intros [= <-]; by right].
    destruct (findAll (Some "h3"%string) "run-title" (fd_parent l))
      as [|h [|h' hs]];
      destruct (findAll (Some "p"%string) "elem-caption" (fd_parent l))
        as [|c [|c' cs]]; simpl; done.
Qed.

(** X3. The loop of [parse_report] gets through the figures of a
    document exactly when each of them has a path attribute ([src] or
    [data], a string) with a last part. It stops only with the
    [TypeError] of a figure without path or the [IndexError] of an empty
    path: a missing or repeated run title or caption never stops it. *)
Theorem extraction_succeeds_iff (pfe : string → dict) (fds : list located) :
  ∀ prev,
    ((∃ rows, figure_rows pfe prev fds = Ok rows) ↔ Forall readable fds)
    ∧ ∀ e, figure_rows pfe prev fds = Raise e → e = TypeError ∨ e = IndexError.
Proof.
  induction fds as [|l fds IH]; intros prev; simpl.
  - split; [|done]. split; [constructor | eauto].
  - destruct (figure_row pfe prev l) as [[row prev']|e0] eqn:Hrow.
    + destruct (IH prev') as [Hiff Herr].
      assert (readable l) as Hl.
      { apply figure_row_spec in Hrow as (p & f & Hp & Hf & _). by exists p, f. }
      destruct (figure_rows pfe prev' fds) as [rows|e1]; split.
      * split; [|eauto]. intros _. constructor; [done|]. apply Hiff. eauto.
      * done.
      * split; [by intros [rows [=]]|]. intros Hall.
        apply Forall_cons in Hall as [_ Hall]. apply Hiff in Hall as [rows [=]].
      * intros e [= <-]. by apply Herr.
    + apply figure_row_raises in Hrow as [Hno He]. split.
      * split; [by intros [rows [=]]|]. intros Hall.
        apply Forall_cons in Hall as [Hl _]. done.
      * by intros e [= <-].
Qed.

Lemma classify_outcome (df : DataFrame) :
  match classify df with
  | Ok _ => ("desc"%string ∈ columns df) ∧ ("suffix"%string ∈ columns df)
  | Raise e =>
      (("desc"%string ∉ columns df) ∧ e = AttributeError "desc")
      ∨ (("desc"%string ∈ columns df) ∧ ("suffix"%string ∉ columns df)
         ∧ e = AttributeError "suffix")
  end.
Proof.
  unfold classify, res_bind, getattr, setitem, loc_setitem.
  destruct df as [cols R]. simpl.
  pose proof (elem_of_add_key cols "report_type") as Hadd.
  repeat (case_bool_decide; simpl); rewrite ?Hadd in *; naive_solver.
Qed.

(** X5. [parse_report] needs a [desc] and a [suffix] column: when no
    figure of the document has a description entity, in particular when
    the document has no figure at all, the attribute access of line 69
    raises [AttributeError] for [desc]; when some figure has one and none
    has a suffix, line 70 raises it for [suffix]; otherwise the table is
    returned. *)
Theorem parse_report_needs_desc_and_suffix (pfe : string → dict) (soup : node)
    (rows : list dict) :
  figure_rows pfe VNaN (file_divs soup) = Ok rows →
  ((∀ r, r ∈ rows → dict_get "desc" r = None) →
   parse_soup pfe soup = Raise (AttributeError "desc"))
  ∧ ((∃ r, r ∈ rows ∧ is_Some (dict_get "desc" r)) →
     (∀ r, r ∈ rows → dict_get "suffix" r = None) →
     parse_soup pfe soup = Raise (AttributeError "suffix"))
  ∧ ((∃ r, r ∈ rows ∧ is_Some (dict_get "desc" r)) →
     (∃ r, r ∈ rows ∧ is_Some (dict_get "suffix" r)) →
     ∃ df, parse_soup pfe soup = Ok df)
  ∧ (file_divs soup = [] →
     parse_soup pfe soup = Raise (AttributeError "desc")).
Proof.
  intros Hrows.
  assert (∀ c, c ∈ union_keys rows ↔ ∃ r, r ∈ rows ∧ is_Some (dict_get c r))
    as Hcols.
  { intros c. unfold union_keys. rewrite elem_of_union_keys_acc. split.
    - intros [H|(r & Hr & Hc)]; [by apply elem_of_nil in H|].
      exists r. split; [done|].
      destruct (dict_get c r) eqn:E; [eauto|].
      by apply dict_get_None_keys in E.
    - intros (r & Hr & [v Hv]). right. exists r. split; [done|].
      by eapply dict_get_Some_keys. }
  assert (∀ c, (∀ r, r ∈ rows → dict_get c r = None) → c ∉ union_keys rows)
    as Hnone.
  { intros c Hall Hin. apply Hcols in Hin as (r & Hr & [v Hv]).
    rewrite (Hall r Hr) in Hv. done. }
  unfold parse_soup, res_bind. rewrite Hrows.
  pose proof (classify_outcome (DataFrame_of_records rows)) as Hout.
  simpl in Hout.
  destruct (classify (DataFrame_of_records rows)) as [df|e];
    (split; [|split; [|split]]).
  - intros Hall. destruct Hout as [Hd _]. by apply Hnone in Hall.
  - intros _ Hall. destruct Hout as [_ Hs]. by apply Hnone in Hall.
  - eauto.
  - intros Hempty. rewrite Hempty in Hrows. injection Hrows as <-.
    destruct Hout as [Hd _]. by apply elem_of_nil in Hd.
  - intros Hall. destruct Hout as [[_ ->]|(Hd & _)]; [done|].
    by apply Hnone in Hall.
  - intros Hd Hall. destruct Hout as [[Hnd _]|(_ & _ & ->)]; [|done].
    destruct Hnd. by apply Hcols.
  - intros Hd Hs. exfalso. destruct Hout as [[Hnd _]|(_ & Hns & _)].
    + apply Hnd. by apply Hcols.
    + apply Hns. by apply Hcols.
  - intros Hempty. rewrite Hempty in Hrows. injection Hrows as <-.
    destruct Hout as [[_ ->]|(Hd & _)]; [done|]. by apply elem_of_nil in Hd.
Qed.

Lemma rows_follow_figures_witness :
  ∃ df row,
    parse_soup Toy.parse_file_entities Toy.report_runs = Ok df
    ∧ records df !! 1 = Some row
    ∧ cell "filename" row
      = VStr "sub-01_task-rest_run-1_desc-carpetplot_bold.svg"
    ∧ cell "task" row = VStr "rest"
    ∧ cell "run"
        (Toy.parse_file_entities
           "./sub-01/figures/sub-01_task-rest_run-1_desc-carpetplot_bold.svg")
      = VInt 1
    ∧ cell "run" row = VFloat 1.
Proof.
  assert (∃ df, parse_soup Toy.parse_file_entities Toy.report_runs = Ok df)
    as [df E] by (eexists; vm_compute; reflexivity).
  assert (∃ l, file_divs Toy.report_runs !! 1 = Some l) as [l Hl]
    by (eexists; vm_compute; reflexivity).
  destruct (rows_follow_figures _ _ _ E 1 l Hl)
    as (row & p & f & Hrow & Hp & Hf & _ & Hname & _ & Hstr & Hint).
  exists df, row. split; [exact E|]. split; [exact Hrow|].
  assert (p = "./sub-01/figures/sub-01_task-rest_run-1_desc-carpetplot_bold.svg"%string)
    as ->.
  { vm_compute in Hl. injection Hl as <-. vm_compute in Hp. congruence. }
  assert (∀ c, c = "task"%string ∨ c = "run"%string → c ∉ extraction_keys)
    as Hfree.
  { intros c [->| ->]; unfold extraction_keys; intros Hin;
      repeat (apply elem_of_cons in Hin as [Hin|Hin]; [discriminate|]);
      by apply elem_of_nil in Hin. }
  split; [rewrite Hname; vm_compute in Hf; congruence|].
  split; [apply Hstr; [apply Hfree; by left | reflexivity]|].
  split; [reflexivity|].
  apply Hint; [apply Hfree; by right | reflexivity | |].
  - vm_compute. left.
  - vm_compute. repeat constructor.
Defined.

Lemma caption_from_parent_witness :
  ∃ df row,
    parse_soup Toy.parse_file_entities Toy.report_01 = Ok df
    ∧ records df !! 1 = Some row
    ∧ cell "elem_caption" row = VStr "Carpet plot".
Proof.
  assert (∃ df, parse_soup Toy.parse_file_entities Toy.report_01 = Ok df)
    as [df E] by (eexists; vm_compute; reflexivity).
  assert (∃ l, file_divs Toy.report_01 !! 1 = Some l) as [l Hl]
    by (eexists; vm_compute; reflexivity).
  destruct (caption_from_parent _ _ _ E 1 l Hl)
    as (row & p & Hrow & _ & Hown & _).
  exists df, row. split; [exact E|]. split; [exact Hrow|].
  apply Hown. vm_compute in Hl. injection Hl as <-. reflexivity.
Defined.

Lemma parse_report_needs_desc_and_suffix_witness :
  parse_soup Toy.parse_file_entities
    (Toy.document [Toy.figure "./sub-01/figures/sub-01_task-rest_bold.svg"])
  = Raise (AttributeError "desc").
Proof.
  assert (∃ rows,
            figure_rows Toy.parse_file_entities VNaN
              (file_divs
                 (Toy.document
                    [Toy.figure "./sub-01/figures/sub-01_task-rest_bold.svg"]))
            = Ok rows
            ∧ Forall (λ r, dict_get "desc" r = None) rows)
    as (rows & Hrows & Hall).
  { eexists. split; [vm_compute; reflexivity|]. repeat constructor. }
  destruct (parse_report_needs_desc_and_suffix _ _ _ Hrows) as [H _].
  apply H. intros r Hr. by eapply Forall_forall in Hall.
Defined.

(** ** Figures, collection and pages *)

Lemma check_image_changes_mode (o : options) (mode : image_mode) :
  check_image_changes o = Ok mode →
  (image_changes mode = false ↔ no_options o)
  ∧ (image_changes mode = true →
     flip_set mode = list_to_set (flip_images o)
     ∧ background_set mode = list_to_set (drop_background o)
     ∧ foreground_set mode = list_to_set (drop_foreground o)
     ∧ flip_set mode ## foreground_set mode
     ∧ flip_set mode ## background_set mode
     ∧ foreground_set mode ## background_set mode)
  ∧ (image_changes mode = false →
     flip_set mode = ∅ ∧ background_set mode = ∅ ∧ foreground_set mode = ∅).
Proof.
  unfold check_image_changes, no_options.
  destruct (Nat.eqb (length (flip_images o)) 0
            && Nat.eqb (length (drop_background o)) 0
            && Nat.eqb (length (drop_foreground o)) 0) eqn:Hlen.
  - apply andb_prop in Hlen as [Hlen Hfg]. apply andb_prop in Hlen as [Hf Hbg].
    apply Nat.eqb_eq, nil_length_inv in Hf, Hbg, Hfg.
    intros [= <-]. simpl. done.
  - repeat case_bool_decide; simpl; try done.
    intros [= <-]. simpl. split; [|done].
    split; [done|]. intros (Hf & Hbg & Hfg). rewrite Hf, Hbg, Hfg in Hlen. done.
Qed.

Section Placement.

Variable parse_file_entities : string -> dict.
Variable BeautifulSoup : string -> node.
Variable json_dumps : option nat -> json -> string.
Variable loads_BIDSVersion : string -> option json.
Variable format_subject : string -> value -> res string.
Variable copytree : path -> path -> M unit.
Variable _generate_html_head : string -> string.
Variables nav reviewer_initials html_foot : string.
Variable _flip_images : path -> path -> M unit.
Variable _drop_image : path -> path -> string -> M unit.

(** X6. Once the options are checked and the figures entry of a subject is
    free, the entry is made in one of two ways: as a symbolic link to the
    original figures when no image change was asked for, and as a copy of
    the directory [subj_group_dir / orig_fig_dir] as soon as one of the
    three options names a report type. *)
Theorem figures_linked_or_copied (o : options) (mode : image_mode)
    (subj_group_dir subj_group_fig_dir orig_fig_dir : path) (fs : files) :
  check_image_changes o = Ok mode →
  entry_taken fs subj_group_fig_dir = false →
  (no_options o →
   place_figures copytree mode subj_group_dir subj_group_fig_dir orig_fig_dir fs
   = symlink_to subj_group_fig_dir orig_fig_dir fs)
  ∧ (¬ no_options o →
     place_figures copytree mode subj_group_dir subj_group_fig_dir orig_fig_dir fs
     = copytree (joinpath subj_group_dir orig_fig_dir) subj_group_fig_dir fs).
Proof.
  intros Hmode Hfree.
  apply check_image_changes_mode in Hmode as [Hmode _].
  unfold place_figures, bind, query. unfold entry_taken in Hfree. rewrite Hfree.
  destruct (image_changes mode) eqn:Hchanges; split; try done.
  - intros Hno. apply Hmode in Hno. done.
  - intros Hsome. destruct Hsome. by apply Hmode.
Qed.

End Placement.

(** X7. Options that pass the check of lines 236-254 name every report
    type in at most one of the three sets: a report type that is flipped
    is in [flip_images] and in neither of the two other sets, one whose
    foreground is dropped is not in the background set, so the order of
    the [if]/[elif] chain of lines 346-351 never decides. *)
Theorem one_change_per_report_type (o : options) (mode : image_mode) :
  check_image_changes o = Ok mode →
  pairwise_disjoint o
  ∧ ∀ report_type,
      (in_set report_type (flip_set mode) = true →
       (∃ s, report_type = VStr s ∧ s ∈ flip_images o)
       ∧ in_set report_type (foreground_set mode) = false
       ∧ in_set report_type (background_set mode) = false)
      ∧ (in_set report_type (foreground_set mode) = true →
         (∃ s, report_type = VStr s ∧ s ∈ drop_foreground o)
         ∧ in_set report_type (background_set mode) = false).
Proof.
  intros Hmode.
  apply check_image_changes_mode in Hmode as (Hno & Hyes & Hempty).
  destruct (image_changes mode).
  - destruct (Hyes eq_refl) as (-> & -> & -> & H1 & H2 & H3). split.
    + intros name. set_solver.
    + intros [| | | | | |s]; simpl; try done.
      split; intros Hin%bool_decide_eq_true.
      * split; [exists s; set_solver|].
        split; apply bool_decide_eq_false; set_solver.
      * split; [exists s; set_solver|].
        apply bool_decide_eq_false; set_solver.
  - destruct (Hempty eq_refl) as (-> & -> & ->).
    destruct Hno as [Hno _]. destruct (Hno eq_refl) as (Hf & Hb & Hg). split.
    + intros name. rewrite Hf, Hb, Hg. set_solver.
    + intros [| | | | | |s]; simpl; done.
Qed.

Lemma elem_of_insert_sorted (p x : path) (l : list path) :
  x ∈ insert_sorted p l ↔ x = p ∨ x ∈ l.
Proof.
  induction l as [|q l IH]; simpl; [set_solver|].
  destruct (path_leb p q); set_solver.
Qed.

Lemma elem_of_sorted (x : path) (l : list path) : x ∈ sorted l ↔ x ∈ l.
Proof.
  induction l as [|q l IH]; simpl; [done|].
  rewrite elem_of_insert_sorted. set_solver.
Qed.

Lemma glob_subject_reports_below (root : path) (fs : files) (rps : list path) :
  (glob_subject_reports root fs).2 = Ok rps →
  ∀ rp, rp ∈ rps → root `prefix_of` rp.
Proof.
  unfold glob_subject_reports. destruct (resolve fs root) as [base|]; simpl.
  - intros [= <-] rp Hrp. apply elem_of_sorted, list_elem_of_fmap in Hrp
      as (rel & -> & _). by exists rel.
  - intros [= <-] rp Hrp. by apply elem_of_nil in Hrp.
Qed.

Lemma split_on_free (sep : ascii) (s : string) :
  ∀ w, w ∈ split_on sep s → ∀ u v, w ≠ (u +:+ String sep v)%string.
Proof.
  induction s as [|c s IH]; simpl; intros w Hw u v.
  - apply list_elem_of_singleton in Hw as ->. by destruct u.
  - destruct (Ascii.eqb c sep) eqn:Hc.
    + apply elem_of_cons in Hw as [->|Hw]; [by destruct u|]. by apply IH.
    + destruct (split_on sep s) as [|w0 ws] eqn:Hsplit.
      * apply list_elem_of_singleton in Hw as ->.
        destruct u as [|a [|]]; simpl; try done.
        intros [= -> ]. by rewrite Ascii.eqb_refl in Hc.
      * apply elem_of_cons in Hw as [->|Hw].
        -- destruct u as [|a u]; simpl.
           ++ intros [= -> _]. by rewrite Ascii.eqb_refl in Hc.
           ++ intros [= _ H]. revert H. apply IH. by left.
        -- apply IH. by right.
Qed.

Lemma Path_part_not_root (s : string) (d : string) :
  d ∈ Path s → d = "/"%string → ∃ s', s = String "/" s'.
Proof.
  intros Hd ->. unfold Path in Hd.
  assert ("/"%string ∉ filter (λ x, Is_true (nonempty_part x)) (split_on "/" s))
    as Hfree.
  { intros Hin%list_elem_of_filter. destruct Hin as [_ Hin].
    by apply (split_on_free _ _ _ Hin EmptyString EmptyString). }
  destruct s as [|c s]; [done|].
  destruct (decide (c = "/"%char)) as [->|Hc]; [eauto|].
  exfalso. apply Hfree.
  destruct c as [[] [] [] [] [] [] [] []]; try done.
Qed.

Section Collection.

Variable parse_file_entities : string -> dict.
Variable BeautifulSoup : string -> node.
Variable json_dumps : option nat -> json -> string.
Variable loads_BIDSVersion : string -> option json.
Variable format_subject : string -> value -> res string.
Variable copytree : path -> path -> M unit.
Variable _generate_html_head : string -> string.
Variables nav reviewer_initials html_foot : string.
Variable _flip_images : path -> path -> M unit.
Variable _drop_image : path -> path -> string -> M unit.

Lemma collect_reports_filter (o : options) (mode : image_mode)
    (group_dir : path) (report_paths : list path) (fs : files) :
  collect_reports parse_file_entities BeautifulSoup format_subject copytree
    o mode group_dir report_paths fs
  = collect_reports parse_file_entities BeautifulSoup format_subject copytree
      o mode group_dir
      (filter (λ p : path, "figures"%string ∉ p) report_paths) fs.
Proof.
  revert fs. induction report_paths as [|rp rps IH]; intros fs; [done|].
  simpl. rewrite filter_cons. case_bool_decide as Hfig.
  - rewrite decide_False by (by intros H). apply IH.
  - rewrite decide_True by done. simpl.
    rewrite bool_decide_eq_false_2 by done. unfold bind.
    destruct (parse_report _ _ rp fs) as [fsa [report|e]]; [|done].
    destruct (link_figures _ _ _ _ _ _ _ fsa) as [fsb [[]|]]; [|done].
    by rewrite IH.
Qed.


(** X9. When no subject report is read, because the output directory has
    none, or because every path found has a part named [figures], as all
    of them have when the output path itself has one, [pd.concat]
    is given an empty list and [make_report] ends with its [ValueError];
    the group directory and its description, made before, stay. *)
Theorem no_report_nothing_to_concatenate (o : options) (mode : image_mode)
    (group_dir : path) (fs fs1 : files) :
  check_image_changes o = Ok mode →
  prepare_group_dir json_dumps loads_BIDSVersion o mode fs = (fs1, Ok group_dir) →
  "figures"%string ∈ fmriprep_output_path o
  ∨ (∀ report_paths,
       (glob_subject_reports (fmriprep_output_path o) fs1).2 = Ok report_paths →
       Forall (λ p : path, "figures"%string ∈ p) report_paths) →
  make_report parse_file_entities BeautifulSoup json_dumps loads_BIDSVersion
    format_subject copytree _generate_html_head nav reviewer_initials
    html_foot _flip_images _drop_image o fs
  = (fs1, Raise (ValueError MsgNoObjectsToConcatenate)).
Proof.
  intros Hmode Hprep Hnone.
  unfold make_report, bind, lift. rewrite Hmode, Hprep.
  unfold corpus, bind, lift.
  pose proof (glob_subject_reports_state (fmriprep_output_path o) fs1) as Hstate.
  pose proof (glob_subject_reports_below (fmriprep_output_path o) fs1) as Hbelow.
  destruct (glob_subject_reports (fmriprep_output_path o) fs1)
    as [fs2 [rps|e]] eqn:Hglob; simpl in *; subst fs2.
  2: { unfold glob_subject_reports in Hglob.
       by destruct (resolve fs1 (fmriprep_output_path o)). }
  assert (Forall (λ p : path, "figures"%string ∈ p) rps) as Hall.
  { destruct Hnone as [Hout|Hall]; [|by apply Hall].
    apply Forall_forall. intros rp Hrp.
    destruct (Hbelow rps eq_refl rp Hrp) as [rel ->]. set_solver. }
  rewrite collect_reports_filter.
  replace (filter (λ p : path, "figures"%string ∉ p) rps) with (@nil path).
  - done.
  - symmetry. clear -Hall. induction Hall as [|p l Hp _ IH]; [done|].
    rewrite filter_cons, decide_False by (by intros H). done.
Qed.

(** X11. Without [path_to_figures] the target of the link of a subject is
    computed from the paths alone: for a report [rel/sub-x.html] below
    the output directory it is [../../rel/sub-<subject>/figures], two
    levels up from the directory of the subject in the group tree,
    whatever the tree holds. *)
Theorem inferred_link_target (o : options) (rel : path) (name d : string)
    (subject : value) (fs : files) :
  path_to_figures o = None →
  is_subject_report name = true →
  Path ("sub-" +:+ str subject) = [d] →
  find_orig_fig_dir format_subject o
    (fmriprep_output_path o ++ rel ++ [name]) subject
    (joinpath (joinpath (fmriprep_output_path o) ["group"%string]) [d])
    (joinpath (joinpath (joinpath (fmriprep_output_path o) ["group"%string]) [d])
              ["figures"%string]) fs
  = (fs, Ok ([".."; ".."]%string ++ rel ++ [d; "figures"]%string)).
Proof.
  intros Hnone Hname Hd.
  assert (d ≠ "/"%string) as Hroot.
  { intros ->.
    assert ("/"%string ∈ Path ("sub-" +:+ str subject)) as Hin
      by (rewrite Hd; by left).
    destruct (Path_part_not_root _ _ Hin eq_refl) as [s' Hs'].
    simpl in Hs'. discriminate. }
  assert (parent (fmriprep_output_path o ++ rel ++ [name])
          = fmriprep_output_path o ++ rel) as Hparent.
  { rewrite app_assoc. unfold parent.
    destruct (fmriprep_output_path o ++ rel) as [|a l] eqn:Hl; simpl.
    - destruct (String.eqb name "/") eqn:E; [|done].
      apply String.eqb_eq in E as ->. done.
    - destruct (l ++ [name]) eqn:E; [by destruct l|]. rewrite <- E.
      change (a :: l ++ [name]) with ((a :: l) ++ [name]).
      by rewrite removelast_last. }
  unfold find_orig_fig_dir. rewrite Hnone, Hparent, Hd.
  assert (∀ p, joinpath p [d] = p ++ [d]) as Hjd.
  { intros p. unfold joinpath. destruct d as [|c d']; [done|].
    destruct c as [[] [] [] [] [] [] [] []]; try done.
    destruct d'; [by destruct Hroot | done]. }
  rewrite !Hjd. unfold joinpath; simpl.
  unfold bind, query, lift, discard, ret, relative_to.
  rewrite <- !app_assoc.
  destruct (negb _); simpl.
  all: rewrite !bool_decide_eq_true_2 by (by apply prefix_app_r).
  all: rewrite !drop_app_length; simpl.
  all: done.
Qed.

(** X12. When the output directory is missing from its parent directory,
    [group_dir.mkdir(exist_ok=True)], which does not make parents, raises
    [FileNotFoundError] on the path of the group directory; nothing has
    been done by then and the tree is as it was. *)
Theorem missing_output_dir_aborts (o : options) (mode : image_mode)
    (p : path) (name : string) (q : path) (fs : files) :
  check_image_changes o = Ok mode →
  fmriprep_output_path o = p ++ [name] →
  name ≠ "/"%string → name ≠ ".."%string →
  locate fs (p ++ [name]) = Some q → fs !! q = None →
  make_report parse_file_entities BeautifulSoup json_dumps loads_BIDSVersion
    format_subject copytree _generate_html_head nav reviewer_initials
    html_foot _flip_images _drop_image o fs
  = (fs, Raise (FileNotFoundError (MsgOS (p ++ [name; "group"]%string)))).
Proof.
  intros Hmode Hout Hname1 Hname2 Hq Hnone.
  assert (resolve fs (p ++ [name]) = None) as Hresolve.
  { destruct (resolve fs (p ++ [name])) as [q'|] eqn:E; [|done].
    apply resolve_snoc in E as (d & Hd & Hdir & Hsome); [|done..].
    rewrite locate_snoc, Hd in Hq by done. simpl in Hq. rewrite Hdir in Hq.
    injection Hq as <-. rewrite Hnone in Hsome. by destruct Hsome. }
  unfold make_report, bind, lift. rewrite Hmode.
  unfold prepare_group_dir, bind. rewrite Hout.
  replace (joinpath (p ++ [name]) ["group"%string])
    with ((p ++ [name]) ++ ["group"%string]) by done.
  unfold mkdir_exist_ok. rewrite locate_snoc, Hresolve by done. simpl.
  by rewrite <- app_assoc.
Qed.

End Collection.

Lemma elem_of_concat_columns (reports : list DataFrame) (acc : list string)
    (c : string) :
  c ∈ fold_left (λ acc df, fold_left add_key (columns df) acc) reports acc
  ↔ c ∈ acc ∨ ∃ report, report ∈ reports ∧ c ∈ columns report.
Proof.
  revert acc. induction reports as [|df reports IH]; intros acc; simpl.
  - set_solver.
  - rewrite IH, elem_of_fold_add_key. set_solver.
Qed.

Lemma cell_reindex (c : string) (rows : list dict) (cols : list string)
    (r : dict) :
  c ∈ cols →
  cell c (reindex rows cols r) = astype (map (cell c) rows) (cell c r).
Proof.
  intros Hc. unfold cell at 1. rewrite dict_get_reindex.
  by rewrite bool_decide_eq_true_2.
Qed.

Lemma concat_frames_spec (reports : list DataFrame) (df : DataFrame) :
  concat_frames reports = Ok df →
  (∀ c, c ∈ columns df ↔ ∃ report, report ∈ reports ∧ c ∈ columns report)
  ∧ records df
    = map (reindex (flat_map records reports) (columns df))
          (flat_map records reports).
Proof.
  unfold concat_frames. destruct reports as [|df0 reports0] eqn:Hreports; [done|].
  rewrite <- Hreports. clear Hreports. intros [= <-]. simpl.
  split; [|done].
  intros c. rewrite elem_of_concat_columns. set_solver.
Qed.

Lemma with_chunk_records (rpp : option Z) (rtdf : DataFrame) :
  ∃ paged,
    with_chunk rpp (with_idx rtdf) = Ok paged
    ∧ columns paged = add_key ("idx"%string :: columns rtdf) "chunk"
    ∧ records paged
      = imap (λ i r, dict_set "chunk" (chunk_of rpp i)
                       (("idx"%string, VInt (Z.of_nat i)) :: r))
             (records rtdf).
Proof.
  unfold with_chunk, with_idx, setitem, getattr, res_bind, chunk_of.
  destruct rtdf as [cols R]. simpl. destruct rpp as [n|]; simpl.
  - eexists. split; [reflexivity|]. split; [done|]. simpl.
    rewrite map_map, zip_with_map_r, map_fmap, fmap_imap.
    apply imap_ext. intros i r _. simpl. unfold cell. by simpl.
  - eexists. split; [reflexivity|]. split; [done|]. simpl.
    by rewrite zip_with_map_r, map_fmap, fmap_imap.
Qed.

Lemma res_map_ok {A B} (f : A → res B) (l : list A) :
  (∀ a, a ∈ l → ∃ b, f a = Ok b) →
  ∃ bs, res_map f l = Ok bs ∧ length bs = length l.
Proof.
  induction l as [|a l IH]; intros Hall; simpl; [by exists []|].
  destruct (Hall a) as [b ->]; [by left|].
  destruct IH as (bs & -> & Hlen); [intros; apply Hall; by right|].
  exists (b :: bs). simpl. by rewrite Hlen.
Qed.

Lemma dict_get_del_ne (k k' : string) (d : dict) :
  k ≠ k' → dict_get k (dict_del k' d) = dict_get k d.
Proof.
  intros Hne. unfold dict_del. induction d as [|[k0 v0] d IH]; [done|].
  rewrite filter_cons. simpl. destruct (decide (k0 ≠ k')) as [Hk|Hk]; simpl.
  - by rewrite IH.
  - apply dec_stable in Hk as ->. by apply String.eqb_neq in Hne as ->.
Qed.

Lemma cell_dict_get (c : string) (r : dict) (s : string) :
  cell c r = VStr s → dict_get c r = Some (VStr s).
Proof. unfold cell. destruct (dict_get c r); simpl; congruence. Qed.

Lemma parse_soup_renderable (pfe : string → dict) (soup : node) (df : DataFrame) :
  parse_soup pfe soup = Ok df →
  Forall renderable (records df)
  ∧ "report_type"%string ∈ columns df
  ∧ (records df ≠ [] →
     "path"%string ∈ columns df ∧ "filename"%string ∈ columns df).
Proof.
  intros Hparse.
  destruct (parse_soup_records _ _ _ Hparse) as (rows & Hrows & Hcols & Hrec).
  split; [|split].
  - apply Forall_lookup. intros k row Hrow.
    assert (∃ l, file_divs soup !! k = Some l) as [l Hl].
    { apply lookup_lt_is_Some.
      apply figure_rows_each in Hrows. apply Forall2_length in Hrows.
      apply lookup_lt_Some in Hrow.
      rewrite Hrec, length_map in Hrow. lia. }
    destruct (parse_soup_row _ _ _ _ _ Hparse Hl)
      as (rows' & row' & r & prev0 & prev1 & _ & Hrow' & Hr & Hcell).
    rewrite Hrow in Hrow'. injection Hrow' as <-.
    apply figure_row_spec in Hr as (p & f & _ & _ & Hp & Hf & _).
    exists p, f. rewrite !Hcell by done. unfold cell at 2 4.
    rewrite Hp, Hf. simpl. by rewrite !astype_other.
  - rewrite Hcols. apply elem_of_add_key. by right.
  - rewrite Hrec, Hcols. destruct rows as [|r rows]; [done|]. intros _.
    apply figure_rows_each in Hrows.
    destruct (file_divs soup) as [|l fds]; [by inversion Hrows|].
    apply Forall2_cons in Hrows as [(prev0 & prev1 & Hrow) _].
    apply figure_row_spec in Hrow as (p & f & _ & _ & Hp & Hf & _).
    split; apply elem_of_add_key; left;
      (eapply elem_of_union_keys; [by left|]);
      by eapply dict_get_Some_keys.
Qed.

Lemma groupby_rows (c : string) (df : DataFrame) (groups : list (value * DataFrame)) :
  groupby c df = Ok groups →
  ∀ k g, (k, g) ∈ groups →
    columns g = columns df ∧ ∀ r, r ∈ records g → r ∈ records df.
Proof.
  intros Hgroups k g Hg.
  assert (c ∈ columns df) as Hc.
  { unfold groupby in Hgroups. by case_bool_decide. }
  destruct (groupby_spec c df Hc) as (groups' & Hgroups' & _ & Hperm).
  rewrite Hgroups in Hgroups'. injection Hgroups' as <-. split.
  - unfold groupby in Hgroups. rewrite bool_decide_eq_true_2 in Hgroups by done.
    injection Hgroups as <-. rewrite map_fmap in Hg.
    by apply list_elem_of_fmap in Hg as ([k' g'] & [= -> ->] & _).
  - intros r Hr.
    assert (r ∈ flat_map (λ kg : value * DataFrame, records kg.2) groups) as Hin.
    { apply list_elem_of_In, in_flat_map. exists (k, g).
      split; by apply list_elem_of_In. }
    rewrite Hperm in Hin. by apply list_elem_of_filter in Hin as [_ Hin].
Qed.

Section Rendering.

Variable json_dumps : option nat -> json -> string.

Lemma snippet_of_renderable (i : nat) (r : dict) :
  renderable r →
  ∃ snippet,
    _make_report_snippet json_dumps
      (("idx"%string, VInt (Z.of_nat i)) :: dict_del "idx" r) = Ok snippet.
Proof.
  intros (p & f & Hp%cell_dict_get & Hf%cell_dict_get).
  unfold _make_report_snippet, res_bind, getitem. simpl.
  rewrite !dict_get_del_ne, Hp, Hf by done. eauto.
Qed.

(** X16. On the tables that [parse_report] returns no step of the
    rendering can miss a column: the concatenated table has a
    [report_type] column to group by, every group gets its [idx] and
    [chunk] columns for any page size, and [_make_report_snippet] finds
    [idx], a string [filename] and [path] in every row of every page, so
    it returns one snippet per row. *)
Theorem rows_always_render (parse_file_entities : string → dict)
    (reports : list DataFrame) (all : DataFrame) :
  Forall (λ report, ∃ soup, parse_soup parse_file_entities soup = Ok report)
         reports →
  concat_frames reports = Ok all →
  ∃ groups,
    groupby "report_type" all = Ok groups
    ∧ ∀ report_type rtdf reports_per_page,
        (report_type, rtdf) ∈ groups →
        ∃ paged chunks,
          with_chunk reports_per_page (with_idx rtdf) = Ok paged
          ∧ groupby "chunk" paged = Ok chunks
          ∧ ∀ chunk cdf, (chunk, cdf) ∈ chunks →
              ∃ snippets,
                res_map (_make_report_snippet json_dumps)
                        (records (rebase_idx cdf)) = Ok snippets
                ∧ length snippets = length (records cdf).
Proof.
  intros Hreports Hall.
  destruct (concat_frames_spec _ _ Hall) as (Hcols & Hrecords).
  assert (reports ≠ []) as Hne by (by destruct reports).
  assert ("report_type"%string ∈ columns all) as Hrt.
  { destruct reports as [|report reports']; [done|]. apply Hcols.
    exists report. split; [by left|].
    apply Forall_cons in Hreports as [[soup Hsoup] _].
    by apply parse_soup_renderable in Hsoup as (_ & ? & _). }
  assert (Forall renderable (records all)) as Hrows.
  { rewrite Hrecords.
    apply Forall_forall. intros r Hr. rewrite map_fmap in Hr.
    apply list_elem_of_fmap in Hr as (r0 & -> & Hr0).
    apply list_elem_of_In, in_flat_map in Hr0 as (report & Hreport & Hr0).
    apply list_elem_of_In in Hreport, Hr0.
    destruct (proj1 (Forall_forall _ _) Hreports report Hreport) as [soup Hsoup].
    apply parse_soup_renderable in Hsoup as (Hren & _ & Hpf).
    destruct Hpf as [Hp Hf]; [by destruct (records report); [apply elem_of_nil in Hr0|]|].
    destruct (proj1 (Forall_forall _ _) Hren r0 Hr0) as (p & f & Hp0 & Hf0).
    exists p, f. rewrite !cell_reindex by (apply Hcols; eauto).
    rewrite Hp0, Hf0. by rewrite !astype_other. }
  destruct (groupby_spec "report_type" all Hrt) as (groups & Hgroups & _ & _).
  exists groups. split; [done|].
  intros report_type rtdf rpp Hg.
  destruct (groupby_rows _ _ _ Hgroups _ _ Hg) as [_ Hsub].
  destruct (with_chunk_records rpp rtdf) as (paged & Hpaged & Hpcols & Hprec).
  assert ("chunk"%string ∈ columns paged) as Hchunk.
  { rewrite Hpcols. apply elem_of_add_key. by right. }
  destruct (groupby_spec "chunk" paged Hchunk) as (chunks & Hchunks & _ & _).
  exists paged, chunks. split; [done|]. split; [done|].
  intros chunk cdf Hc.
  destruct (groupby_rows _ _ _ Hchunks _ _ Hc) as [_ Hsubc].
  destruct (res_map_ok (_make_report_snippet json_dumps)
              (records (rebase_idx cdf))) as (snippets & Hsnippets & Hlen).
  - intros row Hrow. unfold rebase_idx in Hrow. simpl in Hrow.
    apply elem_of_lookup_imap in Hrow as (i & r & -> & Hr).
    apply snippet_of_renderable.
    apply list_elem_of_lookup_2, Hsubc in Hr. rewrite Hprec in Hr.
    apply elem_of_lookup_imap in Hr as (j & r0 & -> & Hr0).
    apply list_elem_of_lookup_2, Hsub in Hr0.
    destruct (proj1 (Forall_forall _ _) Hrows r0 Hr0) as (p & f & Hp & Hf).
    exists p, f. by rewrite !cell_set_ne by done.
  - exists snippets. split; [done|]. rewrite Hlen. unfold rebase_idx. simpl.
    by rewrite length_imap.
Qed.

End Rendering.

Lemma group_rows_same_key (c : string) (k : value) (rows : list dict) :
  isnull k = false → Forall (λ r, cell c r = k) rows →
  ∀ g, fold_left (λ groups r, if isnull (cell c r) then groups
                              else insert_group (cell c r) r groups)
                 rows [(k, g)]
       = [(k, g ++ rows)].
Proof.
  intros Hk. induction 1 as [|r rows Hr _ IH]; intros g; simpl.
  - by rewrite app_nil_r.
  - rewrite Hr, Hk. simpl. rewrite bool_decide_eq_true_2 by done.
    rewrite IH. by rewrite <- app_assoc.
Qed.

Lemma null_then_inf (c : string) (r0 : dict) (rows : list dict) :
  cell c r0 = VNaN → Forall (λ r, cell c r = VInf) rows →
  group_rows c (r0 :: rows)
  = match rows with [] => [] | _ :: _ => [(VInf, rows)] end.
Proof.
  intros H0 Hrows. unfold group_rows. simpl. rewrite H0. simpl.
  destruct Hrows as [|r1 rows Hr1 Hrows]; [done|]. simpl. rewrite Hr1. simpl.
  by apply (group_rows_same_key c VInf).
Qed.

Lemma zero_size_groups (rows : list dict) :
  group_rows "chunk"
    (imap (λ i r, dict_set "chunk" (chunk_of (Some 0%Z) i)
                    (("idx"%string, VInt (Z.of_nat i)) :: r)) rows)
  = match rows with
    | [] | [_] => []
    | _ :: _ =>
        [(VInf, tail (imap (λ i r, dict_set "chunk" (chunk_of (Some 0%Z) i)
                              (("idx"%string, VInt (Z.of_nat i)) :: r)) rows))]
    end.
Proof.
  destruct rows as [|r0 rows]; [done|].
  rewrite imap_cons, null_then_inf.
  - by destruct rows.
  - by rewrite cell_set_eq.
  - apply Forall_forall. intros r Hr.
    apply elem_of_lookup_imap in Hr as (i & r' & -> & _).
    unfold compose. by rewrite cell_set_eq.
Qed.

Section ZeroPageSize.

Variable json_dumps : option nat -> json -> string.
Variable _generate_html_head : string -> string.
Variables nav reviewer_initials html_foot : string.
Variable _flip_images : path -> path -> M unit.
Variable _drop_image : path -> path -> string -> M unit.

(** X13. With [reports_per_page=0] the integer division of line 356 gives
    NaN for the first row of a report type and infinity for the others:
    a report type with one row gets no page at all and no error, and one
    with more rows stops at the format [{chunk:03d}] of line 358 with a
    [ValueError], before anything is written. *)
Theorem zero_page_size (o : options) (mode : image_mode) (group_dir : path)
    (report_type : value) (rtdf : DataFrame) (fs : files) :
  reports_per_page o = Some 0%Z →
  image_changes mode = false →
  consolidate json_dumps _generate_html_head nav reviewer_initials html_foot
    _flip_images _drop_image o mode group_dir report_type rtdf fs
  = (fs, if Nat.leb 2 (length (records rtdf))
         then Raise (ValueError MsgUnknownFormatCode) else Ok tt).
Proof.
  intros Hzero Hmode. unfold consolidate, bind, lift, ret.
  rewrite Hmode, Hzero. cbn [andb].
  destruct (with_chunk_records (Some 0%Z) rtdf) as (paged & -> & Hcols & Hrec).
  unfold groupby. rewrite bool_decide_eq_true_2
    by (rewrite Hcols; apply elem_of_add_key; by right).
  rewrite Hrec, zero_size_groups. unfold chunk_of.
  by destruct (records rtdf) as [|r0 [|r1 R]].
Qed.

End ZeroPageSize.


Lemma string_app_nil_l (s : string) : EmptyString +:+ s = s.
Proof. reflexivity. Qed.

Lemma string_app_cons (a : ascii) (s t : string) :
  String a s +:+ t = String a (s +:+ t).
Proof. reflexivity. Qed.

Lemma uint_of_string_zeros (n : nat) (s : string) :
  NilEmpty.uint_of_string (zeros n +:+ s)
  = option_map (lead n) (NilEmpty.uint_of_string s).
Proof.
  induction n as [|n IH]; simpl.
  - rewrite string_app_nil_l. by destruct (NilEmpty.uint_of_string s).
  - rewrite ?string_app_cons. simpl. rewrite IH.
    by destruct (NilEmpty.uint_of_string s).
Qed.

Lemma of_uint_lead (n : nat) (d : Decimal.uint) :
  Z.of_uint (lead n d) = Z.of_uint d.
Proof. induction n as [|n IH]; simpl; [done|]. exact IH. Qed.

Lemma str_of_Z_nonneg (z : Z) :
  (0 ≤ z)%Z →
  ∃ d, str_of_Z z = NilEmpty.string_of_uint d ∧ d ≠ Decimal.Nil
       ∧ Z.of_uint d = z.
Proof.
  intros Hz. unfold str_of_Z. destruct z as [|p|p]; [| |lia].
  - exists (Decimal.D0 Decimal.Nil). by repeat split.
  - exists (Pos.to_uint p).
    assert (Z.of_uint (Pos.to_uint p) = Z.pos p) as Hround.
    { unfold Z.of_uint. by rewrite DecimalPos.Unsigned.of_to. }
    assert (Pos.to_uint p ≠ Decimal.Nil) as Hnil.
    { intros E. rewrite E in Hround. done. }
    split; [|done]. simpl. by destruct (Pos.to_uint p).
Qed.

Lemma read_digits (n : nat) (d : Decimal.uint) :
  d ≠ Decimal.Nil →
  ∃ a s, zeros n +:+ NilEmpty.string_of_uint d = String a s
         ∧ a ≠ "-"%char
         ∧ NilEmpty.uint_of_string (String a s) = Some (lead n d).
Proof.
  intros Hd.
  assert (NilEmpty.uint_of_string (zeros n +:+ NilEmpty.string_of_uint d)
          = Some (lead n d)) as Hread.
  { by rewrite uint_of_string_zeros, NilEmpty.usu. }
  destruct n as [|n].
  - simpl zeros in *. rewrite string_app_nil_l in *.
    destruct d; try done; simpl in *; eexists _, _; (split; [done|]); done.
  - simpl zeros in *. rewrite string_app_cons in *.
    eexists _, _. split; [done|]. done.
Qed.

Lemma length_string_app (s t : string) :
  String.length (s +:+ t) = String.length s + String.length t.
Proof.
  induction s as [|a s IH]; [done|].
  rewrite string_app_cons. simpl. congruence.
Qed.

Lemma length_zeros (n : nat) : String.length (zeros n) = n.
Proof. induction n as [|n IH]; simpl; congruence. Qed.

Lemma string_app_inv_tail (e s t : string) : s +:+ e = t +:+ e → s = t.
Proof.
  revert t. induction s as [|a s IH]; intros [|b t] H.
  - done.
  - apply (f_equal String.length) in H.
    rewrite !length_string_app in H. simpl in H. lia.
  - apply (f_equal String.length) in H.
    rewrite !length_string_app in H. simpl in H. lia.
  - rewrite !string_app_cons in H. injection H as -> H. f_equal. by apply IH.
Qed.

Lemma format_03d_read (z : Z) :
  ∃ s, format_03d (VInt z) = Ok s ∧ read_number s = Some z
       ∧ 3 ≤ String.length s.
Proof.
  unfold format_03d, zfill, read_number, NilZero.int_of_string,
    NilZero.uint_of_string.
  destruct (Z.ltb_spec z 0) as [Hneg|Hpos].
  - destruct (str_of_Z_nonneg (- z)) as (d & -> & Hd & Hz); [lia|].
    eexists. split; [done|]. rewrite string_app_cons, string_app_nil_l.
    rewrite Ascii.eqb_refl.
    destruct (read_digits (2 - String.length (NilEmpty.string_of_uint d)) d Hd)
      as (a & s & E & _ & Hread).
    split.
    + rewrite E, Hread. simpl. f_equal. rewrite of_uint_lead. lia.
    + simpl. rewrite length_string_app, length_zeros. lia.
  - destruct (str_of_Z_nonneg z) as (d & -> & Hd & Hz); [lia|].
    eexists. split; [done|].
    destruct (read_digits (3 - String.length (NilEmpty.string_of_uint d)) d Hd)
      as (a & s & E & Ha & Hread).
    split.
    + rewrite E. apply Ascii.eqb_neq in Ha as ->. rewrite Hread. simpl.
      f_equal. by rewrite of_uint_lead.
    + rewrite length_string_app, length_zeros. lia.
Qed.

(** X14. The page number of a file name, [{chunk:03d}], has at least three
    characters and reads back as the chunk, negative ones included; so
    two pages of a report type never get the same file name. *)
Theorem page_number_round_trip (z1 : Z) :
  (∃ number, format_03d (VInt z1) = Ok number
             ∧ read_number number = Some z1
             ∧ 3 ≤ String.length number)
  ∧ ∀ z2 number1 number2 report_type extension,
      format_03d (VInt z1) = Ok number1 →
      format_03d (VInt z2) = Ok number2 →
      chunk_name report_type number1 extension
      = chunk_name report_type number2 extension →
      z1 = z2.
Proof.
  split; [apply format_03d_read|].
  intros z2 n1 n2 rt ext H1 H2 Hname.
  destruct (format_03d_read z1) as (s1 & E1 & R1 & _).
  destruct (format_03d_read z2) as (s2 & E2 & R2 & _).
  rewrite H1 in E1. rewrite H2 in E2.
  injection E1 as <-. injection E2 as <-.
  unfold chunk_name in Hname.
  do 3 apply String.app_inj in Hname.
  apply string_app_inv_tail in Hname. congruence.
Qed.

(** ** What a run leaves in place *)

Lemma kept_refl (fs : files) : kept fs fs.
Proof. intros q [] Hq; eauto. Qed.

Lemma kept_trans (fs1 fs2 fs3 : files) : kept fs1 fs2 → kept fs2 fs3 → kept fs1 fs3.
Proof.
  intros H12 H23 q e Hq. specialize (H12 q e Hq). destruct e.
  - by apply (H23 q Dir).
  - destruct H12 as [c Hc]. by apply (H23 q (File c)).
  - by apply (H23 q (Symlink _)).
Qed.

Lemma kept_extends (fs fs' : files) : fs ⊆ fs' → kept fs fs'.
Proof.
  intros Hsub q e Hq. pose proof (lookup_weaken _ _ _ _ Hq Hsub).
  destruct e; eauto.
Qed.

Lemma kept_insert_file (fs : files) (q : path) (s : string) :
  fs !! q = None ∨ (∃ c, fs !! q = Some (File c)) →
  kept fs (<[q := File s]> fs).
Proof.
  intros Hq q' e Hq'. destruct (decide (q = q')) as [<-|Hne].
  - rewrite lookup_insert_eq. destruct Hq as [Hq|[c Hq]]; [congruence|].
    rewrite Hq in Hq'. injection Hq' as <-. eauto.
  - rewrite lookup_insert_ne by done. destruct e; eauto.
Qed.

Lemma keeps_ret {A} (a : A) : keeps (ret a).
Proof. intros fs. apply kept_refl. Qed.

Lemma keeps_raise {A} (e : exn) : keeps (@raise A e).
Proof. intros fs. apply kept_refl. Qed.

Lemma keeps_lift {A} (r : res A) : keeps (lift r).
Proof. intros fs. apply kept_refl. Qed.

Lemma keeps_query {A} (f : files → A) : keeps (query f).
Proof. intros fs. apply kept_refl. Qed.

Lemma keeps_discard {A} (a : A) : keeps (discard a).
Proof. intros fs. apply kept_refl. Qed.

Lemma keeps_bind {A B} (m : M A) (k : A → M B) :
  keeps m → (∀ a, keeps (k a)) → keeps (bind m k).
Proof.
  intros Hm Hk fs. unfold bind. specialize (Hm fs).
  destruct (m fs) as [fs' [a|e]]; [|done].
  eapply kept_trans; [exact Hm | apply Hk].
Qed.

Lemma keeps_for_each {A} (l : list A) (body : A → M unit) :
  (∀ a, keeps (body a)) → keeps (for_each l body).
Proof.
  intros Hbody. induction l as [|a l IH]; simpl.
  - apply keeps_ret.
  - apply keeps_bind; [apply Hbody | by intros _].
Qed.

Lemma keeps_mkdir_exist_ok (p : path) : keeps (mkdir_exist_ok p).
Proof. intros fs. apply kept_extends, mkdir_exist_ok_extends. Qed.

Lemma keeps_symlink_to (p target : path) : keeps (symlink_to p target).
Proof. intros fs. apply kept_extends, symlink_to_extends. Qed.

Lemma keeps_read_text (p : path) : keeps (read_text p).
Proof.
  intros fs. unfold read_text. destruct (resolve fs p) as [q|]; [|apply kept_refl].
  destruct (entry_at fs q) as [[]|]; apply kept_refl.
Qed.

Lemma open_location_free (fuel : nat) (fs : files) :
  ∀ p q, open_location fuel fs p = Ok q →
         fs !! q = None ∨ ∃ c, fs !! q = Some (File c).
Proof.
  induction fuel as [|fuel IH]; intros p q; simpl.
  - destruct (locate fs p) as [q'|]; [|done].
    destruct q' as [|a q']; [done|]. simpl.
    destruct (fs !! (a :: q')) as [[]|] eqn:E; try done.
    + intros [= <-]. eauto.
    + intros [= <-]. eauto.
  - destruct (locate fs p) as [q'|]; [|done].
    destruct q' as [|a q']; [done|]. simpl.
    destruct (fs !! (a :: q')) as [[| |t]|] eqn:E; try done.
    + intros [= <-]. eauto.
    + apply IH.
    + intros [= <-]. eauto.
Qed.

Lemma keeps_write_text (p : path) (s : string) : keeps (write_text p s).
Proof.
  intros fs. unfold write_text.
  destruct (open_location symloop_max fs p) as [q|] eqn:E; [|apply kept_refl].
  simpl. by eapply kept_insert_file, open_location_free.
Qed.

Lemma keeps_glob_subject_reports (root : path) : keeps (glob_subject_reports root).
Proof. intros fs. rewrite glob_subject_reports_state. apply kept_refl. Qed.

Create HintDb keeps.

#[local] Hint Resolve keeps_ret keeps_raise keeps_lift keeps_query
  keeps_discard keeps_mkdir_exist_ok keeps_symlink_to keeps_read_text
  keeps_write_text keeps_glob_subject_reports : keeps.

Ltac keeps_step :=
  first
    [ apply keeps_bind; [|intros ?]
    | apply keeps_for_each; intros ?
    | solve [auto with keeps]
    | match goal with
      | |- keeps (if ?b then _ else _) => destruct b
      | |- keeps (match ?x with _ => _ end) => destruct x
      end ].

Section Kept.

Variable parse_file_entities : string -> dict.
Variable BeautifulSoup : string -> node.
Variable json_dumps : option nat -> json -> string.
Variable loads_BIDSVersion : string -> option json.
Variable format_subject : string -> value -> res string.
Variable copytree : path -> path -> M unit.
Variable _generate_html_head : string -> string.
Variables nav reviewer_initials html_foot : string.
Variable _flip_images : path -> path -> M unit.
Variable _drop_image : path -> path -> string -> M unit.

Hypothesis copytree_keeps : ∀ src dst, keeps (copytree src dst).
Hypothesis flip_images_keeps : ∀ src dst, keeps (_flip_images src dst).
Hypothesis drop_image_keeps : ∀ src dst layer, keeps (_drop_image src dst layer).

Lemma keeps_collect_reports (o : options) (mode : image_mode) (group_dir : path)
    (report_paths : list path) :
  keeps (collect_reports parse_file_entities BeautifulSoup format_subject
           copytree o mode group_dir report_paths).
Proof.
  induction report_paths as [|rp rps IH]; simpl; [apply keeps_ret|].
  case_bool_decide; [done|].
  unfold parse_report, link_figures, find_orig_fig_dir, place_figures.
  repeat keeps_step.
Qed.

(** X15. [make_report] removes nothing: whenever [copytree],
    [_flip_images] and [_drop_image] leave every directory and symbolic
    link in place and every file a file, so does the whole run, whether
    it succeeds or raises. What was there before can only change in the
    text of a file. *)
Theorem make_report_removes_nothing (o : options) (fs : files) :
  kept fs
    (make_report parse_file_entities BeautifulSoup json_dumps loads_BIDSVersion
       format_subject copytree _generate_html_head nav reviewer_initials
       html_foot _flip_images _drop_image o fs).1.
Proof.
  revert fs. change (keeps (make_report parse_file_entities BeautifulSoup json_dumps loads_BIDSVersion
       format_subject copytree _generate_html_head nav reviewer_initials
       html_foot _flip_images _drop_image o)).
  unfold make_report, prepare_group_dir, corpus, consolidate, write_chunk,
    change_image.
  pose proof keeps_collect_reports.
  repeat keeps_step.
Qed.

End Kept.

(** ** The properties above on the small instance *)

Lemma figures_linked_or_copied_witness :
  check_image_changes Toy.defaults = Ok Toy.no_changes
  ∧ entry_taken Toy.prepared Toy.subj_group_fig_dir = false
  ∧ place_figures Toy.copytree Toy.no_changes
      ["/"; "data"; "group"; "sub-01"]%string Toy.subj_group_fig_dir
      [".."; ".."; "sub-01"; "figures"]%string Toy.prepared
    = symlink_to Toy.subj_group_fig_dir
        [".."; ".."; "sub-01"; "figures"]%string Toy.prepared.
Proof.
  assert (check_image_changes Toy.defaults = Ok Toy.no_changes) as Hmode
    by reflexivity.
  assert (entry_taken Toy.prepared Toy.subj_group_fig_dir = false) as Hfree
    by (vm_compute; reflexivity).
  split; [exact Hmode|]. split; [exact Hfree|].
  apply (figures_linked_or_copied Toy.copytree Toy.defaults Toy.no_changes
           _ _ _ _ Hmode Hfree).
  repeat split.
Defined.

Lemma one_change_per_report_type_witness :
  ∃ mode, check_image_changes Toy.flip_and_fade = Ok mode
          ∧ pairwise_disjoint Toy.flip_and_fade.
Proof.
  assert (pairwise_disjoint Toy.flip_and_fade) as Hd.
  { intros name. simpl. set_solver. }
  destruct (check_image_changes_disjoint _ Hd) as (mode & Hmode & _).
  exists mode. split; [exact Hmode|].
  exact (proj1 (one_change_per_report_type _ _ Hmode)).
Defined.

Lemma no_report_nothing_to_concatenate_witness :
  check_image_changes Toy.figures_as_output = Ok Toy.no_changes
  ∧ (Toy.prepare_group_dir Toy.figures_as_output Toy.no_changes Toy.study).2
    = Ok ["/"; "data"; "sub-01"; "figures"; "group"]%string
  ∧ (Toy.make_report Toy.figures_as_output Toy.study).2
    = Raise (ValueError MsgNoObjectsToConcatenate).
Proof.
  assert (check_image_changes Toy.figures_as_output = Ok Toy.no_changes)
    as Hmode by reflexivity.
  assert ((Toy.prepare_group_dir Toy.figures_as_output Toy.no_changes
             Toy.study).2
          = Ok ["/"; "data"; "sub-01"; "figures"; "group"]%string) as Hprep
    by (vm_compute; reflexivity).
  split; [exact Hmode|]. split; [exact Hprep|].
  unfold Toy.make_report.
  rewrite (no_report_nothing_to_concatenate
             Toy.parse_file_entities Toy.BeautifulSoup Toy.json_dumps
             Toy.loads_BIDSVersion Toy.format_subject Toy.copytree
             Toy._generate_html_head Toy.nav Toy.reviewer_initials
             Toy.html_foot Toy._flip_images Toy._drop_image
             Toy.figures_as_output Toy.no_changes
             ["/"; "data"; "sub-01"; "figures"; "group"]%string Toy.study
             (Toy.prepare_group_dir Toy.figures_as_output Toy.no_changes
                Toy.study).1 Hmode).
  - reflexivity.
  - apply run_is; [reflexivity | exact Hprep].
  - left. simpl. set_solver.
Defined.

Lemma inferred_link_target_witness :
  path_to_figures Toy.defaults = None
  ∧ is_subject_report "sub-01.html" = true
  ∧ Path ("sub-" +:+ str (VStr "01")) = ["sub-01"%string]
  ∧ (find_orig_fig_dir Toy.format_subject Toy.defaults Toy.report_path
       (VStr "01") ["/"; "data"; "group"; "sub-01"]%string
       Toy.subj_group_fig_dir Toy.study_without_figures).2
    = Ok [".."; ".."; "sub-01"; "figures"]%string.
Proof.
  assert (path_to_figures Toy.defaults = None) as H1 by reflexivity.
  assert (is_subject_report "sub-01.html" = true) as H2 by reflexivity.
  assert (Path ("sub-" +:+ str (VStr "01")) = ["sub-01"%string]) as H3
    by reflexivity.
  split; [exact H1|]. split; [exact H2|]. split; [exact H3|].
  exact (f_equal snd
           (inferred_link_target Toy.format_subject Toy.defaults [] "sub-01.html"
              "sub-01" (VStr "01") Toy.study_without_figures H1 H2 H3)).
Defined.

Lemma missing_output_dir_aborts_witness :
  check_image_changes Toy.nowhere = Ok Toy.no_changes
  ∧ locate Toy.study ["/"; "nodata"]%string = Some ["nodata"%string]
  ∧ Toy.study !! ["nodata"%string] = None
  ∧ Toy.make_report Toy.nowhere Toy.study
    = (Toy.study,
       Raise (FileNotFoundError (MsgOS ["/"; "nodata"; "group"]%string))).
Proof.
  assert (check_image_changes Toy.nowhere = Ok Toy.no_changes) as Hmode
    by reflexivity.
  assert (locate Toy.study (["/"%string] ++ ["nodata"%string])
          = Some ["nodata"%string]) as Hq by (vm_compute; reflexivity).
  assert (Toy.study !! ["nodata"%string] = None) as Hnone
    by (vm_compute; reflexivity).
  split; [exact Hmode|]. split; [exact Hq|]. split; [exact Hnone|].
  apply (missing_output_dir_aborts
           Toy.parse_file_entities Toy.BeautifulSoup Toy.json_dumps
           Toy.loads_BIDSVersion Toy.format_subject Toy.copytree
           Toy._generate_html_head Toy.nav Toy.reviewer_initials
           Toy.html_foot Toy._flip_images Toy._drop_image
           Toy.nowhere Toy.no_changes ["/"%string] "nodata" ["nodata"%string]
           Toy.study Hmode eq_refl); [done | done | exact Hq | exact Hnone].
Defined.

Lemma rows_always_render_witness :
  ∃ df all groups,
    parse_soup Toy.parse_file_entities Toy.report_01 = Ok df
    ∧ concat_frames [df] = Ok all
    ∧ groupby "report_type" all = Ok groups.
Proof.
  assert (∃ df, parse_soup Toy.parse_file_entities Toy.report_01 = Ok df)
    as [df Hdf] by (eexists; vm_compute; reflexivity).
  assert (∃ all, concat_frames [df] = Ok all) as [all Hall]
    by (eexists; reflexivity).
  destruct (rows_always_render Toy.json_dumps Toy.parse_file_entities
              [df] all) as (groups & Hgroups & _).
  - constructor; [|constructor]. exists Toy.report_01. exact Hdf.
  - exact Hall.
  - exists df, all, groups. split; [exact Hdf|]. split; [exact Hall|exact Hgroups].
Defined.

Lemma zero_page_size_witness :
  reports_per_page Toy.zero_per_page = Some 0%Z
  ∧ image_changes Toy.no_changes = false
  ∧ (consolidate Toy.json_dumps Toy._generate_html_head Toy.nav
       Toy.reviewer_initials Toy.html_foot Toy._flip_images Toy._drop_image
       Toy.zero_per_page Toy.no_changes Toy.group_dir (VStr "reconall")
       Toy.five_rows Toy.prepared).2
    = Raise (ValueError MsgUnknownFormatCode).
Proof.
  split; [reflexivity|]. split; [reflexivity|].
  exact (f_equal snd
           (zero_page_size Toy.json_dumps Toy._generate_html_head Toy.nav
              Toy.reviewer_initials Toy.html_foot Toy._flip_images
              Toy._drop_image Toy.zero_per_page Toy.no_changes Toy.group_dir
              (VStr "reconall") Toy.five_rows Toy.prepared eq_refl eq_refl)).
Defined.

Lemma toy_copytree_keeps (src dst : path) : keeps (Toy.copytree src dst).
Proof. intros fs. apply kept_extends, toy_copytree_extends. Qed.

Lemma toy_flip_images_keeps (src dst : path) : keeps (Toy._flip_images src dst).
Proof. unfold Toy._flip_images. repeat keeps_step. Qed.

Lemma toy_drop_image_keeps (src dst : path) (layer : string) :
  keeps (Toy._drop_image src dst layer).
Proof. unfold Toy._drop_image. repeat keeps_step. Qed.

Lemma make_report_removes_nothing_witness :
  (∀ src dst, keeps (Toy.copytree src dst))
  ∧ (∀ src dst, keeps (Toy._flip_images src dst))
  ∧ (∀ src dst layer, keeps (Toy._drop_image src dst layer))
  ∧ ∃ content,
      (Toy.make_report Toy.flip_reconall Toy.study).1
        !! ["data"; "sub-01"; "figures"; "sub-01_desc-reconall_T1w.svg"]%string
      = Some (File content).
Proof.
  split; [exact toy_copytree_keeps|]. split; [exact toy_flip_images_keeps|].
  split; [exact toy_drop_image_keeps|].
  exact (make_report_removes_nothing
           Toy.parse_file_entities Toy.BeautifulSoup Toy.json_dumps
           Toy.loads_BIDSVersion Toy.format_subject Toy.copytree
           Toy._generate_html_head Toy.nav Toy.reviewer_initials
           Toy.html_foot Toy._flip_images Toy._drop_image
           toy_copytree_keeps toy_flip_images_keeps toy_drop_image_keeps
           Toy.flip_reconall Toy.study
           ["data"; "sub-01"; "figures"; "sub-01_desc-reconall_T1w.svg"]%string
           (File "<svg>reconall</svg>") eq_refl).
Defined.

(** * The run as a whole *)

Lemma group_rows_without_nulls (c : string) (rows : list dict) :
  ∀ groups,
    fold_left (λ groups r, if isnull (cell c r) then groups
                           else insert_group (cell c r) r groups)
              (filter (λ r, isnull (cell c r) = false) rows) groups
    = fold_left (λ groups r, if isnull (cell c r) then groups
                             else insert_group (cell c r) r groups)
                rows groups.
Proof.
  induction rows as [|r rows IH]; intros groups; [done|].
  rewrite filter_cons. simpl.
  destruct (isnull (cell c r)) eqn:E.
  - rewrite decide_False by done. apply IH.
  - rewrite decide_True by done. simpl. rewrite E. apply IH.
Qed.

Lemma groupby_without_nulls (c : string) (df : DataFrame) :
  groupby c (mkDataFrame (columns df)
               (filter (λ r, isnull (cell c r) = false) (records df)))
  = groupby c df.
Proof.
  unfold groupby, group_rows. simpl. by rewrite group_rows_without_nulls.
Qed.

Lemma parsed_reports_groupable (pfe : string → dict) (reports : list DataFrame)
    (all : DataFrame) :
  Forall (λ report, ∃ soup, parse_soup pfe soup = Ok report) reports →
  concat_frames reports = Ok all →
  "report_type"%string ∈ columns all.
Proof.
  intros Hreports Hall.
  destruct (concat_frames_spec _ _ Hall) as (Hcols & _).
  destruct reports as [|report reports']; [done|]. apply Hcols.
  exists report. split; [by left|].
  apply Forall_cons in Hreports as [[soup Hsoup] _].
  by apply parse_soup_renderable in Hsoup as (_ & ? & _).
Qed.


(** Resolution in a tree where nothing was removed. *)
Lemma entry_at_kept_dir (fs fs' : files) (q : path) :
  kept fs fs' → entry_at fs q = Some Dir → entry_at fs' q = Some Dir.
Proof.
  intros Hkept. destruct q as [|a q]; [done|]. simpl. intros Hq.
  by apply (Hkept _ Dir).
Qed.

Lemma walk_kept (follow follow' : path → path → option path) (fs fs' : files) :
  kept fs fs' →
  (∀ cur t q, follow cur t = Some q → follow' cur t = Some q) →
  ∀ todo cur q, walk follow fs cur todo = Some q →
                walk follow' fs' cur todo = Some q.
Proof.
  intros Hkept Hfollow. induction todo as [|c todo IH]; intros cur q; simpl.
  - done.
  - destruct (String.eqb c "/"); [apply IH|].
    destruct (entry_at fs cur) as [[]|] eqn:Hcur; try done.
    rewrite (entry_at_kept_dir _ _ _ Hkept Hcur).
    destruct (String.eqb c ".."); [apply IH|].
    destruct (fs !! (cur ++ [c])) as [[| |t]|] eqn:Hc; [| | |done].
    + rewrite (Hkept _ Dir Hc). apply IH.
    + destruct (Hkept _ (File content) Hc) as [content' ->]. apply IH.
    + rewrite (Hkept _ (Symlink t) Hc).
      destruct (follow cur t) as [q'|] eqn:Hf; [|done].
      rewrite (Hfollow _ _ _ Hf). apply IH.
Qed.

Lemma realpath_kept (fs fs' : files) (fuel : nat) :
  kept fs fs' →
  ∀ cur todo q, realpath fuel fs cur todo = Some q →
                realpath fuel fs' cur todo = Some q.
Proof.
  intros Hkept. induction fuel as [|fuel IH]; intros cur todo q; simpl; [done|].
  apply walk_kept; [done|]. intros cur' t q'. apply IH.
Qed.

Lemma resolve_kept (fs fs' : files) (p q : path) :
  kept fs fs' → resolve fs p = Some q → resolve fs' p = Some q.
Proof. intros Hkept. by apply realpath_kept. Qed.

Lemma locate_kept (fs fs' : files) (p q : path) :
  kept fs fs' → locate fs p = Some q → locate fs' p = Some q.
Proof.
  intros Hkept. unfold locate. destruct (last p) as [name|]; [|done].
  destruct (String.eqb name "/" || String.eqb name "..");
    [by apply resolve_kept|].
  destruct (resolve fs (removelast p)) as [d|] eqn:Hd; [|done].
  rewrite (resolve_kept _ _ _ _ Hkept Hd).
  destruct (entry_at fs d) as [[]|] eqn:Hdir; try done.
  by rewrite (entry_at_kept_dir _ _ _ Hkept Hdir).
Qed.

Lemma open_location_kept (fs fs' : files) (fuel : nat) :
  kept fs fs' →
  ∀ p q, open_location fuel fs p = Ok q →
         (∃ content, fs' !! q = Some (File content)) →
         open_location fuel fs' p = Ok q.
Proof.
  intros Hkept. induction fuel as [|fuel IH]; intros p q; simpl.
  - destruct (locate fs p) as [q0|] eqn:Hloc; [|done].
    rewrite (locate_kept _ _ _ _ Hkept Hloc).
    destruct q0 as [|a q0]; [done|]. simpl.
    destruct (fs !! (a :: q0)) as [[| |t]|] eqn:E; [done| |done|].
    + intros [= <-] [c ->]. done.
    + intros [= <-] [c ->]. done.
  - destruct (locate fs p) as [q0|] eqn:Hloc; [|done].
    rewrite (locate_kept _ _ _ _ Hkept Hloc).
    destruct q0 as [|a q0]; [done|]. simpl.
    destruct (fs !! (a :: q0)) as [[| |t]|] eqn:E; [done| | |].
    + intros [= <-] [c ->]. done.
    + rewrite (Hkept _ (Symlink t) E). apply IH.
    + intros [= <-] [c ->]. done.
Qed.

Lemma is_file_at_kept (fs fs' : files) (p q : path) :
  kept fs fs' → is_file_at fs p q → is_file_at fs' p q.
Proof.
  intros Hkept [Hopen [c Hc]].
  assert (∃ content, fs' !! q = Some (File content)) as Hfile
    by apply (Hkept _ (File c) Hc).
  split; [|done]. by eapply open_location_kept.
Qed.

Lemma write_text_written (p : path) (s : string) (fs fs' : files) :
  write_text p s fs = (fs', Ok tt) →
  ∃ q, open_location symloop_max fs p = Ok q
       ∧ fs' = <[q := File s]> fs
       ∧ is_file_at fs' p q.
Proof.
  intros Hw. pose proof (keeps_write_text p s fs) as Hkept.
  unfold write_text in *.
  destruct (open_location symloop_max fs p) as [q|] eqn:Hopen; [|done].
  injection Hw as <-. simpl in Hkept. exists q.
  split; [done|]. split; [done|].
  assert (∃ content, <[q := File s]> fs !! q = Some (File content)) as Hfile
    by (exists s; apply lookup_insert_eq).
  split; [|done]. by eapply open_location_kept.
Qed.

(** What holds of an element once its turn has come stays when the
    rest of a loop removes nothing. *)
Lemma for_each_post {A} (body : A → M unit) (P : A → files → Prop)
    (l : list A) :
  (∀ a, keeps (body a)) →
  (∀ a fs fs', body a fs = (fs', Ok tt) → P a fs') →
  (∀ a fs fs', P a fs → kept fs fs' → P a fs') →
  ∀ fs fs', for_each l body fs = (fs', Ok tt) → ∀ a, a ∈ l → P a fs'.
Proof.
  intros Hkeeps Hpost Hstable. induction l as [|a l IH]; intros fs fs' Hrun b Hb.
  - by apply elem_of_nil in Hb.
  - simpl in Hrun. unfold bind in Hrun.
    destruct (body a fs) as [fs1 [[]|]] eqn:Ha; [|done].
    apply elem_of_cons in Hb as [->|Hb]; [|by eapply IH].
    eapply Hstable; [by eapply Hpost|].
    pose proof (keeps_for_each l body Hkeeps fs1) as Hrest.
    by rewrite Hrun in Hrest.
Qed.

(** The entries that a loop changes are those that its turns change. *)
Lemma for_each_changes {A} (body : A → M unit) (W : A → path → files → Prop)
    (l : list A) :
  (∀ a, keeps (body a)) →
  (∀ a fs fs', body a fs = (fs', Ok tt) →
               ∀ q, fs' !! q = fs !! q ∨ W a q fs') →
  (∀ a q fs fs', W a q fs → kept fs fs' → W a q fs') →
  ∀ fs fs', for_each l body fs = (fs', Ok tt) →
    ∀ q, fs' !! q = fs !! q ∨ ∃ a, a ∈ l ∧ W a q fs'.
Proof.
  intros Hkeeps Hstep Hstable. induction l as [|a l IH]; intros fs fs' Hrun q.
  - simpl in Hrun. injection Hrun as <-. by left.
  - simpl in Hrun. unfold bind in Hrun.
    destruct (body a fs) as [fs1 [[]|]] eqn:Ha; [|done].
    pose proof (keeps_for_each l body Hkeeps fs1) as Hrest.
    rewrite Hrun in Hrest. simpl in Hrest.
    destruct (IH _ _ Hrun q) as [Heq|(b & Hb & Hw)].
    + destruct (Hstep _ _ _ Ha q) as [Heq1|Hw].
      * left. congruence.
      * right. exists a. split; [by left|]. by eapply Hstable.
    + right. exists b. split; [by right|done].
Qed.

Section WholeRun.

Variable parse_file_entities : string -> dict.
Variable BeautifulSoup : string -> node.
Variable json_dumps : option nat -> json -> string.
Variable loads_BIDSVersion : string -> option json.
Variable format_subject : string -> value -> res string.
Variable copytree : path -> path -> M unit.
Variable _generate_html_head : string -> string.
Variables nav reviewer_initials html_foot : string.
Variable _flip_images : path -> path -> M unit.
Variable _drop_image : path -> path -> string -> M unit.

Hypothesis flip_images_keeps : ∀ src dst, keeps (_flip_images src dst).
Hypothesis drop_image_keeps : ∀ src dst layer, keeps (_drop_image src dst layer).

Lemma collect_reports_parsed (o : options) (mode : image_mode)
    (group_dir : path) (report_paths : list path) :
  ∀ fs fs' reports,
    collect_reports parse_file_entities BeautifulSoup format_subject copytree
      o mode group_dir report_paths fs = (fs', Ok reports) →
    Forall (λ report, ∃ soup, parse_soup parse_file_entities soup = Ok report)
           reports.
Proof.
  induction report_paths as [|rp rps IH]; intros fs fs' reports; simpl.
  - intros [= <- <-]. constructor.
  - case_bool_decide; [apply IH|]. unfold bind, ret.
    destruct (parse_report _ _ rp fs) as [fsa [report|e]] eqn:Hparse; [|done].
    destruct (link_figures _ _ _ _ _ _ _ fsa) as [fsb [[]|]]; [|done].
    destruct (collect_reports _ _ _ _ _ _ _ rps fsb) as [fsc [reports'|]] eqn:Hrest;
      [|done].
    intros [= <- <-]. constructor; [|by eapply IH].
    unfold parse_report, bind, lift in Hparse.
    destruct (read_text rp fs) as [fsr [html|]]; [|done].
    injection Hparse as <- Hparse. eauto.
Qed.

Lemma corpus_groupable (o : options) (mode : image_mode) (group_dir : path)
    (fs fs' : files) (reports : DataFrame) :
  corpus parse_file_entities BeautifulSoup format_subject copytree
    o mode group_dir fs = (fs', Ok reports) →
  "report_type"%string ∈ columns reports.
Proof.
  unfold corpus, bind, lift.
  destruct (glob_subject_reports _ fs) as [fsa [rps|]]; [|done].
  destruct (collect_reports _ _ _ _ _ _ _ rps fsa) as [fsb [tables|]] eqn:Hc;
    [|done].
  destruct (concat_frames tables) as [all|] eqn:Hall; [|done].
  intros [= <- <-].
  eapply parsed_reports_groupable; [|exact Hall].
  by eapply collect_reports_parsed.
Qed.


(** C1, as the code has it. The report type of a row of a parsed report
    is its [desc] value, else 'dseg' when that is its suffix, else its
    [space] value when the table has this column, and it stays null when
    no rule applies. Grouping by report type raises nothing for such a
    row: every group has a non-null key and holds rows of that key, and
    the groups together hold exactly the rows whose report type is not
    null. What [make_report] renders is these groups and nothing else: it
    goes on from the table of all reports as the loop over the groups of
    that table, which are the groups of the table without the rows of
    null report type, so such a row is in no group, on no page, and
    changes nothing in the run. *)
Theorem report_type_rules_and_grouping :
  (∀ (pfe : string → dict) (soup : node) (df : DataFrame),
     parse_soup pfe soup = Ok df →
     ∀ row, row ∈ records df →
       cell "report_type" row
       = rule_chain (bool_decide ("space"%string ∈ columns df)) row)
  ∧ (∀ reports : DataFrame,
       "report_type"%string ∈ columns reports →
       ∃ groups, groupby "report_type" reports = Ok groups
         ∧ (∀ k g, (k, g) ∈ groups →
              isnull k = false ∧ ∀ r, r ∈ records g → cell "report_type" r = k)
         ∧ flat_map (λ kg : value * DataFrame, records kg.2) groups
           ≡ₚ filter (λ r, isnull (cell "report_type" r) = false)
                     (records reports))
  ∧ (∀ (o : options) (mode : image_mode) (group_dir : path)
       (fs fs1 fs2 : files) (reports : DataFrame),
       check_image_changes o = Ok mode →
       prepare_group_dir json_dumps loads_BIDSVersion o mode fs
       = (fs1, Ok group_dir) →
       corpus parse_file_entities BeautifulSoup format_subject copytree
         o mode group_dir fs1 = (fs2, Ok reports) →
       ∃ groups,
         groupby "report_type" reports = Ok groups
         ∧ groupby "report_type"
             (mkDataFrame (columns reports)
                (filter (λ r, isnull (cell "report_type" r) = false)
                        (records reports)))
           = Ok groups
         ∧ (∀ k g, (k, g) ∈ groups →
              isnull k = false
              ∧ ∀ r, r ∈ records g →
                  cell "report_type" r = k ∧ r ∈ records reports)
         ∧ (∀ r, r ∈ records reports →
              isnull (cell "report_type" r) = true →
              ∀ k g, (k, g) ∈ groups → r ∉ records g)
         ∧ make_report parse_file_entities BeautifulSoup json_dumps
             loads_BIDSVersion format_subject copytree _generate_html_head
             nav reviewer_initials html_foot _flip_images _drop_image o fs
           = for_each groups
               (λ g : value * DataFrame,
                  consolidate json_dumps _generate_html_head nav
                    reviewer_initials html_foot _flip_images _drop_image
                    o mode group_dir g.1 g.2)
               fs2).
Proof.
  split; [|split].
  - intros pfe soup df Hparse row Hrow.
    apply parse_soup_records in Hparse as (rows & _ & Hcols & Hrec).
    rewrite Hrec in Hrow. apply list_elem_of_fmap in Hrow as (r & -> & _).
    unfold classified. rewrite cell_set_eq, rule_chain_set.
    f_equal. rewrite Hcols. apply bool_decide_ext.
    rewrite elem_of_add_key. naive_solver.
  - intros reports Hc. by apply groupby_spec.
  - intros o mode group_dir fs fs1 fs2 reports Hcheck Hprep Hcorpus.
    pose proof (corpus_groupable _ _ _ _ _ _ Hcorpus) as Hrt.
    destruct (groupby_spec "report_type" reports Hrt)
      as (groups & Hgroups & Hkeys & Hperm).
    exists groups. split; [done|].
    split; [by rewrite groupby_without_nulls|].
    split; [|split].
    + intros k g Hg. destruct (Hkeys k g Hg) as [Hk Hrows].
      split; [done|]. intros r Hr. split; [by apply Hrows|].
      by apply (groupby_rows _ _ _ Hgroups k g Hg).
    + intros r _ Hnull k g Hg Hr.
      destruct (Hkeys k g Hg) as [Hk Hrows].
      rewrite <- (Hrows r Hr) in Hk. congruence.
    + unfold make_report, bind, lift. by rewrite Hcheck, Hprep, Hcorpus, Hgroups.
Qed.


Lemma keeps_write_chunk (group_dir : path) (report_type chunk : value)
    (cdf : DataFrame) :
  keeps (write_chunk json_dumps _generate_html_head nav reviewer_initials
           html_foot group_dir report_type chunk cdf).
Proof. unfold write_chunk. repeat keeps_step. Qed.

Lemma keeps_consolidate (o : options) (mode : image_mode) (group_dir : path)
    (report_type : value) (rtdf : DataFrame) :
  keeps (consolidate json_dumps _generate_html_head nav reviewer_initials
           html_foot _flip_images _drop_image o mode group_dir report_type rtdf).
Proof.
  unfold consolidate, write_chunk, change_image. repeat keeps_step.
Qed.

Lemma write_chunk_written (group_dir : path) (report_type chunk : value)
    (cdf : DataFrame) (fs fs' : files) :
  write_chunk json_dumps _generate_html_head nav reviewer_initials html_foot
    group_dir report_type chunk cdf fs = (fs', Ok tt) →
  ∃ number snippets q,
    format_03d chunk = Ok number
    ∧ res_map (_make_report_snippet json_dumps) (records (rebase_idx cdf))
      = Ok snippets
    ∧ open_location symloop_max fs
        (joinpath group_dir
           (Path ("consolidated_" +:+ str report_type +:+ "_" +:+ number
                    +:+ ".html"))) = Ok q
    ∧ fs' = <[q := File (String.concat nl [
                _generate_html_head
                  ("consolidated_" +:+ str report_type +:+ "_" +:+ number
                     +:+ ".tsv");
                nav; reviewer_initials; String.concat nl snippets;
                html_foot])]> fs
    ∧ is_file_at fs'
        (joinpath group_dir
           (Path ("consolidated_" +:+ str report_type +:+ "_" +:+ number
                    +:+ ".html"))) q.
Proof.
  unfold write_chunk, bind, lift, chunk_name.
  destruct (format_03d chunk) as [number|] eqn:Hnum; [|done].
  destruct (res_map _ (records (rebase_idx cdf))) as [snippets|]; [|done].
  intros Hw. apply write_text_written in Hw as (q & Hopen & Hfs & Hfile).
  by exists number, snippets, q.
Qed.

Lemma pages_written (group_dir : path) (report_type : value)
    (chunks : list (value * DataFrame)) (fs fs' : files) :
  for_each chunks
    (λ cc : value * DataFrame,
       write_chunk json_dumps _generate_html_head nav reviewer_initials
         html_foot group_dir report_type cc.1 cc.2) fs = (fs', Ok tt) →
  (∀ cc, cc ∈ chunks → page_written group_dir report_type cc fs')
  ∧ ∀ q, fs' !! q = fs !! q
         ∨ ∃ cc, cc ∈ chunks ∧ page_at group_dir report_type cc q fs'.
Proof.
  intros Hrun. split.
  - eapply (for_each_post _ (page_written group_dir report_type));
      [| | |exact Hrun].
    + intros cc. apply keeps_write_chunk.
    + intros cc fsa fsb Hw.
      apply write_chunk_written in Hw
        as (number & snippets & q & Hnum & _ & _ & _ & Hfile).
      by exists number, q.
    + intros cc fsa fsb (number & q & Hnum & Hfile) Hkept.
      exists number, q. split; [done|]. by eapply is_file_at_kept.
  - eapply (for_each_changes _ (page_at group_dir report_type));
      [| | |exact Hrun].
    + intros cc. apply keeps_write_chunk.
    + intros cc fsa fsb Hw q.
      apply write_chunk_written in Hw
        as (number & snippets & q0 & Hnum & _ & _ & -> & Hfile).
      destruct (decide (q0 = q)) as [<-|Hne].
      * right. by exists number.
      * left. by rewrite lookup_insert_ne.
    + intros cc q fsa fsb (number & Hnum & Hfile) Hkept.
      exists number. split; [done|]. by eapply is_file_at_kept.
Qed.

Lemma consolidate_pages (o : options) (mode : image_mode) (group_dir : path)
    (report_type : value) (rtdf : DataFrame) (fs fs' : files) :
  consolidate json_dumps _generate_html_head nav reviewer_initials html_foot
    _flip_images _drop_image o mode group_dir report_type rtdf fs
  = (fs', Ok tt) →
  ∃ fs0 paged chunks,
    with_chunk (reports_per_page o) (with_idx rtdf) = Ok paged
    ∧ groupby "chunk" paged = Ok chunks
    ∧ (image_changes mode = false → fs0 = fs)
    ∧ for_each chunks
        (λ cc : value * DataFrame,
           write_chunk json_dumps _generate_html_head nav reviewer_initials
             html_foot group_dir report_type cc.1 cc.2) fs0 = (fs', Ok tt).
Proof.
  unfold consolidate, bind, lift.
  match goal with
  | |- context [(if ?b then ?m else ret tt) fs] =>
      destruct ((if b then m else ret tt) fs) as [fs0 [[]|]] eqn:Hchanges
  end; [|intros [=]].
  destruct (with_chunk _ _) as [paged|] eqn:Hpaged; [|intros [=]].
  destruct (groupby "chunk" paged) as [chunks|] eqn:Hchunks; [|intros [=]].
  intros Hrun. exists fs0, paged, chunks.
  split; [done|]. split; [done|]. split; [|done].
  intros Hmode. rewrite Hmode in Hchanges. simpl in Hchanges.
  unfold ret in Hchanges. congruence.
Qed.

(** C3, as the code has it. A page that is written is one file, the
    document [consolidated_{report_type}_{chunk:03d}.html] in the group
    directory: the file system after the step is the one before with that
    one entry set; the name with the extension [.tsv] goes into the head
    of the document and nowhere else; a non-negative chunk is written
    with at least three digits. When [make_report] ends without an error,
    every chunk of every report type of the table of all reports has its
    document: the path leads to a file of the final tree. Without image
    changes, the entries in which the final tree differs from the tree
    after the loop over the reports are all such documents, so no file
    with the extension [.tsv] is written. *)
Theorem consolidated_page_is_one_html_file :
  (∀ group_dir report_type chunk cdf fs fs',
     write_chunk json_dumps _generate_html_head nav reviewer_initials html_foot
       group_dir report_type chunk cdf fs = (fs', Ok tt) →
     ∃ number snippets q,
       format_03d chunk = Ok number
       ∧ (∀ z, chunk = VInt z → (0 ≤ z)%Z → number = zfill 3 (str_of_Z z))
       ∧ res_map (_make_report_snippet json_dumps) (records (rebase_idx cdf))
         = Ok snippets
       ∧ open_location symloop_max fs
           (joinpath group_dir
              (Path ("consolidated_" +:+ str report_type +:+ "_" +:+ number
                       +:+ ".html"))) = Ok q
       ∧ fs' = <[q := File (String.concat nl [
                   _generate_html_head
                     ("consolidated_" +:+ str report_type +:+ "_" +:+ number
                        +:+ ".tsv");
                   nav; reviewer_initials; String.concat nl snippets;
                   html_foot])]> fs)
  ∧ (∀ (o : options) (mode : image_mode) (group_dir : path)
       (fs fs1 fs2 fs' : files) (reports : DataFrame),
       check_image_changes o = Ok mode →
       prepare_group_dir json_dumps loads_BIDSVersion o mode fs
       = (fs1, Ok group_dir) →
       corpus parse_file_entities BeautifulSoup format_subject copytree
         o mode group_dir fs1 = (fs2, Ok reports) →
       make_report parse_file_entities BeautifulSoup json_dumps
         loads_BIDSVersion format_subject copytree _generate_html_head
         nav reviewer_initials html_foot _flip_images _drop_image o fs
       = (fs', Ok tt) →
       ∃ groups,
         groupby "report_type" reports = Ok groups
         ∧ (∀ report_type rtdf, (report_type, rtdf) ∈ groups →
              ∃ paged chunks,
                with_chunk (reports_per_page o) (with_idx rtdf) = Ok paged
                ∧ groupby "chunk" paged = Ok chunks
                ∧ ∀ chunk cdf, (chunk, cdf) ∈ chunks →
                    ∃ number q content,
                      format_03d chunk = Ok number
                      ∧ open_location symloop_max fs'
                          (joinpath group_dir
                             (Path ("consolidated_" +:+ str report_type
                                      +:+ "_" +:+ number +:+ ".html")))
                        = Ok q
                      ∧ fs' !! q = Some (File content))
         ∧ (image_changes mode = false →
            ∀ q, fs' !! q = fs2 !! q
                 ∨ ∃ report_type rtdf paged chunks chunk cdf number,
                     (report_type, rtdf) ∈ groups
                     ∧ with_chunk (reports_per_page o) (with_idx rtdf)
                       = Ok paged
                     ∧ groupby "chunk" paged = Ok chunks
                     ∧ (chunk, cdf) ∈ chunks
                     ∧ format_03d chunk = Ok number
                     ∧ open_location symloop_max fs'
                         (joinpath group_dir
                            (Path ("consolidated_" +:+ str report_type
                                     +:+ "_" +:+ number +:+ ".html")))
                       = Ok q)).
Proof.
  split.
  - intros group_dir report_type chunk cdf fs fs' Hw.
    apply write_chunk_written in Hw
      as (number & snippets & q & Hnum & Hsn & Hopen & Hfs & _).
    exists number, snippets, q. split; [done|]. split; [|done].
    intros z -> Hz. simpl in Hnum.
    rewrite (proj2 (Z.ltb_ge z 0)) in Hnum by done. congruence.
  - intros o mode group_dir fs fs1 fs2 fs' reports Hcheck Hprep Hcorpus Hrun.
    pose proof (corpus_groupable _ _ _ _ _ _ Hcorpus) as Hrt.
    destruct (groupby_spec "report_type" reports Hrt)
      as (groups & Hgroups & _ & _).
    unfold make_report, bind, lift in Hrun.
    rewrite Hcheck, Hprep, Hcorpus, Hgroups in Hrun.
    exists groups. split; [done|]. split.
    + intros report_type rtdf Hg.
      pose (P := λ (g : value * DataFrame) (fs : files),
             ∃ paged chunks,
               with_chunk (reports_per_page o) (with_idx g.2) = Ok paged
               ∧ groupby "chunk" paged = Ok chunks
               ∧ ∀ cc, cc ∈ chunks → page_written group_dir g.1 cc fs).
      assert (P (report_type, rtdf) fs')
        as (paged & chunks & Hpaged & Hchunks & Hpages).
      { refine (for_each_post _ P groups _ _ _ fs2 fs' Hrun _ Hg).
        - intros g. apply keeps_consolidate.
        - intros g fsa fsb Hc.
          apply consolidate_pages in Hc
            as (fs0 & paged & chunks & Hpaged & Hchunks & _ & Hc).
          exists paged, chunks. split; [done|]. split; [done|].
          by apply pages_written in Hc as [Hc _].
        - intros g fsa fsb (paged & chunks & Hpaged & Hchunks & Hpages) Hkept.
          exists paged, chunks. split; [done|]. split; [done|].
          intros cc Hcc. destruct (Hpages cc Hcc) as (number & q & Hnum & Hfile).
          exists number, q. split; [done|]. by eapply is_file_at_kept. }
      exists paged, chunks. split; [done|]. split; [done|].
      intros chunk cdf Hcc.
      destruct (Hpages _ Hcc) as (number & q & Hnum & Hopen & content & Hq).
      by exists number, q, content.
    + intros Hmode q.
      pose (W := λ (g : value * DataFrame) (q : path) (fs : files),
             ∃ paged chunks cc,
               with_chunk (reports_per_page o) (with_idx g.2) = Ok paged
               ∧ groupby "chunk" paged = Ok chunks
               ∧ cc ∈ chunks ∧ page_at group_dir g.1 cc q fs).
      assert (fs' !! q = fs2 !! q ∨ ∃ g, g ∈ groups ∧ W g q fs')
        as [Heq|([rt rtdf] & Hg & paged & chunks & [chunk cdf] & Hpaged
                 & Hchunks & Hcc & number & Hnum & Hopen & _)].
      { refine (for_each_changes _ W groups _ _ _ fs2 fs' Hrun q).
        - intros g. apply keeps_consolidate.
        - intros g fsa fsb Hc q'.
          apply consolidate_pages in Hc
            as (fs0 & paged & chunks & Hpaged & Hchunks & Hfs0 & Hc).
          rewrite (Hfs0 Hmode) in Hc.
          apply pages_written in Hc as [_ Hc].
          destruct (Hc q') as [Heq|(cc & Hcc & Hpage)]; [by left|].
          right. by exists paged, chunks, cc.
        - intros g q' fsa fsb (paged & chunks & cc & Hpaged & Hchunks & Hcc
                               & number & Hnum & Hfile) Hkept.
          exists paged, chunks, cc. split; [done|]. split; [done|].
          split; [done|]. exists number. split; [done|].
          by eapply is_file_at_kept. }
      * by left.
      * right. by exists rt, rtdf, paged, chunks, chunk, cdf, number.
Qed.

End WholeRun.

(** ** The run of the small instance *)

Lemma report_type_rules_and_grouping_witness :
  ∃ reports groups row,
    check_image_changes Toy.defaults = Ok Toy.no_changes
    ∧ (Toy.corpus Toy.defaults Toy.no_changes Toy.group_dir Toy.prepared).2
      = Ok reports
    ∧ records reports !! 1 = Some row
    ∧ isnull (cell "report_type" row) = true
    ∧ groupby "report_type" reports = Ok groups
    ∧ (∀ k g, (k, g) ∈ groups → row ∉ records g)
    ∧ Toy.make_report Toy.defaults Toy.study
      = for_each groups
          (λ g : value * DataFrame,
             consolidate Toy.json_dumps Toy._generate_html_head Toy.nav
               Toy.reviewer_initials Toy.html_foot Toy._flip_images
               Toy._drop_image Toy.defaults Toy.no_changes Toy.group_dir
               g.1 g.2)
          (Toy.corpus Toy.defaults Toy.no_changes Toy.group_dir Toy.prepared).1.
Proof.
  assert (check_image_changes Toy.defaults = Ok Toy.no_changes) as Hcheck
    by reflexivity.
  assert (Toy.prepare_group_dir Toy.defaults Toy.no_changes Toy.study
          = (Toy.prepared, Ok Toy.group_dir)) as Hprep
    by (apply run_is; [reflexivity | vm_compute; reflexivity]).
  assert (∃ reports row,
            (Toy.corpus Toy.defaults Toy.no_changes Toy.group_dir Toy.prepared).2
            = Ok reports
            ∧ records reports !! 1 = Some row
            ∧ isnull (cell "report_type" row) = true)
    as (reports & row & Hreports & Hrow & Hnull).
  { do 2 eexists. split; [vm_compute; reflexivity|].
    split; reflexivity. }
  assert (Toy.corpus Toy.defaults Toy.no_changes Toy.group_dir Toy.prepared
          = ((Toy.corpus Toy.defaults Toy.no_changes Toy.group_dir
                Toy.prepared).1, Ok reports)) as Hcorpus
    by (apply run_is; [reflexivity | exact Hreports]).
  destruct (report_type_rules_and_grouping
              Toy.parse_file_entities Toy.BeautifulSoup Toy.json_dumps
              Toy.loads_BIDSVersion Toy.format_subject Toy.copytree
              Toy._generate_html_head Toy.nav Toy.reviewer_initials
              Toy.html_foot Toy._flip_images Toy._drop_image)
    as (_ & _ & Hrun).
  destruct (Hrun Toy.defaults Toy.no_changes Toy.group_dir Toy.study
              Toy.prepared _ reports Hcheck Hprep Hcorpus)
    as (groups & Hgroups & _ & _ & Hout & Heq).
  exists reports, groups, row.
  split; [exact Hcheck|]. split; [exact Hreports|]. split; [exact Hrow|].
  split; [exact Hnull|]. split; [exact Hgroups|]. split; [|exact Heq].
  apply Hout; [|exact Hnull]. eapply list_elem_of_lookup_2. exact Hrow.
Defined.

Lemma consolidated_page_is_one_html_file_witness :
  (∀ src dst, keeps (Toy._flip_images src dst))
  ∧ (∀ src dst layer, keeps (Toy._drop_image src dst layer))
  ∧ (Toy.make_report Toy.defaults Toy.study).2 = Ok tt
  ∧ ∃ reports groups,
      (Toy.corpus Toy.defaults Toy.no_changes Toy.group_dir Toy.prepared).2
      = Ok reports
      ∧ groupby "report_type" reports = Ok groups
      ∧ ∀ report_type rtdf, (report_type, rtdf) ∈ groups →
          ∃ paged chunks,
            with_chunk (reports_per_page Toy.defaults) (with_idx rtdf)
            = Ok paged
            ∧ groupby "chunk" paged = Ok chunks
            ∧ ∀ chunk cdf, (chunk, cdf) ∈ chunks →
                ∃ number q content,
                  format_03d chunk = Ok number
                  ∧ open_location symloop_max
                      (Toy.make_report Toy.defaults Toy.study).1
                      (joinpath Toy.group_dir
                         (Path ("consolidated_" +:+ str report_type
                                  +:+ "_" +:+ number +:+ ".html")))
                    = Ok q
                  ∧ (Toy.make_report Toy.defaults Toy.study).1 !! q
                    = Some (File content).
Proof.
  split; [exact toy_flip_images_keeps|].
  split; [exact toy_drop_image_keeps|].
  assert ((Toy.make_report Toy.defaults Toy.study).2 = Ok tt) as Hok
    by (vm_compute; reflexivity).
  split; [exact Hok|].
  assert (check_image_changes Toy.defaults = Ok Toy.no_changes) as Hcheck
    by reflexivity.
  assert (Toy.prepare_group_dir Toy.defaults Toy.no_changes Toy.study
          = (Toy.prepared, Ok Toy.group_dir)) as Hprep
    by (apply run_is; [reflexivity | vm_compute; reflexivity]).
  assert (∃ reports,
            (Toy.corpus Toy.defaults Toy.no_changes Toy.group_dir Toy.prepared).2
            = Ok reports) as (reports & Hreports)
    by (eexists; vm_compute; reflexivity).
  assert (Toy.corpus Toy.defaults Toy.no_changes Toy.group_dir Toy.prepared
          = ((Toy.corpus Toy.defaults Toy.no_changes Toy.group_dir
                Toy.prepared).1, Ok reports)) as Hcorpus
    by (apply run_is; [reflexivity | exact Hreports]).
  assert (Toy.make_report Toy.defaults Toy.study
          = ((Toy.make_report Toy.defaults Toy.study).1, Ok tt)) as Hrun
    by (apply run_is; [reflexivity | exact Hok]).
  destruct (consolidated_page_is_one_html_file
              Toy.parse_file_entities Toy.BeautifulSoup Toy.json_dumps
              Toy.loads_BIDSVersion Toy.format_subject Toy.copytree
              Toy._generate_html_head Toy.nav Toy.reviewer_initials
              Toy.html_foot Toy._flip_images Toy._drop_image
              toy_flip_images_keeps toy_drop_image_keeps)
    as (_ & Hpages).
  destruct (Hpages Toy.defaults Toy.no_changes Toy.group_dir Toy.study
              Toy.prepared _ _ reports Hcheck Hprep Hcorpus Hrun)
    as (groups & Hgroups & Hall & _).
  exists reports, groups. split; [exact Hreports|]. split; [exact Hgroups|].
  exact Hall.
Defined.
